(** * Login automation and session lifecycle of the timetable server

    A shallow embedding of the two modules that produce and maintain the
    authenticated portal session, and of their caller:

    - [login.js] (class [LPUAutomatedLogin]): configuration check, the
      hash puzzle and case restoration of [convertCaptchaText], the
      success test of [submitLoginForm], the cookie merge of
      [extractAndSaveCookies], and the pipeline [runAutomation];
    - [src/modules/auth.js] (class [AuthManager]): the durable session
      record with its 30 minute rule, and [authenticateWithUMS];
    - [src/modules/timetable.js] (class [TimetableManager]):
      [fetchFreshTimetableData] with its retries, [parseTimeRange], and
      the conversion of the class times in [parseTimetableHTML].

    Conventions of the embedding.
    - A JavaScript Number is a [Js.number]: [NaN], an infinity, or a
      finite Number that holds an integer, given by that integer.  The
      operations round to the nearest double, ties to the even
      significand, so that they are exact below 2^53 in absolute value and
      only there; [toString] gives the digits that [Number::toString]
      gives.  The sign of zero is not kept: [-0] is [0].
    - A JavaScript string is a [string] of 8-bit units.  Searching and
      splitting at ASCII separators are those of the code on any text;
      the case mappings, [split('')], the white space that [parseInt]
      skips and the lengths are those of the code on ASCII text, and the
      statements that depend on them assume [Js.isAscii].
    - [crypto.createHash('sha1')] is the function [Sha1.hex] below, checked
      against the standard test vectors.
    - The network, the solving service and the clock are an environment
      that each operation receives: each remote call is answered or fails
      with the message of its error, and every call made is recorded in a
      trace.  The balance of the solving account and the configured
      minimum are rational numbers; [minBalanceText] is the text that a
      template literal makes of the minimum.  What the portal and the
      solving service answer is text where the code uses it as text.
    - The file system is a finite map from paths to contents: a write
      succeeds, and [unlink] fails only on a file that is not there.  A
      file holds JSON for an object with the fields that the two writers
      of the session file give it, JSON for an array, JSON for a scalar,
      or text that [JSON.parse] rejects.  Paths are written from the root
      of the repository, where the server is started. *)

From Stdlib Require Import ZArith QArith String Ascii List Bool Lia.
From Stdlib Require Import DecimalString.
From stdpp Require Import base option gmap strings.

Import ListNotations.
Local Open Scope string_scope.
Local Open Scope Z_scope.

(** ** JavaScript primitives used by the two modules *)

Module Js.

(** *** Numbers

    A finite Number that holds an integer is given by that integer, a
    [Z] that a double can hold: [roundToDouble] gives, for any integer,
    the one that the Number nearest to it holds (ties to the even
    significand).  Below 2^53 in absolute value every integer is its own
    rounding; from there on only some are.  Zero has no sign here: [-0]
    prints, adds and compares as [0] does. *)

Definition roundToDouble (n : Z) : Z :=
  let a := Z.abs n in
  if a <? 2 ^ 53 then n
  else
    let e := Z.log2 a - 52 in
    let q := a / 2 ^ e in
    let r := a mod 2 ^ e in
    let half := 2 ^ (e - 1) in
    let q' :=
      if r <? half then q
      else if half <? r then q + 1
      else if Z.even q then q else q + 1 in
    Z.sgn n * (q' * 2 ^ e).

(** A Number as the code can hold one where it counts or parses:
    not-a-number, an infinity, or a finite integer. *)
Inductive number : Type :=
| NaN
| Infinity (negative : bool)
| Finite (n : Z).

#[global] Instance number_eq_dec : EqDecision number.
Proof. solve_decision. Defined.

(** The Number nearest to the integer [n]; what exceeds the largest
    double is infinite. *)
Definition toNumber (n : Z) : number :=
  let r := roundToDouble n in
  if 2 ^ 1024 <=? Z.abs r then Infinity (n <? 0) else Finite r.

(** [x++], [x + k] and [x - k] for an integer constant [k], [x * k] for
    a positive one: the exact result, rounded. *)
Definition plus (x : number) (k : Z) : number :=
  match x with
  | Finite n => toNumber (n + k)
  | Infinity s => Infinity s
  | NaN => NaN
  end.

Definition increment (x : number) : number := plus x 1.

Definition minus (x : number) (k : Z) : number := plus x (- k).

Definition times (x : number) (k : Z) : number :=
  match x with
  | Finite n => toNumber (n * k)
  | Infinity s => Infinity s
  | NaN => NaN
  end.

(** [x % k] keeps the sign of the dividend and is exact; it is [NaN] for
    an [x] that is not finite. *)
Definition remainder (x : number) (k : Z) : number :=
  match x with
  | Finite n => Finite (Z.rem n k)
  | Infinity _ | NaN => NaN
  end.

(** [x === n] for an integer [n] *)
Definition same (x : number) (n : Z) : bool :=
  match x with
  | Finite v => v =? n
  | Infinity _ | NaN => false
  end.

(** [x < y] and [x <= y]: false as soon as one side is [NaN]. *)
Definition lt (x y : number) : bool :=
  match x, y with
  | Finite a, Finite b => a <? b
  | Finite _, Infinity false => true
  | Infinity true, Finite _ => true
  | Infinity true, Infinity false => true
  | _, _ => false
  end.

Definition le (x y : number) : bool :=
  match x, y with
  | Finite a, Finite b => a <=? b
  | Finite _, Infinity false => true
  | Infinity true, Finite _ => true
  | Infinity true, Infinity _ => true
  | Infinity false, Infinity false => true
  | _, _ => false
  end.

Definition isNaN (x : number) : bool :=
  match x with
  | NaN => true
  | Infinity _ | Finite _ => false
  end.

(** All the decimal digits of an integer, [-] in front of a negative
    one. *)
Definition decimal (n : Z) : string :=
  NilZero.string_of_int (Z.to_int n).

Fixpoint zeros (n : nat) : string :=
  match n with
  | O => EmptyString
  | S n' => String "0" (zeros n')
  end.

(** The digits [s], their number [k] and the exponent [n] that
    [Number::toString] takes for the positive integer [x] of [d] decimal
    digits: the least [k] for which some [s] of [k] digits has
    [s * 10^(n-k)] rounding to [x], and then the [s] that is nearest to
    [x].  The search starts at [k]. *)
Fixpoint shortestFrom (fuel : nat) (k x d : Z) : Z * Z * Z :=
  match fuel with
  | O => (x, d, d)
  | S fuel' =>
      let unit := 10 ^ (d - k) in
      let lo := x / unit in
      let hi := lo + 1 in
      let fitsLo := roundToDouble (lo * unit) =? x in
      let fitsHi := roundToDouble (hi * unit) =? x in
      let nearerHi :=
        (hi * unit - x <? x - lo * unit)
        || ((hi * unit - x =? x - lo * unit) && Z.even hi) in
      if fitsHi && (negb fitsLo || nearerHi)
      then if hi =? 10 ^ k then (1, 1, d + 1) else (hi, k, d)
      else if fitsLo then (lo, k, d)
      else shortestFrom fuel' (k + 1) x d
  end.

(** [x.toString()] for a positive integer [x]: the digits of [s] followed
    by zeros when [n <= 21], the exponent form otherwise. *)
Definition shortestString (x : Z) : string :=
  let d := Z.of_nat (String.length (decimal x)) in
  let '(s, k, n) := shortestFrom (Z.to_nat d) 1 x d in
  if n <=? 21 then decimal s ++ zeros (Z.to_nat (n - k))
  else
    match decimal s with
    | String c rest =>
        String c (if k =? 1 then EmptyString else "." ++ rest)
        ++ "e+" ++ decimal (n - 1)
    | EmptyString => EmptyString
    end.

(** [n.toString()] for a finite Number that holds the integer [n].  Below
    2^53 the digits that [Number::toString] takes are all the digits of
    [n]. *)
Definition toString (n : Z) : string :=
  if Z.abs n <? 2 ^ 53 then decimal n
  else if n <? 0 then "-" ++ shortestString (- n)
  else shortestString n.

(** [x.toString()], also what a template literal makes of [x]. *)
Definition numberToString (x : number) : string :=
  match x with
  | NaN => "NaN"
  | Infinity false => "Infinity"
  | Infinity true => "-Infinity"
  | Finite n => toString n
  end.

(** [x >>> 0]: conversion to an unsigned 32-bit integer. *)
Definition toUint32 (n : Z) : Z := n mod 2 ^ 32.

Definition numberToUint32 (x : number) : Z :=
  match x with
  | Finite n => toUint32 n
  | Infinity _ | NaN => 0
  end.

(** [a % b] keeps the sign of the dividend. *)
Definition rem (a b : Z) : Z := Z.rem a b.

Fixpoint pos_toString2 (p : positive) : string :=
  match p with
  | xH => "1"
  | xO q => pos_toString2 q ++ "0"
  | xI q => pos_toString2 q ++ "1"
  end.

(** [n.toString(2)] for [n >= 0]. *)
Definition toString2 (n : Z) : string :=
  match n with
  | Zpos p => pos_toString2 p
  | _ => "0"
  end.

(** *** Strings

    A string is the sequence of its characters as 8-bit units.  Splitting
    and searching at ASCII separators give what the code gives on any
    text; [split('')], [length], indexing and the case mappings are those
    of the code on ASCII text, which is what [isAscii] says of a
    string. *)

(** [s.split('')] *)
Definition chars (s : string) : list ascii := list_ascii_of_string s.

Definition isAscii (s : string) : bool :=
  forallb (fun c => (nat_of_ascii c <? 128)%nat) (chars s).

(** [a[i]] for an index that may be negative or past the end:
    [None] is [undefined]. *)
Definition at_index {A} (a : list A) (i : Z) : option A :=
  if (i <? 0)%Z then None else nth_error a (Z.to_nat i).

Definition is_lower (c : ascii) : bool :=
  let n := nat_of_ascii c in (97 <=? n)%nat && (n <=? 122)%nat.

Definition is_upper (c : ascii) : bool :=
  let n := nat_of_ascii c in (65 <=? n)%nat && (n <=? 90)%nat.

(** [c.toUpperCase()] and [c.toLowerCase()] for an ASCII character. *)
Definition toUpperCase (c : ascii) : ascii :=
  if is_lower c then ascii_of_nat (nat_of_ascii c - 32) else c.

Definition toLowerCase (c : ascii) : ascii :=
  if is_upper c then ascii_of_nat (nat_of_ascii c + 32) else c.

(** [s.startsWith(p)] *)
Fixpoint startsWith (s p : string) : bool :=
  match p, s with
  | EmptyString, _ => true
  | String a p', String b s' => Ascii.eqb a b && startsWith s' p'
  | String _ _, EmptyString => false
  end.

(** [s.includes(p)] *)
Fixpoint includes (s p : string) : bool :=
  startsWith s p ||
  match s with
  | EmptyString => false
  | String _ s' => includes s' p
  end.

(** [s.split(c)[0]] for a one-character separator. *)
Fixpoint before (c : ascii) (s : string) : string :=
  match s with
  | EmptyString => EmptyString
  | String a s' => if Ascii.eqb a c then EmptyString else String a (before c s')
  end.

Definition cons_head (a : ascii) (l : list string) : list string :=
  match l with
  | h :: t => String a h :: t
  | [] => [String a EmptyString]
  end.

(** [s.split(c)] for a one-character separator. *)
Fixpoint split_char (c : ascii) (s : string) : list string :=
  match s with
  | EmptyString => [EmptyString]
  | String a s' =>
      if Ascii.eqb a c then EmptyString :: split_char c s'
      else cons_head a (split_char c s')
  end.

(** [s.split("; ")]: the pieces between successive occurrences of the
    separator, scanned from the left. *)
Fixpoint split_semi_sp (s : string) : list string :=
  match s with
  | EmptyString => [EmptyString]
  | String a s' =>
      match s' with
      | String b r =>
          if Ascii.eqb a ";" && Ascii.eqb b " "
          then EmptyString :: split_semi_sp r
          else cons_head a (split_semi_sp s')
      | EmptyString => [String a EmptyString]
      end
  end.

(** The string has no occurrence of the separator ["; "]. *)
Fixpoint sepfree (s : string) : bool :=
  match s with
  | EmptyString => true
  | String a s' =>
      match s' with
      | String b _ => negb (Ascii.eqb a ";" && Ascii.eqb b " ") && sepfree s'
      | EmptyString => true
      end
  end.

(** [a.join("; ")] *)
Fixpoint join_semi_sp (a : list string) : string :=
  match a with
  | [] => EmptyString
  | [x] => x
  | x :: rest => x ++ "; " ++ join_semi_sp rest
  end.

(** A string is truthy when it is not empty. *)
Definition truthy (s : string) : bool :=
  negb (String.eqb s EmptyString).

(** [v] is [null] or a string; only a non-empty string is truthy. *)
Definition truthy_opt (v : option string) : bool :=
  match v with
  | Some s => truthy s
  | None => false
  end.

(** *** [parseInt] *)

(** White space, as far as ASCII has it. *)
Definition isSpace (c : ascii) : bool :=
  let n := nat_of_ascii c in
  ((9 <=? n)%nat && (n <=? 13)%nat) || (n =? 32)%nat.

Fixpoint trimStart (s : string) : string :=
  match s with
  | EmptyString => EmptyString
  | String a s' => if isSpace a then trimStart s' else s
  end.

(** The value of a digit in the given radix, if it is one. *)
Definition digit (radix : Z) (c : ascii) : option Z :=
  let n := Z.of_nat (nat_of_ascii c) in
  let v :=
    if (48 <=? n) && (n <=? 57) then Some (n - 48)
    else if (97 <=? n) && (n <=? 122) then Some (n - 87)
    else if (65 <=? n) && (n <=? 90) then Some (n - 55)
    else None in
  match v with
  | Some d => if d <? radix then Some d else None
  | None => None
  end.

(** The integer written by the longest prefix of digits; [acc] is [None]
    as long as no digit has been read. *)
Fixpoint digits (radix : Z) (acc : option Z) (s : string) : option Z :=
  match s with
  | EmptyString => acc
  | String a s' =>
      match digit radix a with
      | Some d =>
          digits radix
            (Some (radix * match acc with Some n => n | None => 0 end + d)) s'
      | None => acc
      end
  end.

(** [parseInt(s)] without a radix: white space, a sign, [0x] or [0X] for
    hexadecimal, then the digits, read as an integer and rounded to a
    Number; [NaN] when there is no digit. *)
Definition parseInt (s : string) : number :=
  let s1 := trimStart s in
  let '(sign, s2) :=
    match s1 with
    | String a r =>
        if Ascii.eqb a "-" then (-1, r)
        else if Ascii.eqb a "+" then (1, r)
        else (1, s1)
    | EmptyString => (1, s1)
    end in
  let '(radix, s3) :=
    if startsWith s2 "0x" || startsWith s2 "0X"
    then (16, String.substring 2 (String.length s2 - 2) s2)
    else (10, s2) in
  match digits radix None s3 with
  | Some m => toNumber (sign * m)
  | None => NaN
  end.

End Js.

(** ** SHA-1 ([crypto.createHash('sha1').update(s).digest('hex')]) *)

Module Sha1.

Definition w32 (x : Z) : Z := x mod 2 ^ 32.

Definition rotl (n x : Z) : Z :=
  w32 (Z.lor (Z.shiftl x n) (Z.shiftr x (32 - n))).

Definition f (t : nat) (b c d : Z) : Z :=
  if (t <? 20)%nat then Z.lor (Z.land b c) (Z.land (w32 (Z.lnot b)) d)
  else if (t <? 40)%nat then Z.lxor (Z.lxor b c) d
  else if (t <? 60)%nat then
    Z.lor (Z.lor (Z.land b c) (Z.land b d)) (Z.land c d)
  else Z.lxor (Z.lxor b c) d.

Definition K (t : nat) : Z :=
  if (t <? 20)%nat then 0x5A827999
  else if (t <? 40)%nat then 0x6ED9EBA1
  else if (t <? 60)%nat then 0x8F1BBCDC
  else 0xCA62C1D6.

(** Padding: one bit, zeros up to 56 modulo 64, the bit length on eight
    bytes, most significant first. *)
Definition be_bytes (n : nat) (x : Z) : list Z :=
  map (fun i => (x / 2 ^ (8 * Z.of_nat i)) mod 256) (rev (seq 0 n)).

Definition pad (msg : list Z) : list Z :=
  let len := Z.of_nat (List.length msg) in
  let zeros := Z.to_nat ((55 - len) mod 64) in
  msg ++ [128] ++ repeat 0 zeros ++ be_bytes 8 (8 * len).

Fixpoint words (bytes : list Z) : list Z :=
  match bytes with
  | a :: b :: c :: d :: rest =>
      (((a * 256 + b) * 256 + c) * 256 + d) :: words rest
  | _ => []
  end.

(** The message schedule, most recent word first while it is built. *)
Fixpoint extend (n : nat) (ws : list Z) : list Z :=
  match n with
  | O => ws
  | S n' =>
      let w := rotl 1 (Z.lxor (Z.lxor (Z.lxor (nth 2 ws 0) (nth 7 ws 0))
                                      (nth 13 ws 0)) (nth 15 ws 0)) in
      extend n' (w :: ws)
  end.

Definition schedule (block : list Z) : list Z :=
  rev (extend 64 (rev (words block))).

Definition state : Type := Z * Z * Z * Z * Z.

Definition round (s : state) (tw : nat * Z) : state :=
  let '(a, b, c, d, e) := s in
  let '(t, w) := tw in
  let temp := w32 (rotl 5 a + f t b c d + e + K t + w) in
  (temp, a, rotl 30 b, c, d).

Definition compress (h : state) (block : list Z) : state :=
  let ws := schedule block in
  let '(a, b, c, d, e) := fold_left round (combine (seq 0 80) ws) h in
  let '(h0, h1, h2, h3, h4) := h in
  (w32 (h0 + a), w32 (h1 + b), w32 (h2 + c), w32 (h3 + d), w32 (h4 + e)).

Fixpoint blocks (n : nat) (bytes : list Z) (h : state) : state :=
  match n with
  | O => h
  | S n' => blocks n' (skipn 64 bytes) (compress h (firstn 64 bytes))
  end.

Definition init : state :=
  (0x67452301, 0xEFCDAB89, 0x98BADCFE, 0x10325476, 0xC3D2E1F0).

Definition digest (msg : list Z) : state :=
  let p := pad msg in
  blocks (List.length p / 64) p init.

Definition hexdigit (n : Z) : ascii :=
  match n mod 16 with
  | 0 => "0" | 1 => "1" | 2 => "2" | 3 => "3" | 4 => "4" | 5 => "5"
  | 6 => "6" | 7 => "7" | 8 => "8" | 9 => "9" | 10 => "a" | 11 => "b"
  | 12 => "c" | 13 => "d" | 14 => "e" | _ => "f"
  end%char.

Definition hex32 (w : Z) (rest : string) : string :=
  String (hexdigit (w / 16 ^ 7)) (String (hexdigit (w / 16 ^ 6))
  (String (hexdigit (w / 16 ^ 5)) (String (hexdigit (w / 16 ^ 4))
  (String (hexdigit (w / 16 ^ 3)) (String (hexdigit (w / 16 ^ 2))
  (String (hexdigit (w / 16)) (String (hexdigit w) rest))))))).

Definition bytes_of_string (s : string) : list Z :=
  map (fun c => Z.of_nat (nat_of_ascii c)) (list_ascii_of_string s).

(** The lower-case hexadecimal digest of the bytes of [s]. *)
Definition hex (s : string) : string :=
  let '(h0, h1, h2, h3, h4) := digest (bytes_of_string s) in
  hex32 h0 (hex32 h1 (hex32 h2 (hex32 h3 (hex32 h4 EmptyString)))).

End Sha1.

(** ** The world outside the process: files, clock, remote calls *)

Module Eff.

(** The JSON object kept in [session_cookies.json], with the fields the
    two writers of the file give it.  [timestamp] is the instant denoted
    by the ISO string, in milliseconds; [None] stands for a value that
    [new Date] cannot read.  [cookies] is [null] or a string. *)
Record sessionData : Type := {
  timestamp : option Z;
  username : string;
  cookies : option string;
  cookieArray : list string;
  loginSuccess : bool
}.

(** What a file holds: an object as above; JSON text for an array; JSON
    text for [null], a number, a string or a boolean; or text that
    [JSON.parse] rejects. *)
Inductive file : Type :=
| Json (d : sessionData)
| JsonArray
| JsonScalar
| Garbage.

(** What [JSON.parse] returns.  The code never looks at the elements of
    an array nor at which scalar it got. *)
Inductive json : Type :=
| Object (d : sessionData)
| Array
| Scalar.

(** Calls that leave the process. *)
Inductive event : Type :=
| GetLoginPage
| GetCaptchaParams
| GetCaptchaImage
| SolverGetBalance
| SolverSolveImage
| PostLoginForm.

Record World : Type := {
  files : gmap string file;
  clock : Z;
  trace : list event
}.

(** How a piece of code ends: with a value, with an exception, or not at
    all (the puzzle loop still runs when the fuel is spent). *)
Inductive outcome (A : Type) : Type :=
| Ret (a : A)
| Throw (message : string)
| Hang.
Arguments Ret {A} a.
Arguments Throw {A} message.
Arguments Hang {A}.

Definition M (A : Type) : Type := World -> outcome A * World.

Definition ret {A} (a : A) : M A := fun w => (Ret a, w).

Definition throw {A} (message : string) : M A := fun w => (Throw message, w).

Definition hang {A} : M A := fun w => (Hang, w).

Definition bind {A B} (c : M A) (k : A -> M B) : M B :=
  fun w =>
    match c w with
    | (Ret a, w') => k a w'
    | (Throw e, w') => (Throw e, w')
    | (Hang, w') => (Hang, w')
    end.

(** [try { body } catch (error) { handler }] *)
Definition try_catch {A} (body : M A) (handler : string -> M A) : M A :=
  fun w =>
    match body w with
    | (Throw e, w') => handler e w'
    | r => r
    end.

Definition emit (e : event) : M unit :=
  fun w => (Ret tt, {| files := files w; clock := clock w;
                       trace := (trace w ++ [e])%list |}).

(** [Date.now()] *)
Definition now : M Z := fun w => (Ret (clock w), w).

(** [fs.readFile(path, 'utf8')] *)
Definition readFile (path : string) : M file :=
  fun w =>
    match files w !! path with
    | Some f => (Ret f, w)
    | None => (Throw "ENOENT", w)
    end.

(** [JSON.parse(content)] *)
Definition parse (content : file) : M json :=
  match content with
  | Json d => ret (Object d)
  | JsonArray => ret Array
  | JsonScalar => ret Scalar
  | Garbage => throw "SyntaxError"
  end.

(** [fs.writeFile(path, JSON.stringify(d, null, 2))] *)
Definition writeFile (path : string) (d : sessionData) : M unit :=
  fun w => (Ret tt, {| files := <[path := Json d]> (files w);
                       clock := clock w; trace := trace w |}).

(** [fs.writeFile(path, JSON.stringify(a, null, 2))] for an array [a]:
    the properties set on the array are not written. *)
Definition writeArray (path : string) : M unit :=
  fun w => (Ret tt, {| files := <[path := JsonArray]> (files w);
                       clock := clock w; trace := trace w |}).

(** [fs.writeFile(path, bytes)] for content that is not JSON. *)
Definition writeBytes (path : string) : M unit :=
  fun w => (Ret tt, {| files := <[path := Garbage]> (files w);
                       clock := clock w; trace := trace w |}).

(** [fs.unlink(path)] *)
Definition unlink (path : string) : M unit :=
  fun w =>
    match files w !! path with
    | Some _ => (Ret tt, {| files := delete path (files w);
                            clock := clock w; trace := trace w |})
    | None => (Throw "ENOENT", w)
    end.

(** The same world at the instant [t]. *)
Definition at_time (w : World) (t : Z) : World :=
  {| files := files w; clock := t; trace := trace w |}.

End Eff.

Notation "'let!' x ':=' c 'in' k" := (Eff.bind c (fun x => k))
  (at level 10, x name, c at level 100, k at level 200).
Notation "'do!' c 'in' k" := (Eff.bind c (fun _ => k))
  (at level 10, c at level 100, k at level 200).

(** ** login.js: the automation class [LPUAutomatedLogin] *)

Module Login.

(** *** Step 5, first half: the hash puzzle

    [currentPos] starts at [parseInt(sp)], a Number; the loop leaves
    only through the [break] on a matching hash, and [currentPos++] adds
    one as a Number does.  [fuel] bounds the number of iterations the
    model unfolds: [None] means that the loop is still running after
    [fuel] iterations. *)

Definition testString (currentPos : Js.number) (vcid : string) : string :=
  Js.numberToString currentPos ++ vcid.

Definition hashOf (currentPos : Js.number) (vcid : string) : string :=
  Sha1.hex (testString currentPos vcid).

Fixpoint hashLoop (fuel : nat) (currentPos : Js.number)
    (targetHash vcid : string) : option Js.number :=
  match fuel with
  | O => None
  | S fuel' =>
      if String.eqb (hashOf currentPos vcid) targetHash
      then Some currentPos
      else hashLoop fuel' (Js.increment currentPos) targetHash vcid
  end.

(** *** Step 5, second half: the case conversion *)

Definition caseModifier (currentPos : Js.number) : Js.number :=
  Js.plus (Js.remainder currentPos 65533) 1.

Definition binaryPattern (currentPos : Js.number) : string :=
  Js.toString2 (Js.numberToUint32 (caseModifier currentPos)).

Definition isOne (binaryDigit : option ascii) : bool :=
  match binaryDigit with
  | Some d => Ascii.eqb d "1"
  | None => false
  end.

(** The [for] loop, [n] being [i + 1]: it runs for [i = n - 1] down to 0
    and puts each converted character in front of [result]. *)
Fixpoint caseLoop (binaryArray textArray : list ascii) (n : nat)
    (result : string) : string :=
  match n with
  | O => result
  | S i =>
      let binaryLength := Z.of_nat (List.length binaryArray) in
      let textLength := Z.of_nat (List.length textArray) in
      let binaryIndex := binaryLength - (textLength - Z.of_nat i) in
      let binaryDigit := Js.at_index binaryArray binaryIndex in
      let c := nth i textArray Ascii.zero in
      if isOne binaryDigit
      then caseLoop binaryArray textArray i (String (Js.toUpperCase c) result)
      else caseLoop binaryArray textArray i (String (Js.toLowerCase c) result)
  end.

(** The character that one turn of the loop puts in front, for index [j]. *)
Definition converted (binaryArray textArray : list ascii) (j : nat) : ascii :=
  let binaryIndex :=
    Z.of_nat (List.length binaryArray)
    - (Z.of_nat (List.length textArray) - Z.of_nat j) in
  if isOne (Js.at_index binaryArray binaryIndex)
  then Js.toUpperCase (nth j textArray Ascii.zero)
  else Js.toLowerCase (nth j textArray Ascii.zero).

Definition applyCase (text : string) (currentPos : Js.number) : string :=
  let binaryArray := Js.chars (binaryPattern currentPos) in
  let textArray := Js.chars text in
  caseLoop binaryArray textArray (List.length textArray) EmptyString.

(** [convertCaptchaText(text, sp, hs, vcid)].  [sp] is the text that
    [parseInt] reads, [vcid] the text that [+] appends; [hs] is compared
    with [===] to a string, so that a value that is not a string is as
    good as a string that no digest equals. *)
Definition convertCaptchaText (fuel : nat) (text sp hs vcid : string)
  : option string :=
  match hashLoop fuel (Js.parseInt sp) hs vcid with
  | Some currentPos => Some (applyCase text currentPos)
  | None => None
  end.

(** *** Step 6: the test made on the response to the form

    [axios.post] is called with [maxRedirects: 0] and
    [validateStatus: status < 400], so a response below 400 resolves and
    any other rejects with the response attached. *)

Inductive header : Type :=
| HUndefined
| HArray (values : list string)
| HString (value : string).

Record response : Type := {
  status : Z;
  set_cookie : header;
  location : option string;
  data : string
}.

Inductive verdict : Type :=
| RedirectSuccess      (* first branch: success with a redirect url *)
| InvalidCredentials   (* second branch: success false *)
| PlainSuccess         (* third branch: success true *)
| Rethrown.            (* the catch block throws the error again *)

Definition validateStatus (st : Z) : bool := st <? 400.

Definition checkResponse (r : response) : verdict :=
  if validateStatus (status r) then
    if (status r =? 302) || Js.truthy_opt (location r) then RedirectSuccess
    else if Js.includes (data r) "Invalid" || Js.includes (data r) "Error"
         then InvalidCredentials
    else PlainSuccess
  else
    if status r =? 302 then RedirectSuccess else Rethrown.


(** *** Cookie management: the merge of [extractAndSaveCookies] *)

Definition cookiePart (cookieString : string) : string :=
  Js.before ";" cookieString.

Definition keepPart (cookiePart : string) : bool :=
  Js.truthy cookiePart && Js.includes cookiePart "=".

Definition allCookies (setCookieHeader : header) : list string :=
  match setCookieHeader with
  | HArray values => List.filter keepPart (map cookiePart values)
  | HUndefined | HString _ => []
  end.

Definition cookieName (newCookie : string) : string :=
  Js.before "=" newCookie.

Definition sameName (newCookie c : string) : bool :=
  Js.startsWith c (cookieName newCookie ++ "=").

(** One turn of [allCookies.forEach]: the cookies of that name leave the
    list, the new one is put at its end. *)
Definition mergeOne (combinedCookies : list string) (newCookie : string)
  : list string :=
  List.filter (fun c => negb (sameName newCookie c)) combinedCookies
    ++ [newCookie].

(** A cookie of the list stays when no new cookie has its name. *)
Definition keptBy (allCookies : list string) (c : string) : bool :=
  forallb (fun newCookie => negb (sameName newCookie c)) allCookies.

Definition mergeCookies (existingCookies : list string)
    (setCookieHeader : header) : list string :=
  fold_left mergeOne (allCookies setCookieHeader) existingCookies.

Definition existingCookies (cookies : string) : list string :=
  List.filter Js.truthy (Js.split_semi_sp cookies).

(** The value given to [this.sessionCookies]. *)
Definition mergedSessionCookies (cookies : string) (setCookieHeader : header)
  : string :=
  Js.join_semi_sp (mergeCookies (existingCookies cookies) setCookieHeader).

(** *** Configuration *)

(** What [CONFIG] takes from the environment.  The minimal balance is a
    Number that need not be an integer: it is given by its value, a
    rational, and by the text that a template literal makes of it. *)
Record Config : Type := {
  apiKey : string;              (* CONFIG.antiCaptcha.apiKey *)
  minBalance : Q;               (* CONFIG.antiCaptcha.minBalance *)
  minBalanceText : string;      (* `${CONFIG.antiCaptcha.minBalance}` *)
  cfg_username : string;        (* CONFIG.credentials.username *)
  cfg_password : string;        (* CONFIG.credentials.password *)
  saveCaptchaImage : bool;      (* CONFIG.debug.saveCaptchaImage *)
  saveSessionCookies : bool     (* CONFIG.cookies.saveSessionCookies *)
}.

(** [CONFIG.debug.captchaImagePath] and [CONFIG.cookies.cookieFile] are
    not taken from the environment: they are [temp/captcha_debug.png]
    beside the directory of login.js and [data/session_cookies.json] in
    it.  Paths are written from the root of the repository, where the
    server is started, so that the cookie file is the file that
    [AuthManager] names [./src/data/session_cookies.json]. *)
Definition captchaImagePath (CONFIG : Config) : string :=
  "./temp/captcha_debug.png".

Definition cookieFile (CONFIG : Config) : string :=
  "./src/data/session_cookies.json".

(** [validateConfig()]: the list [errors] stays empty. *)
Definition validateConfig (CONFIG : Config) : bool :=
  let errors1 :=
    if negb (Js.truthy (cfg_username CONFIG))
       || negb (Js.truthy (cfg_password CONFIG))
    then ["LPU credentials not configured"] else [] in
  let errors2 :=
    if negb (Js.truthy (apiKey CONFIG))
    then ["Anti-Captcha API key not configured"] else [] in
  negb (0 <? Z.of_nat (List.length (errors1 ++ errors2)%list)).

(** *** The object and what the remote side answers *)

(** The form fields read in the login page.  A field that the page does
    not have is [undefined] in the code, which joins it to a string as
    the text [undefined]. *)
Record scraped : Type := {
  BDC_VCID : string;
  BDC_BackWorkaround : string;
  BDC_Hs : string;
  BDC_SP : string;
  VIEWSTATE : string;
  VIEWSTATEGENERATOR : string;
  EVENTVALIDATION : string
}.

Record LPUAutomatedLogin : Type := {
  this_cookies : string;
  this_sessionCookies : string;
  scrapedData : option scraped
}.

Record captchaParams : Type := {
  sp : string;
  hs : string;
  vcid : string;
  cp_timestamp : Z
}.

(** How a call to the outside ends: with an answer, or with an error
    that the [catch] block of the step receives (the request is rejected,
    or what it returned cannot be read); [message] is what is thrown. *)
Inductive reply (A : Type) : Type :=
| Answered (a : A)
| Failed (message : string).
Arguments Answered {A} a.
Arguments Failed {A} message.

(** The answers of the portal and of the solving service to one run: the
    [set-cookie] header and the form fields of the login page; [sp] and
    [hs]; the image; the balance of the account, a Number given by its
    value; the text read in the image; the response to the form, of any
    status. *)
Record Remote : Type := {
  loginPage : reply (header * scraped);
  paramsAnswer : reply (string * string);
  imageAnswer : reply string;
  balanceAnswer : reply Q;
  solveAnswer : reply string;
  submitAnswer : reply response
}.

(** [cookieString.match(/_ga_B0Z6G6GCD8=([^;]+)/)], the captured group. *)
Fixpoint gaMatch (cookieString : string) : option string :=
  let rest := String.substring 15 (String.length cookieString - 15) cookieString in
  if Js.startsWith cookieString "_ga_B0Z6G6GCD8=" && Js.truthy (Js.before ";" rest)
  then Some (Js.before ";" rest)
  else match cookieString with
       | EmptyString => None
       | String _ s' => gaMatch s'
       end.

Section Run.

Variable CONFIG : Config.
Variable remote : Remote.
Variable fuel : nat.

(** [new LPUAutomatedLogin()] *)
Definition constructor : Eff.M LPUAutomatedLogin :=
  if validateConfig CONFIG
  then Eff.ret {| this_cookies := EmptyString; this_sessionCookies := EmptyString;
                  scrapedData := None |}
  else Eff.throw "Configuration validation failed".

Definition scrapeLoginPageData (this : LPUAutomatedLogin)
  : Eff.M LPUAutomatedLogin :=
  do! Eff.emit Eff.GetLoginPage in
  match loginPage remote with
  | Failed message => Eff.throw message
  | Answered (setCookieHeader, fields) =>
      let cookies' :=
        match setCookieHeader with
        | HUndefined => this_cookies this
        | HArray values =>
            match gaMatch (Js.join_semi_sp values) with
            | Some v => "_ga_B0Z6G6GCD8=" ++ v
            | None => this_cookies this
            end
        | HString value =>
            match gaMatch value with
            | Some v => "_ga_B0Z6G6GCD8=" ++ v
            | None => this_cookies this
            end
        end in
      Eff.ret {| this_cookies := cookies';
                 this_sessionCookies := this_sessionCookies this;
                 scrapedData := Some fields |}
  end.

Definition getCaptchaParameters (this : LPUAutomatedLogin)
  : Eff.M captchaParams :=
  let! currentTime := Eff.now in
  match scrapedData this with
  | None =>
      Eff.throw
        "Cannot read properties of null (reading 'BDC_VCID_c_loginnew_examplecaptcha')"
  | Some fields =>
      do! Eff.emit Eff.GetCaptchaParams in
      match paramsAnswer remote with
      | Failed message => Eff.throw message
      | Answered (sp0, hs0) =>
          Eff.ret {| sp := sp0; hs := hs0; vcid := BDC_VCID fields;
                     cp_timestamp := currentTime |}
      end
  end.

Definition getCaptchaImage (this : LPUAutomatedLogin) (p : captchaParams)
  : Eff.M string :=
  do! Eff.emit Eff.GetCaptchaImage in
  match imageAnswer remote with
  | Failed message => Eff.throw message
  | Answered base64Image =>
      if saveCaptchaImage CONFIG
      then do! Eff.writeBytes (captchaImagePath CONFIG) in
           Eff.ret base64Image
      else Eff.ret base64Image
  end.

(** [balance < CONFIG.antiCaptcha.minBalance] *)
Definition belowMinimum (balance : Q) : bool :=
  negb (Qle_bool (minBalance CONFIG) balance).

Definition solveCaptcha (base64Image : string) : Eff.M string :=
  do! Eff.emit Eff.SolverGetBalance in
  match balanceAnswer remote with
  | Failed message => Eff.throw message
  | Answered balance =>
      if belowMinimum balance
      then Eff.throw
             ("Insufficient balance in Anti-Captcha account. Minimum required: $"
              ++ minBalanceText CONFIG)
      else
        do! Eff.emit Eff.SolverSolveImage in
        match solveAnswer remote with
        | Failed message => Eff.throw message
        | Answered captchaResult => Eff.ret captchaResult
        end
  end.

Definition convertCaptchaTextM (text : string) (p : captchaParams)
  : Eff.M string :=
  match convertCaptchaText fuel text (sp p) (hs p) (vcid p) with
  | Some converted => Eff.ret converted
  | None => Eff.hang
  end.

(** [extractAndSaveCookies(response)] *)
Definition extractAndSaveCookies (this : LPUAutomatedLogin) (r : response)
  : Eff.M LPUAutomatedLogin :=
  if negb (saveSessionCookies CONFIG) then Eff.ret this
  else
    let sessionCookies := mergedSessionCookies (this_cookies this) (set_cookie r) in
    let combinedCookies := mergeCookies (existingCookies (this_cookies this)) (set_cookie r) in
    let this' := {| this_cookies := this_cookies this;
                    this_sessionCookies := sessionCookies;
                    scrapedData := scrapedData this |} in
    let! t := Eff.now in
    do! Eff.writeFile (cookieFile CONFIG)
      {| Eff.timestamp := Some t;
         Eff.username := cfg_username CONFIG;
         Eff.cookies := Some sessionCookies;
         Eff.cookieArray := combinedCookies;
         Eff.loginSuccess := true |} in
    Eff.ret this'.

(** What [submitLoginForm] and [runAutomation] return. *)
Record loginResult : Type := {
  success : bool;
  redirectUrl : option string;
  result_cookies : option string     (* [None]: the field is absent *)
}.

(** [submitLoginForm(convertedCaptcha)].  The form is filled from
    [this.scrapedData] before the [try] block.  A response whose status
    [validateStatus] refuses makes [axios.post] throw an error with that
    response and the message below, which the [catch] block throws
    again. *)
Definition submitLoginForm (this : LPUAutomatedLogin) (convertedCaptcha : string)
  : Eff.M (loginResult * LPUAutomatedLogin) :=
  match scrapedData this with
  | None => Eff.throw "Cannot read properties of null (reading '__VIEWSTATE')"
  | Some fields =>
      do! Eff.emit Eff.PostLoginForm in
      match submitAnswer remote with
      | Failed message => Eff.throw message
      | Answered r =>
          match checkResponse r with
          | RedirectSuccess =>
              let! this' := extractAndSaveCookies this r in
              Eff.ret ({| success := true; redirectUrl := location r;
                          result_cookies := Some (this_sessionCookies this') |},
                       this')
          | InvalidCredentials =>
              Eff.ret ({| success := false; redirectUrl := None;
                          result_cookies := None |}, this)
          | PlainSuccess =>
              let! this' := extractAndSaveCookies this r in
              Eff.ret ({| success := true; redirectUrl := None;
                          result_cookies := Some (this_sessionCookies this') |},
                       this')
          | Rethrown =>
              Eff.throw ("Request failed with status code "
                         ++ Js.toString (status r))
          end
      end
  end.

Definition runAutomation (this : LPUAutomatedLogin)
  : Eff.M (loginResult * LPUAutomatedLogin) :=
  let! this1 := scrapeLoginPageData this in
  let! p := getCaptchaParameters this1 in
  let! base64Image := getCaptchaImage this1 p in
  let! solvedCaptcha := solveCaptcha base64Image in
  let! convertedCaptcha := convertCaptchaTextM solvedCaptcha p in
  submitLoginForm this1 convertedCaptcha.

End Run.

End Login.

(** ** src/modules/auth.js: the class [AuthManager] *)

Module Auth.

Record AuthManager : Type := {
  sessionCookies : option string      (* [null] or the cookie string *)
}.

(** [this.SESSION_FILE]: the constructor sets it and nothing assigns it
    again. *)
Definition SESSION_FILE (this : AuthManager) : string :=
  "./src/data/session_cookies.json".

Definition constructor : AuthManager :=
  {| sessionCookies := None |}.

Definition set_sessionCookies (this : AuthManager) (v : option string)
  : AuthManager :=
  {| sessionCookies := v |}.

(** [30 * 60 * 1000] *)
Definition SESSION_TTL : Z := 30 * 60 * 1000.

(** [saveSessionData()]; [LPU_USERNAME] is [process.env.LPU_USERNAME || ''].
    What [JSON.parse] gave decides what the four assignments do: on an
    object they update it; on an array they set properties that
    [JSON.stringify] does not write; on [null] or on a number, a string
    or a boolean the first one throws a [TypeError] (the code of a class
    is strict), which the outer [catch] block swallows. *)
Definition saveSessionData (LPU_USERNAME : string) (this : AuthManager)
  : Eff.M unit :=
  Eff.try_catch
    (let! sessionData :=
       Eff.try_catch
         (let! existingContent := Eff.readFile (SESSION_FILE this) in
          Eff.parse existingContent)
         (fun _ =>
            let! t := Eff.now in
            Eff.ret (Eff.Object
                       {| Eff.timestamp := Some t;
                          Eff.username := LPU_USERNAME;
                          Eff.cookies := Some EmptyString;
                          Eff.cookieArray := [];
                          Eff.loginSuccess := false |})) in
     match sessionData with
     | Eff.Object d =>
         let! t := Eff.now in
         Eff.writeFile (SESSION_FILE this)
           {| Eff.timestamp := Some t;
              Eff.username := Eff.username d;
              Eff.cookies := sessionCookies this;
              Eff.cookieArray :=
                match sessionCookies this with
                | Some c => if Js.truthy c then [c] else []
                | None => []
                end;
              Eff.loginSuccess := Js.truthy_opt (sessionCookies this) |}
     | Eff.Array => Eff.writeArray (SESSION_FILE this)
     | Eff.Scalar => Eff.throw "TypeError"
     end)
    (fun _ => Eff.ret tt).

(** [clearSessionData()] *)
Definition clearSessionData (this : AuthManager) : Eff.M AuthManager :=
  do! Eff.try_catch (Eff.unlink (SESSION_FILE this)) (fun _ => Eff.ret tt) in
  Eff.ret (set_sessionCookies this None).

(** [timeSinceUpdate > 30 * 60 * 1000]; the comparison is false when the
    timestamp cannot be read (the difference is [NaN]). *)
Definition expired (timestamp : option Z) (now : Z) : bool :=
  match timestamp with
  | Some sessionTime => SESSION_TTL <? now - sessionTime
  | None => false
  end.

(** [loadSessionData()].  On what is not an object the test
    [sessionData && sessionData.cookies && sessionData.loginSuccess] is
    false: [null] and the other scalars that are not truthy stop at the
    first conjunct, and nothing else has a property [cookies]. *)
Definition loadSessionData (this : AuthManager) : Eff.M (bool * AuthManager) :=
  Eff.try_catch
    (let! sessionContent := Eff.readFile (SESSION_FILE this) in
     let! sessionData := Eff.parse sessionContent in
     match sessionData with
     | Eff.Object d =>
         if Js.truthy_opt (Eff.cookies d) && Eff.loginSuccess d
         then
           let! t := Eff.now in
           if expired (Eff.timestamp d) t
           then
             let! this' := clearSessionData this in
             Eff.ret (false, this')
           else
             Eff.ret (true, set_sessionCookies this (Eff.cookies d))
         else Eff.ret (false, this)
     | Eff.Array | Eff.Scalar => Eff.ret (false, this)
     end)
    (fun _ => Eff.ret (false, this)).

Section Authenticate.

Variable CONFIG : Login.Config.
Variable remote : Login.Remote.
Variable fuel : nat.

(** [new LPUAutomatedLogin()] followed by [automation.runAutomation()]. *)
Definition newAutomationRun : Eff.M (Login.loginResult * Login.LPUAutomatedLogin) :=
  let! automation := Login.constructor CONFIG in
  Login.runAutomation CONFIG remote fuel automation.

(** [authenticateWithUMS(forceRefresh)]; the result is [null] or the
    cookie string.  [process.env.LPU_USERNAME || ''], which
    [saveSessionData] reads, is the value [CONFIG.credentials.username] is
    made of. *)
Definition authenticateWithUMS (this : AuthManager) (forceRefresh : bool)
  : Eff.M (option string * AuthManager) :=
  Eff.try_catch
    (if negb forceRefresh && Js.truthy_opt (sessionCookies this)
     then Eff.ret (sessionCookies this, this)
     else
       let! result := newAutomationRun in
       if Login.success (fst result) && Js.truthy_opt (Login.result_cookies (fst result))
       then
         let this' := set_sessionCookies this (Login.result_cookies (fst result)) in
         do! saveSessionData (Login.cfg_username CONFIG) this' in
         Eff.ret (sessionCookies this', this')
       else Eff.throw "Authentication failed - no valid cookies received")
    (fun _ =>
       let! this' := clearSessionData this in
       Eff.ret (None, this')).

End Authenticate.

Definition getSessionCookies (this : AuthManager) : option string :=
  sessionCookies this.

Definition hasValidSession (this : AuthManager) : bool :=
  Js.truthy_opt (sessionCookies this).

(** The cookies of a manager are null or a non-empty string. *)
Definition cookies_ok (this : AuthManager) : Prop :=
  sessionCookies this = None
  \/ Js.truthy_opt (sessionCookies this) = true.

(** The managers a program can hold: a new one, and what the methods that
    assign [sessionCookies] make of one, in any world. *)
Inductive reachable : AuthManager -> Prop :=
| reach_new : reachable constructor
| reach_load this w ok this' w' :
    reachable this ->
    loadSessionData this w = (Eff.Ret (ok, this'), w') ->
    reachable this'
| reach_clear this w this' w' :
    reachable this ->
    clearSessionData this w = (Eff.Ret this', w') ->
    reachable this'
| reach_authenticate CONFIG remote fuel forceRefresh this w result this' w' :
    reachable this ->
    authenticateWithUMS CONFIG remote fuel this forceRefresh w
      = (Eff.Ret (result, this'), w') ->
    reachable this'.

End Auth.

(** ** The behaviour as the specification words it *)

Module Spec.

(** Section 4.2, [restoreCase]: "mask = (solvedInteger mod 65533) + 1,
    rendered as its binary digit sequence". *)
Definition mask (solvedInteger : Z) : Z := solvedInteger mod 65533 + 1.

Definition bitSequence (m : Z) : list ascii := Js.chars (Js.toString2 m).

(** "If that digit is 1, the character is upper-cased; if 0 (or the bit
    sequence is exhausted for that offset), it is lower-cased." *)
Definition pick (digit : option ascii) (c : ascii) : ascii :=
  match digit with
  | Some d => if Ascii.eqb d "1" then Js.toUpperCase c else Js.toLowerCase c
  | None => Js.toLowerCase c
  end.

(** "Walk rawText from its last character to its first", the bit sequence
    being walked from its end at the same pace: both lists are given last
    element first. *)
Fixpoint walk (rtext rbits : list ascii) : list ascii :=
  match rtext with
  | [] => []
  | c :: rtext' => pick (head rbits) c :: walk rtext' (tail rbits)
  end.

(** "The result is assembled preserving original character order." *)
Definition restoreCaseWith (bits : list ascii) (rawText : string) : string :=
  string_of_list_ascii (rev (walk (rev (Js.chars rawText)) (rev bits))).

Definition restoreCase (rawText : string) (solvedInteger : Z) : string :=
  restoreCaseWith (bitSequence (mask solvedInteger)) rawText.



End Spec.

(** ** Sample values used in the scenarios *)

Module Sample.

Definition config : Login.Config :=
  {| Login.apiKey := "key";
     Login.minBalance := (1 # 1000)%Q;
     Login.minBalanceText := "0.001";
     Login.cfg_username := "12345678";
     Login.cfg_password := "secret";
     Login.saveCaptchaImage := false;
     Login.saveSessionCookies := true |}.

(** The same without credentials. *)
Definition config_no_credentials : Login.Config :=
  {| Login.apiKey := "key";
     Login.minBalance := (1 # 1000)%Q;
     Login.minBalanceText := "0.001";
     Login.cfg_username := EmptyString;
     Login.cfg_password := EmptyString;
     Login.saveCaptchaImage := false;
     Login.saveSessionCookies := true |}.

Definition world (now : Z) : Eff.World :=
  {| Eff.files := ∅; Eff.clock := now; Eff.trace := [] |}.

(** The object as the constructor leaves it. *)
Definition this0 : Login.LPUAutomatedLogin :=
  {| Login.this_cookies := EmptyString; Login.this_sessionCookies := EmptyString;
     Login.scrapedData := None |}.

Definition page_fields : Login.scraped :=
  {| Login.BDC_VCID := "abc"; Login.BDC_BackWorkaround := "1";
     Login.BDC_Hs := "hs"; Login.BDC_SP := "sp"; Login.VIEWSTATE := "vs";
     Login.VIEWSTATEGENERATOR := "vsg"; Login.EVENTVALIDATION := "ev" |}.



(** Status 302, a Location header, and a body with the word Error. *)
Definition redirect_with_error : Login.response :=
  {| Login.status := 302;
     Login.set_cookie := Login.HArray ["ASP.NET_SessionId=abc; path=/"];
     Login.location := Some "/lpuums/StudentDashboard.aspx";
     Login.data := "<h2>Error: object moved</h2>" |}.




(** A record written at instant 0 by a successful login. *)
Definition record : Eff.sessionData :=
  {| Eff.timestamp := Some 0; Eff.username := "12345678";
     Eff.cookies := Some "ASP.NET_SessionId=abc";
     Eff.cookieArray := ["ASP.NET_SessionId=abc"];
     Eff.loginSuccess := true |}.

(** A world whose session file holds [record], at instant [now]. *)
Definition world_with_record (now : Z) : Eff.World :=
  {| Eff.files := {[ Auth.SESSION_FILE Auth.constructor := Eff.Json record ]};
     Eff.clock := now; Eff.trace := [] |}.

(** A manager that holds a session. *)
Definition manager_with_session : Auth.AuthManager :=
  Auth.set_sessionCookies Auth.constructor (Some "ASP.NET_SessionId=abc").

(** A remote side that answers every call, the puzzle being seed 100 with
    the given target digest. *)
Definition portal (targetDigest : string) : Login.Remote :=
  {| Login.loginPage :=
       Login.Answered (Login.HArray ["_ga_B0Z6G6GCD8=GS1; path=/"], page_fields);
     Login.paramsAnswer := Login.Answered ("100", targetDigest);
     Login.imageAnswer := Login.Answered "iVBORw0KGgo=";
     Login.balanceAnswer := Login.Answered (5 # 1)%Q;
     Login.solveAnswer := Login.Answered "k7f2";
     Login.submitAnswer := Login.Answered redirect_with_error |}.

(** A remote side that does not answer at all. *)
Definition silent : Login.Remote :=
  {| Login.loginPage := Login.Failed "Network Error";
     Login.paramsAnswer := Login.Failed "Network Error";
     Login.imageAnswer := Login.Failed "Network Error";
     Login.balanceAnswer := Login.Failed "Network Error";
     Login.solveAnswer := Login.Failed "Network Error";
     Login.submitAnswer := Login.Failed "Network Error" |}.

End Sample.

(** ** The order of the remote calls of one run *)

Module Protocol.

(** The six calls of [runAutomation], in the order of its steps. *)
Definition steps : list Eff.event :=
  [Eff.GetLoginPage; Eff.GetCaptchaParams; Eff.GetCaptchaImage;
   Eff.SolverGetBalance; Eff.SolverSolveImage; Eff.PostLoginForm].

(** The remote calls of [w'] are those of [w] followed by the first [k]
    steps. *)
Definition made (k : nat) (w w' : Eff.World) : Prop :=
  Eff.trace w' = (Eff.trace w ++ firstn k steps)%list.

End Protocol.

(** ** More sample values *)

Module Scenario.

(** The portal answers, the solving account is below the minimum. *)
Definition low_balance : Login.Remote :=
  {| Login.loginPage := Login.Answered (Login.HUndefined, Sample.page_fields);
     Login.paramsAnswer :=
       Login.Answered ("100", "c7614830966e1b0142069a48b4472918979fd105");
     Login.imageAnswer := Login.Answered "iVBORw0KGgo=";
     Login.balanceAnswer := Login.Answered (1 # 2000)%Q;
     Login.solveAnswer := Login.Answered "k7f2";
     Login.submitAnswer := Login.Answered Sample.redirect_with_error |}.

(** The configuration of [Sample.config] with cookie saving switched off. *)
Definition config_not_saving : Login.Config :=
  {| Login.apiKey := "key";
     Login.minBalance := (1 # 1000)%Q;
     Login.minBalanceText := "0.001";
     Login.cfg_username := "12345678";
     Login.cfg_password := "secret";
     Login.saveCaptchaImage := false;
     Login.saveSessionCookies := false |}.

End Scenario.

(** ** Sample values for the session store *)

Module StoreSample.

(** The record of [Sample.record] with a timestamp that cannot be read. *)
Definition undated_record : Eff.sessionData :=
  {| Eff.timestamp := None; Eff.username := "12345678";
     Eff.cookies := Some "ASP.NET_SessionId=abc";
     Eff.cookieArray := ["ASP.NET_SessionId=abc"];
     Eff.loginSuccess := true |}.

Definition world_with (f : Eff.file) (now : Z) : Eff.World :=
  {| Eff.files := {[ Auth.SESSION_FILE Auth.constructor := f ]};
     Eff.clock := now; Eff.trace := [] |}.

End StoreSample.

(** ** src/modules/timetable.js: the class [TimetableManager] *)

Module Timetable.

(** [parseTimeRange(timeStr)]: the pair [(start, end)] of the result.  A
    part that the destructuring leaves [undefined] is [NaN] here: it
    compares and adds as [NaN] does, and gives [NaN] in the result. *)
Definition parseTimeRange (timeStr : string) : Js.number * Js.number :=
  let parts := Js.split_char " " timeStr in
  let timeRange := nth 0 parts EmptyString in
  let period := nth_error parts 1 in
  let hours := map Js.parseInt (Js.split_char "-" timeRange) in
  let startHour := nth 0 hours Js.NaN in
  let endHour := nth 1 hours Js.NaN in
  let '(start, end_) :=
    match period with
    | Some p =>
        if String.eqb p "PM" then
          let start := if negb (Js.same startHour 12)
                       then Js.plus startHour 12 else startHour in
          let end1 := if negb (Js.same endHour 12)
                      then Js.plus endHour 12 else endHour in
          let end2 := if Js.le end1 start then Js.plus start 1 else end1 in
          (start, end2)
        else if String.eqb p "AM" then
          let start := if Js.same startHour 12 then Js.Finite 0 else startHour in
          let end1 := if Js.same endHour 12 then Js.Finite 12
                      else if Js.lt endHour start
                           then Js.plus endHour 12 else endHour in
          (start, end1)
        else (startHour, endHour)
    | None => (startHour, endHour)
    end in
  (Js.times start 60, Js.times end_ 60).

(** The conversion of [parseTimetableHTML] from the time found in the page
    ("09:00-10:00", or the empty string when none was found) to the
    attendance time ("9-10 AM"). *)
Definition attendanceTime (timeStr : string) : string :=
  if Js.truthy timeStr && Js.includes timeStr "-" then
    let pieces := Js.split_char "-" timeStr in
    let startTime := nth 0 pieces EmptyString in
    let endTime := nth 1 pieces EmptyString in
    let startHour :=
      Js.parseInt (nth 0 (Js.split_char ":" startTime) EmptyString) in
    let endHour :=
      Js.parseInt (nth 0 (Js.split_char ":" endTime) EmptyString) in
    if negb (Js.isNaN startHour) && negb (Js.isNaN endHour) then
      if Js.lt startHour (Js.Finite 12) then
        Js.numberToString startHour ++ "-" ++ Js.numberToString endHour ++ " AM"
      else if Js.same startHour 12 then
        Js.numberToString startHour ++ "-" ++ Js.numberToString endHour ++ " PM"
      else
        Js.numberToString (Js.minus startHour 12) ++ "-"
        ++ Js.numberToString (Js.minus endHour 12) ++ " PM"
    else "09-10 AM"
  else "09-10 AM".

(** *** [fetchFreshTimetableData]

    The state of a fetch: the [AuthManager] the [TimetableManager] holds,
    the world of the login automation, and the calls made so far to the
    manager's [authenticateWithUMS] and to the timetable endpoint, the
    latter with the [Cookie] header sent. *)

Inductive call : Type :=
| Authenticate (forceRefresh : bool)
| PostTimetable (Cookie : option string).

(** How [axios.post] ends: with a response, of which [d] is
    [response.data.d] ([None] when [response.data] or its field [d] is
    missing), or with an error, of which [status] is
    [axiosError.response.status] ([None] when there is no response) and
    [message] is [axiosError.message]. *)
Inductive answer : Type :=
| Response (d : option string)
| Rejected (status : option Z) (message : string).

(** The portal answers by what it has been asked so far. *)
Record Portal : Type := {
  login : list call -> Login.Remote;
  GetTimeTable : list call -> answer
}.

Record State : Type := {
  authManager : Auth.AuthManager;
  world : Eff.World;
  calls : list call
}.

Definition isPost (c : call) : bool :=
  match c with
  | PostTimetable _ => true
  | Authenticate _ => false
  end.

(** The numbers of timetable requests and of authentications in a list
    of calls. *)
Definition posts (l : list call) : nat := length (filter isPost l).

Definition authentications (l : list call) : nat :=
  length (filter (fun c => negb (isPost c)) l).

Definition M (A : Type) : Type := State -> Eff.outcome A * State.

Definition ret {A} (a : A) : M A := fun s => (Eff.Ret a, s).

Definition throw {A} (message : string) : M A := fun s => (Eff.Throw message, s).

Definition hang {A} : M A := fun s => (Eff.Hang, s).

Definition bind {A B} (c : M A) (k : A -> M B) : M B :=
  fun s =>
    match c s with
    | (Eff.Ret a, s') => k a s'
    | (Eff.Throw e, s') => (Eff.Throw e, s')
    | (Eff.Hang, s') => (Eff.Hang, s')
    end.

(** [try { body } catch (error) { handler }], the handler receiving
    [error.message]. *)
Definition try_catch {A} (body : M A) (handler : string -> M A) : M A :=
  fun s =>
    match body s with
    | (Eff.Throw e, s') => handler e s'
    | r => r
    end.

Local Notation "'let*' x ':=' c 'in' k" := (bind c (fun x => k))
  (at level 10, x name, c at level 9, k at level 10, right associativity).
Local Notation "'do*' c 'in' k" := (bind c (fun _ => k))
  (at level 10, c at level 9, k at level 10, right associativity).

(** A method of the manager, run on the manager and the world of the
    state. *)
Definition onManager {A} (method : Auth.AuthManager -> Eff.M (A * Auth.AuthManager))
  (log : list call) : M A :=
  fun s =>
    match method (authManager s) (world s) with
    | (Eff.Ret (a, this'), w') =>
        (Eff.Ret a, {| authManager := this'; world := w';
                       calls := (calls s ++ log)%list |})
    | (Eff.Throw e, w') =>
        (Eff.Throw e, {| authManager := authManager s; world := w';
                         calls := (calls s ++ log)%list |})
    | (Eff.Hang, w') =>
        (Eff.Hang, {| authManager := authManager s; world := w';
                      calls := (calls s ++ log)%list |})
    end.

Section Fetch.

(** The rows of the timetable, and [parseTimetableHTML], which reads them
    off the page. *)
Variable Row : Type.
Variable parseTimetableHTML : string -> list Row.

Variable CONFIG : Login.Config.
Variable portal : Portal.
Variable fuel : nat.

Definition MAX_RETRIES : Z := 2.

(** [this.authManager.hasValidSession()] *)
Definition hasValidSession : M bool :=
  fun s => (Eff.Ret (Auth.hasValidSession (authManager s)), s).

(** [await this.authManager.authenticateWithUMS(forceRefresh)] *)
Definition authenticateWithUMS (forceRefresh : bool) : M (option string) :=
  fun s =>
    onManager
      (fun this =>
         Auth.authenticateWithUMS CONFIG (login portal (calls s)) fuel this
           forceRefresh)
      [Authenticate forceRefresh] s.

(** [await this.authManager.clearSessionData()] *)
Definition clearSessionData : M unit :=
  onManager
    (fun this => let! this' := Auth.clearSessionData this in Eff.ret (tt, this'))
    [].

(** [axios.post(... GetTimeTable ...)] with the [Cookie] header
    [this.authManager.getSessionCookies()]; the rejection is a value here,
    for the [catch] that follows to look at. *)
Definition post : M answer :=
  fun s =>
    (Eff.Ret (GetTimeTable portal (calls s)),
     {| authManager := authManager s; world := world s;
        calls := (calls s
                  ++ [PostTimetable (Auth.getSessionCookies (authManager s))])%list |}).

(** From [if (!response.data || !response.data.d)] to the [return] of the
    [try] block. *)
Definition readResponse (d : option string) : M (list Row) :=
  if negb (Js.truthy_opt d) then
    do* clearSessionData in
    throw "Session expired - empty timetable data"
  else
    ret (parseTimetableHTML (match d with Some html => html | None => EmptyString end)).

(** [if (!this.authManager.hasValidSession()) { ... }] *)
Definition ensureSession : M unit :=
  let* valid := hasValidSession in
  if negb valid then
    let* sessionCookies := (authenticateWithUMS false) in
    if negb (Js.truthy_opt sessionCookies)
    then throw "Authentication failed"
    else ret tt
  else ret tt.

(** What the [catch (axiosError)] block does when the error has a
    response with a status of 400 or more and [retryCount < MAX_RETRIES];
    [self] is [this.fetchFreshTimetableData]. *)
Definition retry (self : Z -> M (list Row)) (retryCount : Z) : M (list Row) :=
  do* clearSessionData in
  let* sessionCookies := (authenticateWithUMS true) in
  if negb (Js.truthy_opt sessionCookies)
  then throw "Re-authentication failed"
  else
    let* second := post in
    match second with
    | Response d => readResponse d
    | Rejected _ retryMessage =>
        if retryCount + 1 <? MAX_RETRIES
        then self (retryCount + 1)
        else throw ("Re-authentication retry failed after "
                    ++ Js.toString MAX_RETRIES ++ " attempts: "
                    ++ retryMessage)
    end.

(** The [try] block. *)
Definition attempt (self : Z -> M (list Row)) (retryCount : Z) : M (list Row) :=
  do* ensureSession in
  let* first := post in
  match first with
  | Response d => readResponse d
  | Rejected status message =>
      if match status with Some st => 400 <=? st | None => false end
         && (retryCount <? MAX_RETRIES)
      then retry self retryCount
      else throw ("Request failed: " ++ message)
  end.

(** The [catch] block. *)
Definition recover (self : Z -> M (list Row)) (message : string) : M (list Row) :=
  let* valid := hasValidSession in
  if Js.includes message "Session expired" && valid then
    do* clearSessionData in
    self 0
  else throw message.

(** [fetchFreshTimetableData(retryCount)].  [depth] bounds the nesting of
    the calls of the function to itself; the result is [Hang] when it is
    spent. *)
Fixpoint fetchFreshTimetableData (depth : nat) (retryCount : Z) : M (list Row) :=
  match depth with
  | O => hang
  | S depth' =>
      try_catch (attempt (fetchFreshTimetableData depth') retryCount)
                (recover (fetchFreshTimetableData depth'))
  end.

End Fetch.


End Timetable.

(** ** Times as the timetable page writes them *)

Module PageTime.

Definition two_digits (n : Z) : string :=
  if n <? 10 then "0" ++ Js.toString n else Js.toString n.

(** "HH:MM-HH:MM" *)
Definition text (startHour : Z) (startMinutes : string)
  (endHour : Z) (endMinutes : string) : string :=
  two_digits startHour ++ ":" ++ startMinutes ++ "-"
  ++ two_digits endHour ++ ":" ++ endMinutes.

End PageTime.

(** ** Portals and states to run a fetch on *)

Module FetchSample.

(** A portal that is down: no login page, and every timetable request is
    rejected with the status 500. *)
Definition portal_rejecting : Timetable.Portal :=
  {| Timetable.login := fun _ => Sample.silent;
     Timetable.GetTimeTable :=
       fun _ => Timetable.Rejected (Some 500) "Request failed with status code 500" |}.

(** A portal that answers every timetable request without data. *)
Definition portal_empty : Timetable.Portal :=
  {| Timetable.login := fun _ => Sample.silent;
     Timetable.GetTimeTable := fun _ => Timetable.Response None |}.

Definition state_with_session : Timetable.State :=
  {| Timetable.authManager := Sample.manager_with_session;
     Timetable.world := Sample.world_with_record 0;
     Timetable.calls := [] |}.

Definition state_without_session : Timetable.State :=
  {| Timetable.authManager := Auth.constructor;
     Timetable.world := Sample.world 0;
     Timetable.calls := [] |}.

(** A page reader that finds no class. *)
Definition no_rows (html : string) : list unit := [].

End FetchSample.

(** * Properties *)

(** ** The primitives on known values *)

Example sha1_empty :
  Sha1.hex EmptyString = "da39a3ee5e6b4b0d3255bfef95601890afd80709".
Proof. vm_compute. reflexivity. Qed.

Example sha1_abc : Sha1.hex "abc" = "a9993e364706816aba3e25717850c26c9cd0d89d".
Proof. vm_compute. reflexivity. Qed.

Example sha1_two_blocks :
  Sha1.hex "abcdbcdecdefdefgefghfghighijhijkijkljklmklmnlmnomnopnopq"
  = "84983e441c3bd26ebaae4aa1f95129e5e54670f1".
Proof. vm_compute. reflexivity. Qed.

Example toString_values :
  Js.toString 103 = "103" /\ Js.toString 0 = "0" /\ Js.toString (-5) = "-5"
  /\ Js.numberToString Js.NaN = "NaN"
  /\ Js.numberToString (Js.Infinity false) = "Infinity".
Proof. repeat split. Qed.

Example toString2_values :
  Js.toString2 5 = "101" /\ Js.toString2 0 = "0"
  /\ Js.toString2 (Js.toUint32 (-1)) = "11111111111111111111111111111111".
Proof. repeat split. Qed.

Example split_values :
  Js.split_semi_sp "a=1; b=2;; c" = ["a=1"; "b=2;"; "c"]
  /\ Js.split_semi_sp EmptyString = [EmptyString]
  /\ Js.split_semi_sp "a; ; b" = ["a"; EmptyString; "b"].
Proof. repeat split. Qed.

Example merge_values :
  Login.mergedSessionCookies "_ga_B0Z6G6GCD8=GS1; x=2"
    (Login.HArray ["ASP.NET_SessionId=abc; path=/; HttpOnly"; "x=3"; "junk"])
  = "_ga_B0Z6G6GCD8=GS1; ASP.NET_SessionId=abc; x=3".
Proof. reflexivity. Qed.

(** ** Numbers *)

Example number_values :
  Js.toString (2 ^ 53) = "9007199254740992"
  /\ Js.toString (2 ^ 53 + 2) = "9007199254740994"
  /\ Js.toString (2 ^ 64) = "18446744073709552000"
  /\ Js.toString (10 ^ 21) = "1e+21"
  /\ Js.toString (2 ^ 70) = "1.1805916207174113e+21"
  /\ Js.toString (- 2 ^ 70) = "-1.1805916207174113e+21"
  /\ Js.roundToDouble (2 ^ 53 + 1) = 2 ^ 53
  /\ Js.roundToDouble (2 ^ 53 + 3) = 2 ^ 53 + 4
  /\ Js.shortestString 1200 = "1200"
  /\ Js.parseInt "9007199254740993" = Js.Finite (2 ^ 53)
  /\ Js.parseInt "  -12px" = Js.Finite (-12)
  /\ Js.parseInt "0x1A" = Js.Finite 26
  /\ Js.parseInt "abc" = Js.NaN
  /\ Js.parseInt "0x" = Js.NaN
  /\ Js.parseInt "12:30" = Js.Finite 12.
Proof. vm_compute. repeat split. Qed.

(** Up to 2^53 the Number nearest to an integer is the integer. *)
Lemma toNumber_safe n : Z.abs n <= 2 ^ 53 -> Js.toNumber n = Js.Finite n.
Proof.
  intros H. unfold Js.toNumber.
  assert (R : Js.roundToDouble n = n).
  { unfold Js.roundToDouble. destruct (Z.ltb_spec (Z.abs n) (2 ^ 53)) as [|Hge];
      [reflexivity|].
    assert (E : n = 2 ^ 53 \/ n = - 2 ^ 53) by lia.
    destruct E as [-> | ->]; vm_compute; reflexivity. }
  rewrite R.
  assert (B : 2 ^ 53 < 2 ^ 1024) by (vm_compute; reflexivity).
  destruct (Z.leb_spec (2 ^ 1024) (Z.abs n)) as [Hbig|]; [lia|reflexivity].
Qed.

(** Below 2^53 and from -2^53 on, [x++] adds one; at 2^53 it changes
    nothing. *)
Lemma increment_safe n :
  - 2 ^ 53 <= n < 2 ^ 53 -> Js.increment (Js.Finite n) = Js.Finite (n + 1).
Proof.
  intros H. unfold Js.increment, Js.plus. apply toNumber_safe. lia.
Qed.

Lemma increment_stuck : Js.increment (Js.Finite (2 ^ 53)) = Js.Finite (2 ^ 53).
Proof. vm_compute. reflexivity. Qed.

(** Up to 2^53 [toString] writes all the decimal digits. *)
Lemma toString_decimal n : Z.abs n <= 2 ^ 53 -> Js.toString n = Js.decimal n.
Proof.
  intros H. unfold Js.toString.
  destruct (Z.ltb_spec (Z.abs n) (2 ^ 53)) as [|Hge]; [reflexivity|].
  assert (E : n = 2 ^ 53 \/ n = - 2 ^ 53) by lia.
  destruct E as [-> | ->]; vm_compute; reflexivity.
Qed.

(** ** The hash puzzle *)

Section HashLoop.

Variables (hs vcid : string).

Lemma hashLoop_unfold fuel pos :
  Login.hashLoop (S fuel) pos hs vcid =
  if String.eqb (Login.hashOf pos vcid) hs then Some pos
  else Login.hashLoop fuel (Js.increment pos) hs vcid.
Proof. reflexivity. Qed.

(** More fuel does not change a result. *)
Lemma hashLoop_mono fuel : forall pos r fuel',
  Login.hashLoop fuel pos hs vcid = Some r -> (fuel <= fuel')%nat ->
  Login.hashLoop fuel' pos hs vcid = Some r.
Proof.
  induction fuel as [|fuel IH]; intros pos r fuel' H Hle; [discriminate|].
  destruct fuel' as [|fuel']; [lia|].
  rewrite hashLoop_unfold in *.
  destruct (String.eqb (Login.hashOf pos vcid) hs); [exact H|].
  apply IH with (fuel' := fuel') in H; [exact H|lia].
Qed.

(** A value that [x++] does not change is tested again and again. *)
Lemma hashLoop_stuck x fuel :
  Js.increment x = x -> Login.hashOf x vcid <> hs ->
  Login.hashLoop fuel x hs vcid = None.
Proof.
  intros Hx NE. induction fuel as [|fuel IH]; [reflexivity|].
  rewrite hashLoop_unfold, Hx.
  destruct (String.eqb_spec (Login.hashOf x vcid) hs); [contradiction|exact IH].
Qed.

(** From a seed between -2^53 and 2^53, a returned position is an integer
    up to 2^53 that matches, and nothing from the seed to it does. *)
Lemma hashLoop_sound fuel : forall pos r,
  - 2 ^ 53 <= pos <= 2 ^ 53 ->
  Login.hashLoop fuel (Js.Finite pos) hs vcid = Some r ->
  exists p,
    r = Js.Finite p /\ pos <= p <= 2 ^ 53
    /\ Login.hashOf (Js.Finite p) vcid = hs
    /\ (forall q, pos <= q < p -> Login.hashOf (Js.Finite q) vcid <> hs).
Proof.
  induction fuel as [|fuel IH]; intros pos r Hpos H; [discriminate|].
  rewrite hashLoop_unfold in H.
  destruct (String.eqb_spec (Login.hashOf (Js.Finite pos) vcid) hs) as [E|NE].
  - inversion H; subst r. exists pos.
    repeat split; [lia|lia|exact E|intros q Hq; lia].
  - destruct (Z.eq_dec pos (2 ^ 53)) as [->|Hlt].
    + rewrite hashLoop_stuck in H; [discriminate|exact increment_stuck|exact NE].
    + rewrite increment_safe in H by lia.
      apply IH in H as (p & -> & Hle & Hp & Hmin); [|lia].
      exists p. repeat split; [lia|lia|exact Hp|].
      intros q Hq. destruct (Z.eq_dec q pos) as [->|]; [exact NE|].
      apply Hmin; lia.
Qed.

(** A match [k] steps ahead, at 2^53 at most, is reached with [k + 1]
    iterations at most. *)
Lemma hashLoop_reaches (k : nat) : forall pos,
  - 2 ^ 53 <= pos -> pos + Z.of_nat k <= 2 ^ 53 ->
  Login.hashOf (Js.Finite (pos + Z.of_nat k)) vcid = hs ->
  exists r, Login.hashLoop (S k) (Js.Finite pos) hs vcid = Some r.
Proof.
  induction k as [|k IH]; intros pos Hlo Hhi H; rewrite hashLoop_unfold.
  - replace (pos + Z.of_nat 0) with pos in H by lia.
    rewrite H, String.eqb_refl. eauto.
  - destruct (String.eqb (Login.hashOf (Js.Finite pos) vcid) hs); [eauto|].
    rewrite increment_safe by lia.
    apply IH; [lia|lia|].
    replace (pos + 1 + Z.of_nat k) with (pos + Z.of_nat (S k)) by lia.
    exact H.
Qed.


End HashLoop.

(** What the loop hashes for an integer up to 2^53: its decimal digits
    followed by [vcid]. *)
Lemma hashOf_decimal p vcid :
  Z.abs p <= 2 ^ 53 ->
  Login.hashOf (Js.Finite p) vcid = Sha1.hex (Js.decimal p ++ vcid).
Proof.
  intros H. unfold Login.hashOf, Login.testString, Js.numberToString.
  rewrite toString_decimal by exact H. reflexivity.
Qed.



Lemma hex_length s : String.length (Sha1.hex s) = 40%nat.
Proof.
  unfold Sha1.hex. destruct (Sha1.digest _) as [[[[h0 h1] h2] h3] h4].
  reflexivity.
Qed.



(** A match between the seed and 2^53 makes the loop stop at the least
    one. *)
Lemma hashLoop_complete (seed : Z) (vcid hs : string) (p : Z) :
  - 2 ^ 53 <= seed -> seed <= p -> p <= 2 ^ 53 ->
  Sha1.hex (Js.decimal p ++ vcid) = hs ->
  exists (least : Z) (fuel0 : nat),
    seed <= least <= p /\
    Sha1.hex (Js.decimal least ++ vcid) = hs /\
    (forall q, seed <= q < least -> Sha1.hex (Js.decimal q ++ vcid) <> hs) /\
    (forall fuel, (fuel0 <= fuel)%nat ->
       Login.hashLoop fuel (Js.Finite seed) hs vcid = Some (Js.Finite least)).
Proof.
  intros Hlo Hle Hhi Hp.
  destruct (hashLoop_reaches hs vcid (Z.to_nat (p - seed)) seed) as [r Hr];
    [lia|lia| |].
  { replace (seed + Z.of_nat (Z.to_nat (p - seed))) with p by lia.
    rewrite hashOf_decimal by lia. exact Hp. }
  assert (Hseed : - 2 ^ 53 <= seed <= 2 ^ 53) by lia.
  destruct (hashLoop_sound _ _ _ _ _ Hseed Hr)
    as (least & -> & H1 & H2 & H3).
  exists least, (S (Z.to_nat (p - seed))).
  assert (least <= p).
  { destruct (Z_le_gt_dec least p) as [|Hgt]; [assumption|].
    exfalso. apply (H3 p); [lia|]. rewrite hashOf_decimal by lia. exact Hp. }
  rewrite hashOf_decimal in H2 by lia.
  repeat split; [lia|lia|exact H2| |].
  - intros q Hq. rewrite <- hashOf_decimal by lia. apply H3. lia.
  - intros fuel Hf. eapply hashLoop_mono; eassumption.
Qed.

(** C1, as the code has it.  For a seed from -2^53 on: whenever some
    integer [p] with [seed <= p <= 2^53] has
    [digest (decimal p ++ challengeId) = targetDigest] (compared as
    strings, so case matters), the hash loop of [convertCaptchaText]
    started at [seed] stops, and what it has found is the least such
    integer; [convertCaptchaText], given a text [sp] that [parseInt]
    reads as [seed], goes on with that integer.  With seed 100, challenge
    id "abc" and the SHA-1 digest of "103abc", it finds 103. *)
Theorem puzzle_search_returns_least :
  (forall (seed : Z) (challengeId targetDigest : string) (p : Z),
      - 2 ^ 53 <= seed -> seed <= p -> p <= 2 ^ 53 ->
      Sha1.hex (Js.decimal p ++ challengeId) = targetDigest ->
      exists (least : Z) (fuel0 : nat),
        seed <= least <= p /\
        Sha1.hex (Js.decimal least ++ challengeId) = targetDigest /\
        (forall q, seed <= q < least ->
                   Sha1.hex (Js.decimal q ++ challengeId) <> targetDigest) /\
        (forall fuel, (fuel0 <= fuel)%nat ->
           Login.hashLoop fuel (Js.Finite seed) targetDigest challengeId
           = Some (Js.Finite least) /\
           forall text sp,
             Js.parseInt sp = Js.Finite seed ->
             Login.convertCaptchaText fuel text sp targetDigest challengeId
             = Some (Login.applyCase text (Js.Finite least))))
  /\ Sha1.hex ("103" ++ "abc") = "c7614830966e1b0142069a48b4472918979fd105"
  /\ Js.parseInt "100" = Js.Finite 100
  /\ (forall fuel, (4 <= fuel)%nat ->
        Login.hashLoop fuel (Js.Finite 100) (Sha1.hex ("103" ++ "abc")) "abc"
        = Some (Js.Finite 103)).
Proof.
  split; [|split; [|split]].
  - intros seed challengeId targetDigest p Hlo Hle Hhi Hp.
    destruct (hashLoop_complete seed challengeId targetDigest p Hlo Hle Hhi Hp)
      as (least & fuel0 & H1 & H2 & H3 & H4).
    exists least, fuel0.
    repeat split; [lia|lia|exact H2|exact H3|auto|].
    intros text sp Hsp. unfold Login.convertCaptchaText.
    rewrite Hsp, (H4 fuel) by assumption. reflexivity.
  - vm_compute. reflexivity.
  - vm_compute. reflexivity.
  - intros fuel Hf.
    apply hashLoop_mono with (fuel := 4%nat); [vm_compute; reflexivity|exact Hf].
Qed.

Lemma puzzle_search_returns_least_witness :
  - 2 ^ 53 <= 100 /\ 100 <= 103 /\ 103 <= 2 ^ 53 /\
  Sha1.hex (Js.decimal 103 ++ "abc") = "c7614830966e1b0142069a48b4472918979fd105" /\
  exists (least : Z) (fuel0 : nat),
    100 <= least <= 103 /\
    Sha1.hex (Js.decimal least ++ "abc")
      = "c7614830966e1b0142069a48b4472918979fd105" /\
    (forall q, 100 <= q < least ->
       Sha1.hex (Js.decimal q ++ "abc")
         <> "c7614830966e1b0142069a48b4472918979fd105") /\
    (forall fuel, (fuel0 <= fuel)%nat ->
       Login.hashLoop fuel (Js.Finite 100)
         "c7614830966e1b0142069a48b4472918979fd105" "abc"
         = Some (Js.Finite least) /\
       forall text sp,
         Js.parseInt sp = Js.Finite 100 ->
         Login.convertCaptchaText fuel text sp
           "c7614830966e1b0142069a48b4472918979fd105" "abc"
         = Some (Login.applyCase text (Js.Finite least))).
Proof.
  assert (H0 : - 2 ^ 53 <= 100) by (vm_compute; discriminate).
  assert (H1 : 100 <= 103) by lia.
  assert (H3 : 103 <= 2 ^ 53) by (vm_compute; discriminate).
  assert (H2 : Sha1.hex (Js.decimal 103 ++ "abc")
               = "c7614830966e1b0142069a48b4472918979fd105")
    by (vm_compute; reflexivity).
  split; [exact H0|split; [exact H1|split; [exact H3|split; [exact H2|]]]].
  exact (proj1 puzzle_search_returns_least 100 "abc" _ 103 H0 H1 H3 H2).
Defined.

(** The counter is a Number: at 2^53 adding one changes nothing.  Started
    there, the loop tests 9007199254740992 for ever and never reaches a
    solution that lies beyond, here 2^53 + 2. *)
Lemma puzzle_search_stuck_at_two_to_53 :
  2 ^ 53 <= 2 ^ 53 + 2
  /\ Js.decimal (2 ^ 53 + 2) = "9007199254740994"
  /\ Js.toString (2 ^ 53 + 2) = "9007199254740994"
  /\ Js.parseInt "9007199254740992" = Js.Finite (2 ^ 53)
  /\ Js.increment (Js.Finite (2 ^ 53)) = Js.Finite (2 ^ 53)
  /\ (forall fuel : nat,
        Login.hashLoop fuel (Js.Finite (2 ^ 53))
          (Sha1.hex (Js.decimal (2 ^ 53 + 2) ++ "abc")) "abc"
        = None)
  /\ (forall (fuel : nat) (text : string),
        Login.convertCaptchaText fuel text "9007199254740992"
          (Sha1.hex (Js.decimal (2 ^ 53 + 2) ++ "abc")) "abc"
        = None).
Proof.
  assert (H : forall fuel : nat,
             Login.hashLoop fuel (Js.Finite (2 ^ 53))
               (Sha1.hex (Js.decimal (2 ^ 53 + 2) ++ "abc")) "abc"
             = None).
  { intros fuel. apply hashLoop_stuck; [exact increment_stuck|].
    intros E. vm_compute in E. discriminate. }
  split; [vm_compute; discriminate|].
  split; [vm_compute; reflexivity|].
  split; [vm_compute; reflexivity|].
  assert (P : Js.parseInt "9007199254740992" = Js.Finite (2 ^ 53))
    by (vm_compute; reflexivity).
  split; [exact P|]. split; [exact increment_stuck|]. split; [exact H|].
  intros fuel text. unfold Login.convertCaptchaText. rewrite P, H. reflexivity.
Qed.




(** With the lower-case digest the same run ends, after six calls to the
    portal and to the solving service; without credentials no call is
    made. *)
Example authentication_runs :
  Auth.authenticateWithUMS Sample.config
    (Sample.portal "c7614830966e1b0142069a48b4472918979fd105") 4
    Auth.constructor false (Sample.world 7)
  = (Eff.Ret (Some "_ga_B0Z6G6GCD8=GS1; ASP.NET_SessionId=abc",
              Auth.set_sessionCookies Auth.constructor
                (Some "_ga_B0Z6G6GCD8=GS1; ASP.NET_SessionId=abc")),
     {| Eff.files :=
          {[ "./src/data/session_cookies.json" :=
               Eff.Json
                 {| Eff.timestamp := Some 7; Eff.username := "12345678";
                    Eff.cookies :=
                      Some "_ga_B0Z6G6GCD8=GS1; ASP.NET_SessionId=abc";
                    Eff.cookieArray :=
                      ["_ga_B0Z6G6GCD8=GS1; ASP.NET_SessionId=abc"];
                    Eff.loginSuccess := true |} ]};
        Eff.clock := 7;
        Eff.trace := [Eff.GetLoginPage; Eff.GetCaptchaParams;
                      Eff.GetCaptchaImage; Eff.SolverGetBalance;
                      Eff.SolverSolveImage; Eff.PostLoginForm] |})
  /\ Eff.trace
       (snd (Auth.authenticateWithUMS Sample.config_no_credentials
               (Sample.portal "c7614830966e1b0142069a48b4472918979fd105") 4
               Auth.constructor false (Sample.world 7)))
     = [].
Proof.
  split; vm_compute; reflexivity.
Qed.

(** ** The case conversion *)

Section CaseLoop.

Variables (binaryArray textArray : list ascii).

Local Abbreviation converted := (Login.converted binaryArray textArray).

Lemma caseLoop_step i result :
  Login.caseLoop binaryArray textArray (S i) result
  = Login.caseLoop binaryArray textArray i (String (converted i) result).
Proof.
  cbn [Login.caseLoop]. unfold Login.converted.
  destruct (Login.isOne _); reflexivity.
Qed.

Lemma caseLoop_chars n : forall result,
  Js.chars (Login.caseLoop binaryArray textArray n result)
  = (map converted (seq 0 n) ++ Js.chars result)%list.
Proof.
  induction n as [|i IH]; intros result; [reflexivity|].
  rewrite caseLoop_step, IH, seq_S, map_app, <- app_assoc. reflexivity.
Qed.

Lemma pick_isOne digit c :
  Spec.pick digit c
  = if Login.isOne digit then Js.toUpperCase c else Js.toLowerCase c.
Proof. destruct digit; reflexivity. Qed.

Lemma at_index_rev (k : nat) :
  Js.at_index binaryArray (Z.of_nat (List.length binaryArray) - Z.of_nat (S k))
  = nth_error (rev binaryArray) k.
Proof.
  unfold Js.at_index. rewrite nth_error_rev.
  destruct (Nat.ltb_spec k (List.length binaryArray));
    destruct (Z.ltb_spec (Z.of_nat (List.length binaryArray) - Z.of_nat (S k)) 0);
    try lia; [|reflexivity].
  f_equal. lia.
Qed.

Lemma converted_spec j c :
  nth_error textArray j = Some c ->
  converted j
  = Spec.pick (nth_error (rev binaryArray) (List.length textArray - S j)) c.
Proof.
  intros H. assert (Hj : (j < List.length textArray)%nat)
    by (apply nth_error_Some; congruence).
  rewrite pick_isOne. unfold Login.converted.
  replace (Z.of_nat (List.length textArray) - Z.of_nat j)
    with (Z.of_nat (S (List.length textArray - S j))) by lia.
  rewrite at_index_rev, (nth_error_nth _ _ _ H). reflexivity.
Qed.

Lemma walk_length rt : forall rb,
  List.length (Spec.walk rt rb) = List.length rt.
Proof.
  induction rt as [|c rt IH]; intros rb; simpl; auto.
Qed.

Lemma walk_nth rt : forall rb k,
  nth_error (Spec.walk rt rb) k
  = option_map (Spec.pick (nth_error rb k)) (nth_error rt k).
Proof.
  induction rt as [|c rt IH]; intros rb k.
  - destruct k; reflexivity.
  - destruct rb as [|d rb], k as [|k]; simpl; try reflexivity.
    + rewrite IH. destruct k; reflexivity.
    + apply IH.
Qed.

(** The loop computes the walk of the specification, for any bit array. *)
Lemma caseLoop_is_walk :
  map converted (seq 0 (List.length textArray))
  = rev (Spec.walk (rev textArray) (rev binaryArray)).
Proof.
  apply nth_error_ext. intros n.
  rewrite nth_error_map, nth_error_seq, nth_error_rev, walk_length, length_rev.
  destruct (Nat.ltb_spec n (List.length textArray)) as [Hn|Hn]; [|reflexivity].
  rewrite walk_nth, (nth_error_rev _ textArray).
  destruct (Nat.ltb_spec (List.length textArray - S n) (List.length textArray));
    [|lia].
  replace (List.length textArray - S (List.length textArray - S n))%nat
    with n by lia.
  destruct (nth_error textArray n) as [c|] eqn:E.
  - simpl. f_equal. apply converted_spec. exact E.
  - apply nth_error_None in E. lia.
Qed.

End CaseLoop.

Lemma chars_app a b : Js.chars (a ++ b) = (Js.chars a ++ Js.chars b)%list.
Proof. induction a as [|c a IH]; simpl; [reflexivity|]. f_equal. exact IH. Qed.

Lemma chars_length s : List.length (Js.chars s) = String.length s.
Proof. induction s as [|c s IH]; simpl; [reflexivity|]. f_equal. exact IH. Qed.

(** The digit at offset [k + 1] from the end of the binary rendering is
    bit [k] of the number. *)
Lemma bit_from_end_pos p : forall k : nat,
  Login.isOne (nth_error (rev (Js.chars (Js.pos_toString2 p))) k)
  = Z.testbit (Zpos p) (Z.of_nat k).
Proof.
  induction p as [q IH|q IH|]; intros k; cbn [Js.pos_toString2];
    rewrite ?chars_app, ?rev_app_distr; simpl rev; simpl app.
  - destruct k as [|k]; [reflexivity|].
    cbn [nth_error]. rewrite IH, Nat2Z.inj_succ.
    change (Z.pos q~1) with (2 * Z.pos q + 1).
    rewrite Z.testbit_odd_succ by lia. reflexivity.
  - destruct k as [|k]; [reflexivity|].
    cbn [nth_error]. rewrite IH, Nat2Z.inj_succ.
    change (Z.pos q~0) with (2 * Z.pos q).
    rewrite Z.testbit_even_succ by lia. reflexivity.
  - destruct k as [|k]; [reflexivity|].
    cbn [nth_error]. rewrite Nat2Z.inj_succ.
    change 1 with (2 * 0 + 1) at 1.
    rewrite Z.testbit_odd_succ, Z.testbit_0_l by lia.
    destruct k; reflexivity.
Qed.

Lemma bit_from_end m (k : nat) :
  0 <= m ->
  Login.isOne (nth_error (rev (Spec.bitSequence m)) k)
  = Z.testbit m (Z.of_nat k).
Proof.
  intros Hm. destruct m as [|p|p]; [|apply bit_from_end_pos|lia].
  rewrite Z.testbit_0_l. destruct k as [|[|k]]; reflexivity.
Qed.

(** For an integer the case modifier is the remainder plus one, which no
    rounding touches. *)
Lemma caseModifier_finite n :
  Login.caseModifier (Js.Finite n) = Js.Finite (Js.rem n 65533 + 1).
Proof.
  unfold Login.caseModifier, Js.remainder, Js.plus, Js.rem.
  apply toNumber_safe.
  pose proof (Z.rem_bound_abs n 65533 ltac:(lia)) as B.
  assert (65534 <= 2 ^ 53) by (vm_compute; discriminate). lia.
Qed.

Lemma binaryPattern_finite n :
  Login.binaryPattern (Js.Finite n)
  = Js.toString2 (Js.toUint32 (Js.rem n 65533 + 1)).
Proof. unfold Login.binaryPattern. rewrite caseModifier_finite. reflexivity. Qed.

(** For a non-negative integer the mask of the code is that of the text. *)
Lemma mask_nonneg n :
  0 <= n ->
  Js.toUint32 (Js.rem n 65533 + 1) = Spec.mask n /\ 1 <= Spec.mask n <= 65533.
Proof.
  intros Hn. unfold Js.toUint32, Js.rem, Spec.mask.
  rewrite Z.rem_mod_nonneg by lia.
  pose proof (Z.mod_pos_bound n 65533 ltac:(lia)) as B.
  split; [|lia]. apply Z.mod_small. lia.
Qed.

Lemma applyCase_walk text (n : Js.number) :
  Login.applyCase text n
  = Spec.restoreCaseWith (Js.chars (Login.binaryPattern n)) text.
Proof.
  unfold Login.applyCase, Spec.restoreCaseWith.
  rewrite <- caseLoop_is_walk.
  rewrite <- (string_of_list_ascii_of_string (Login.caseLoop _ _ _ _)).
  f_equal. unfold Js.chars at 1. fold (Js.chars (Login.caseLoop
    (Js.chars (Login.binaryPattern n)) (Js.chars text)
    (List.length (Js.chars text)) EmptyString)).
  rewrite caseLoop_chars, app_nil_r. reflexivity.
Qed.

Lemma applyCase_chars text (n : Js.number) :
  Js.chars (Login.applyCase text n)
  = map (Login.converted (Js.chars (Login.binaryPattern n)) (Js.chars text))
        (seq 0 (String.length text)).
Proof.
  unfold Login.applyCase. rewrite caseLoop_chars, app_nil_r, chars_length.
  reflexivity.
Qed.

(** C2, as the code has it.  For every ASCII text and every integer found
    by the puzzle, the mask is [(solvedInteger % 65533) + 1] taken as an
    unsigned 32-bit number; the character at reverse position [i] (counted
    from 1 at the end of the text) is upper-cased exactly when the binary
    digit at offset [i] from the end of the mask's bit sequence is 1, that
    is when bit [i - 1] of the mask is set, and lower-cased otherwise; the
    order of the characters is kept.  For a non-negative integer the mask
    is [(solvedInteger mod 65533) + 1] and the result is the one the
    specification describes.  With "k7f2" and mask 5 (binary 101) the last
    and third-to-last characters are upper-cased, the other two
    lower-cased.  A puzzle value that is not a number gives the mask 0
    and a text all in lower case. *)
Theorem case_restoration_follows_mask :
  (forall (rawText : string) (solvedInteger : Z),
      Js.isAscii rawText = true ->
      let mask := Js.toUint32 (Js.rem solvedInteger 65533 + 1) in
      let out := Login.applyCase rawText (Js.Finite solvedInteger) in
      Login.binaryPattern (Js.Finite solvedInteger) = Js.toString2 mask
      /\ out = Spec.restoreCaseWith (Spec.bitSequence mask) rawText
      /\ String.length out = String.length rawText
      /\ (forall (i : nat) (c : ascii),
             (1 <= i <= String.length rawText)%nat ->
             nth_error (Js.chars rawText) (String.length rawText - i) = Some c ->
             nth_error (Js.chars out) (String.length rawText - i)
             = Some (if Z.testbit mask (Z.of_nat (i - 1))
                     then Js.toUpperCase c else Js.toLowerCase c))
      /\ (0 <= solvedInteger ->
          mask = Spec.mask solvedInteger
          /\ out = Spec.restoreCase rawText solvedInteger))
  /\ Login.binaryPattern (Js.Finite 4) = "101"
  /\ Login.applyCase "k7f2" (Js.Finite 4)
     = String (Js.toLowerCase "k") (String (Js.toUpperCase "7")
         (String (Js.toLowerCase "f") (String (Js.toUpperCase "2") EmptyString)))
  /\ Login.applyCase "AbCd" (Js.Finite 4) = "aBcD"
  /\ Login.binaryPattern Js.NaN = "0"
  /\ Login.applyCase "AbCd" Js.NaN = "abcd".
Proof.
  split; [|repeat split; vm_compute; reflexivity].
  intros rawText solvedInteger Hascii mask out.
  assert (Hmask : 0 <= mask) by (apply Z.mod_pos_bound; lia).
  assert (Hbits : Login.binaryPattern (Js.Finite solvedInteger)
                  = Js.toString2 mask) by apply binaryPattern_finite.
  assert (Hout : out = Spec.restoreCaseWith (Spec.bitSequence mask) rawText).
  { unfold out. rewrite applyCase_walk, Hbits. reflexivity. }
  assert (Hchars : Js.chars out
                   = map (Login.converted (Spec.bitSequence mask) (Js.chars rawText))
                       (seq 0 (String.length rawText))).
  { unfold out. rewrite applyCase_chars, Hbits. reflexivity. }
  repeat split.
  - exact Hbits.
  - exact Hout.
  - rewrite <- !chars_length, Hchars, length_map, length_seq, chars_length.
    reflexivity.
  - intros i c Hi Hc.
    rewrite Hchars, nth_error_map, nth_error_seq.
    destruct (Nat.ltb_spec (String.length rawText - i) (String.length rawText));
      [|lia].
    simpl. f_equal.
    rewrite (converted_spec _ _ _ _ Hc), pick_isOne, chars_length.
    replace (String.length rawText - S (String.length rawText - i))%nat
      with (i - 1)%nat by lia.
    rewrite bit_from_end by exact Hmask. reflexivity.
  - apply mask_nonneg. assumption.
  - rewrite Hout. unfold Spec.restoreCase. f_equal. f_equal.
    apply mask_nonneg. assumption.
Qed.

Lemma case_restoration_follows_mask_witness :
  Js.isAscii "k7fa" = true
  /\ 0 <= 4
  /\ (1 <= 1 <= String.length "k7fa")%nat
  /\ nth_error (Js.chars "k7fa") (String.length "k7fa" - 1) = Some "a"%char
  /\ Js.toUint32 (Js.rem 4 65533 + 1) = Spec.mask 4
  /\ Login.applyCase "k7fa" (Js.Finite 4) = Spec.restoreCase "k7fa" 4
  /\ nth_error (Js.chars (Login.applyCase "k7fa" (Js.Finite 4)))
       (String.length "k7fa" - 1)
     = Some (if Z.testbit (Js.toUint32 (Js.rem 4 65533 + 1)) (Z.of_nat (1 - 1))
             then Js.toUpperCase "a" else Js.toLowerCase "a")
  /\ Login.applyCase "k7fa" (Js.Finite 4) = "k7fA".
Proof.
  assert (Ha : Js.isAscii "k7fa" = true) by reflexivity.
  assert (H0 : 0 <= 4) by lia.
  assert (H1 : (1 <= 1 <= String.length "k7fa")%nat) by (simpl; lia).
  assert (H2 : nth_error (Js.chars "k7fa") (String.length "k7fa" - 1)
               = Some "a"%char) by reflexivity.
  destruct (proj1 case_restoration_follows_mask "k7fa" 4 Ha)
    as (_ & _ & _ & Hi & Hn).
  destruct (Hn H0) as (Hm & Ho).
  assert (Hv : Login.applyCase "k7fa" (Js.Finite 4) = "k7fA")
    by (rewrite Ho; reflexivity).
  exact (conj Ha (conj H0 (conj H1 (conj H2 (conj Hm (conj Ho
           (conj (Hi 1%nat _ H1 H2) Hv))))))).
Defined.

(** Where the sentence of the specification fails: the puzzle integer -2.
    The code renders 4294967295, thirty-two digits 1, and upper-cases both
    characters; [(-2 mod 65533) + 1] is 65532, whose last two digits are 0;
    and the value before the conversion to unsigned is -1. *)
Lemma case_restoration_negative_integer :
  Js.isAscii "ab" = true
  /\ Login.applyCase "ab" (Js.Finite (-2)) <> Spec.restoreCase "ab" (-2)
  /\ Login.applyCase "ab" (Js.Finite (-2)) = "AB"
  /\ Spec.restoreCase "ab" (-2) = "ab"
  /\ Login.binaryPattern (Js.Finite (-2)) = "11111111111111111111111111111111"
  /\ Login.caseModifier (Js.Finite (-2)) = Js.Finite (-1)
  /\ Spec.mask (-2) = 65532
  /\ Js.toString2 (Spec.mask (-2)) = "1111111111111100".
Proof.
  repeat split; try (vm_compute; reflexivity).
  vm_compute. discriminate.
Qed.

(** ** The test on the response to the form *)






(** ** The session store *)

Lemma truthy_nonempty s : Js.truthy s = true <-> s <> EmptyString.
Proof.
  unfold Js.truthy. destruct (String.eqb_spec s EmptyString); simpl; split;
    congruence.
Qed.

Lemma clearSessionData_spec this w :
  exists w',
    Auth.clearSessionData this w
      = (Eff.Ret (Auth.set_sessionCookies this None), w')
    /\ Eff.files w' = delete (Auth.SESSION_FILE this) (Eff.files w)
    /\ Eff.clock w' = Eff.clock w
    /\ Eff.trace w' = Eff.trace w.
Proof.
  unfold Auth.clearSessionData, Eff.bind, Eff.try_catch, Eff.unlink, Eff.ret.
  destruct (Eff.files w !! Auth.SESSION_FILE this) eqn:E.
  - eexists. split; [reflexivity|]. simpl. auto.
  - exists w. repeat split. rewrite delete_id; auto.
Qed.

(** What [loadSessionData] does, case by case on the file. *)
Lemma loadSessionData_valid this w d :
  Eff.files w !! Auth.SESSION_FILE this = Some (Eff.Json d) ->
  Js.truthy_opt (Eff.cookies d) = true ->
  Eff.loginSuccess d = true ->
  Auth.expired (Eff.timestamp d) (Eff.clock w) = false ->
  Auth.loadSessionData this w
  = (Eff.Ret (true, Auth.set_sessionCookies this (Eff.cookies d)), w).
Proof.
  intros Hf Hc Hl He.
  unfold Auth.loadSessionData, Eff.try_catch, Eff.bind, Eff.readFile.
  rewrite Hf. cbn [Eff.parse Eff.ret]. rewrite Hc, Hl. cbn [andb Eff.now].
  rewrite He. reflexivity.
Qed.

Lemma loadSessionData_expired this w d :
  Eff.files w !! Auth.SESSION_FILE this = Some (Eff.Json d) ->
  Js.truthy_opt (Eff.cookies d) = true ->
  Eff.loginSuccess d = true ->
  Auth.expired (Eff.timestamp d) (Eff.clock w) = true ->
  Auth.loadSessionData this w
  = (Eff.Ret (false, Auth.set_sessionCookies this None),
     {| Eff.files := delete (Auth.SESSION_FILE this) (Eff.files w);
        Eff.clock := Eff.clock w; Eff.trace := Eff.trace w |}).
Proof.
  intros Hf Hc Hl He.
  unfold Auth.loadSessionData, Eff.try_catch, Eff.bind, Eff.readFile.
  rewrite Hf. cbn [Eff.parse Eff.ret]. rewrite Hc, Hl. cbn [andb Eff.now].
  rewrite He.
  unfold Auth.clearSessionData, Eff.bind, Eff.try_catch, Eff.unlink, Eff.ret.
  rewrite Hf. reflexivity.
Qed.

(** C6.  A session record (cookies present, [loginSuccess] true) whose age
    at load time exceeds 30 minutes makes [loadSessionData] delete the file
    and report no session, the manager being left without cookies; a record
    whose age is at most 30 minutes is returned as the session. *)
Theorem load_applies_thirty_minute_rule :
  forall (this : Auth.AuthManager) (w : Eff.World) (d : Eff.sessionData)
         (sessionTime : Z),
    Eff.files w !! Auth.SESSION_FILE this = Some (Eff.Json d) ->
    Js.truthy_opt (Eff.cookies d) = true ->
    Eff.loginSuccess d = true ->
    Eff.timestamp d = Some sessionTime ->
    let age := Eff.clock w - sessionTime in
    (30 * 60 * 1000 < age ->
       exists this' w',
         Auth.loadSessionData this w = (Eff.Ret (false, this'), w')
         /\ Auth.getSessionCookies this' = None
         /\ Auth.hasValidSession this' = false
         /\ Eff.files w' !! Auth.SESSION_FILE this = None
         /\ Eff.files w' = delete (Auth.SESSION_FILE this) (Eff.files w))
    /\ (age <= 30 * 60 * 1000 ->
          exists this',
            Auth.loadSessionData this w = (Eff.Ret (true, this'), w)
            /\ Auth.getSessionCookies this' = Eff.cookies d
            /\ Auth.hasValidSession this' = true).
Proof.
  intros this w d sessionTime Hf Hc Hl Ht age. split; intros Hage.
  - assert (E : Auth.expired (Eff.timestamp d) (Eff.clock w) = true).
    { rewrite Ht. unfold Auth.expired, Auth.SESSION_TTL.
      apply Z.ltb_lt. exact Hage. }
    eexists _, _. split; [exact (loadSessionData_expired this w d Hf Hc Hl E)|].
    cbn. repeat split. apply lookup_delete_eq.
  - assert (E : Auth.expired (Eff.timestamp d) (Eff.clock w) = false).
    { rewrite Ht. unfold Auth.expired, Auth.SESSION_TTL.
      apply Z.ltb_ge. exact Hage. }
    eexists. split; [exact (loadSessionData_valid this w d Hf Hc Hl E)|].
    cbn. split; [reflexivity|exact Hc].
Qed.

Lemma load_applies_thirty_minute_rule_witness :
  (30 * 60 * 1000 < Eff.clock (Sample.world_with_record 1800001) - 0
   /\ exists this' w',
       Auth.loadSessionData Auth.constructor (Sample.world_with_record 1800001)
       = (Eff.Ret (false, this'), w')
       /\ Auth.getSessionCookies this' = None
       /\ Auth.hasValidSession this' = false
       /\ Eff.files w' !! Auth.SESSION_FILE Auth.constructor = None
       /\ Eff.files w'
          = delete (Auth.SESSION_FILE Auth.constructor)
              (Eff.files (Sample.world_with_record 1800001)))
  /\ (Eff.clock (Sample.world_with_record 1800000) - 0 <= 30 * 60 * 1000
      /\ exists this',
          Auth.loadSessionData Auth.constructor (Sample.world_with_record 1800000)
          = (Eff.Ret (true, this'), Sample.world_with_record 1800000)
          /\ Auth.getSessionCookies this' = Eff.cookies Sample.record
          /\ Auth.hasValidSession this' = true).
Proof.
  assert (Hf : forall now,
             Eff.files (Sample.world_with_record now)
               !! Auth.SESSION_FILE Auth.constructor
             = Some (Eff.Json Sample.record))
    by (intros now; apply lookup_singleton_eq).
  assert (Hc : Js.truthy_opt (Eff.cookies Sample.record) = true) by reflexivity.
  assert (Hl : Eff.loginSuccess Sample.record = true) by reflexivity.
  assert (Ht : Eff.timestamp Sample.record = Some 0) by reflexivity.
  assert (Hold : 30 * 60 * 1000
                 < Eff.clock (Sample.world_with_record 1800001) - 0)
    by (simpl; lia).
  assert (Hnew : Eff.clock (Sample.world_with_record 1800000) - 0
                 <= 30 * 60 * 1000) by (simpl; lia).
  split.
  - split; [exact Hold|].
    exact (proj1 (load_applies_thirty_minute_rule Auth.constructor
             (Sample.world_with_record 1800001) Sample.record 0
             (Hf _) Hc Hl Ht) Hold).
  - split; [exact Hnew|].
    exact (proj2 (load_applies_thirty_minute_rule Auth.constructor
             (Sample.world_with_record 1800000) Sample.record 0
             (Hf _) Hc Hl Ht) Hnew).
Defined.

(** What [saveSessionData] does.  Over a record, no file or a file that
    cannot be parsed it writes the cookies of the manager, the current
    instant, and the user name of the record that was there, or the
    configured one when there was none to read.  Over an array it writes
    the array back; over a scalar it writes nothing.  It never throws. *)
Lemma saveSessionData_spec LPU_USERNAME this w :
  Auth.saveSessionData LPU_USERNAME this w
  = (Eff.Ret tt,
     {| Eff.files :=
          match Eff.files w !! Auth.SESSION_FILE this with
          | Some Eff.JsonScalar => Eff.files w
          | Some Eff.JsonArray =>
              <[Auth.SESSION_FILE this := Eff.JsonArray]> (Eff.files w)
          | previous =>
              <[Auth.SESSION_FILE this :=
                  Eff.Json
                    {| Eff.timestamp := Some (Eff.clock w);
                       Eff.username :=
                         match previous with
                         | Some (Eff.Json d0) => Eff.username d0
                         | _ => LPU_USERNAME
                         end;
                       Eff.cookies := Auth.sessionCookies this;
                       Eff.cookieArray :=
                         match Auth.sessionCookies this with
                         | Some c => if Js.truthy c then [c] else []
                         | None => []
                         end;
                       Eff.loginSuccess :=
                         Js.truthy_opt (Auth.sessionCookies this) |}]>
                (Eff.files w)
          end;
        Eff.clock := Eff.clock w; Eff.trace := Eff.trace w |}).
Proof.
  unfold Auth.saveSessionData, Eff.try_catch, Eff.bind, Eff.readFile.
  destruct (Eff.files w !! Auth.SESSION_FILE this) as [[d0| | |]|];
    try reflexivity.
  destruct w; reflexivity.
Qed.




(** ** Authentication *)

Lemma validateConfig_false CONFIG :
  Login.validateConfig CONFIG = false
  <-> Login.cfg_username CONFIG = EmptyString \/ Login.cfg_password CONFIG = EmptyString
      \/ Login.apiKey CONFIG = EmptyString.
Proof.
  unfold Login.validateConfig, Js.truthy.
  destruct (String.eqb_spec (Login.cfg_username CONFIG) EmptyString);
    destruct (String.eqb_spec (Login.cfg_password CONFIG) EmptyString);
    destruct (String.eqb_spec (Login.apiKey CONFIG) EmptyString);
    simpl; intuition congruence.
Qed.

(** Without a valid configuration the constructor throws, and nothing has
    been called. *)
Lemma newAutomationRun_invalid CONFIG remote fuel w :
  Login.validateConfig CONFIG = false ->
  Auth.newAutomationRun CONFIG remote fuel w
  = (Eff.Throw "Configuration validation failed", w).
Proof.
  intros H. unfold Auth.newAutomationRun, Eff.bind, Login.constructor.
  rewrite H. reflexivity.
Qed.

(** The catch block of [authenticateWithUMS]. *)
Lemma authenticate_handler this w1 :
  exists w',
    (let! this' := Auth.clearSessionData this in Eff.ret (None, this')) w1
    = (Eff.Ret (@None string, Auth.set_sessionCookies this None), w')
    /\ Eff.files w' !! Auth.SESSION_FILE this = None
    /\ Eff.trace w' = Eff.trace w1.
Proof.
  destruct (clearSessionData_spec this w1) as (w' & E & Hf & _ & Ht).
  exists w'. unfold Eff.bind. rewrite E. repeat split; [|exact Ht].
  rewrite Hf. apply lookup_delete_eq.
Qed.

(** An attempt whose automation throws, or returns without success or
    without cookies, ends in the catch block. *)
Lemma authenticate_failure CONFIG remote fuel this forceRefresh w w1 :
  forceRefresh = true \/ Auth.hasValidSession this = false ->
  (exists e, Auth.newAutomationRun CONFIG remote fuel w = (Eff.Throw e, w1))
  \/ (exists result automation,
        Auth.newAutomationRun CONFIG remote fuel w
        = (Eff.Ret (result, automation), w1)
        /\ Login.success result && Js.truthy_opt (Login.result_cookies result)
           = false) ->
  exists w',
    Auth.authenticateWithUMS CONFIG remote fuel this forceRefresh w
    = (Eff.Ret (None, Auth.set_sessionCookies this None), w')
    /\ Eff.files w' !! Auth.SESSION_FILE this = None
    /\ Eff.trace w' = Eff.trace w1.
Proof.
  intros Hattempt Hrun.
  destruct (authenticate_handler this w1) as (w' & E & Hf & Ht).
  exists w'. split; [|split; assumption].
  unfold Auth.authenticateWithUMS, Eff.try_catch.
  assert (C : negb forceRefresh && Js.truthy_opt (Auth.sessionCookies this) = false).
  { destruct Hattempt as [->|H]; [reflexivity|].
    unfold Auth.hasValidSession in H. rewrite H. apply andb_false_r. }
  rewrite C. unfold Eff.bind at 1.
  destruct Hrun as [(e & ->)|(result & automation & -> & Hres)].
  - exact E.
  - cbn [fst]. rewrite Hres. cbn [Eff.throw]. exact E.
Qed.

(** Every way [authenticateWithUMS] returns. *)
Lemma authenticate_returns CONFIG remote fuel this forceRefresh w r this' w' :
  Auth.authenticateWithUMS CONFIG remote fuel this forceRefresh w
  = (Eff.Ret (r, this'), w') ->
  (r = None /\ this' = Auth.set_sessionCookies this None
   /\ Eff.files w' !! Auth.SESSION_FILE this = None)
  \/ (Js.truthy_opt r = true /\ Auth.sessionCookies this' = r
      /\ Auth.SESSION_FILE this' = Auth.SESSION_FILE this).
Proof.
  unfold Auth.authenticateWithUMS, Eff.try_catch.
  destruct (negb forceRefresh && Js.truthy_opt (Auth.sessionCookies this)) eqn:C.
  - cbn [Eff.ret]. intros H. inversion H; subst. right.
    apply andb_true_iff in C as [_ C]. auto.
  - unfold Eff.bind at 1.
    destruct (Auth.newAutomationRun CONFIG remote fuel w)
      as [[[result automation]|e|] w1].
    + cbn [fst].
      destruct (Login.success result
                && Js.truthy_opt (Login.result_cookies result)) eqn:S.
      * unfold Eff.bind. rewrite saveSessionData_spec. cbn [Eff.ret].
        intros H. inversion H; subst. right.
        apply andb_true_iff in S as [_ S]. auto.
      * cbn [Eff.throw].
        destruct (authenticate_handler this w1) as (w2 & E & Hf & _).
        rewrite E. intros H. inversion H; subst. left. auto.
    + destruct (authenticate_handler this w1) as (w2 & E & Hf & _).
      rewrite E. intros H. inversion H; subst. left. auto.
    + discriminate.
Qed.

(** C5.  When the user name, the password or the API key is missing, the
    configuration check fails and the constructor of the automation throws
    before anything is called.  A call of [authenticateWithUMS] that is an
    attempt (forced, or made without a session in memory, as every caller
    does) then returns null; and whatever the call, no request has been
    sent to the portal or to the solving service. *)
Theorem missing_config_fails_before_any_call :
  forall (CONFIG : Login.Config) (remote : Login.Remote) (fuel : nat)
         (this : Auth.AuthManager) (forceRefresh : bool) (w : Eff.World),
    Login.cfg_username CONFIG = EmptyString \/ Login.cfg_password CONFIG = EmptyString
    \/ Login.apiKey CONFIG = EmptyString ->
    Login.validateConfig CONFIG = false
    /\ Login.constructor CONFIG w
       = (Eff.Throw "Configuration validation failed", w)
    /\ (forceRefresh = true \/ Auth.hasValidSession this = false ->
        exists this' w',
          Auth.authenticateWithUMS CONFIG remote fuel this forceRefresh w
          = (Eff.Ret (None, this'), w')
          /\ Eff.trace w' = Eff.trace w)
    /\ Eff.trace
         (snd (Auth.authenticateWithUMS CONFIG remote fuel this forceRefresh w))
       = Eff.trace w.
Proof.
  intros CONFIG remote fuel this forceRefresh w Hmissing.
  apply validateConfig_false in Hmissing as Hv.
  pose proof (newAutomationRun_invalid CONFIG remote fuel w Hv) as Hrun.
  assert (Hattempt :
    forceRefresh = true \/ Auth.hasValidSession this = false ->
    exists this' w',
      Auth.authenticateWithUMS CONFIG remote fuel this forceRefresh w
      = (Eff.Ret (None, this'), w')
      /\ Eff.trace w' = Eff.trace w).
  { intros Ha.
    destruct (authenticate_failure CONFIG remote fuel this forceRefresh w w Ha)
      as (w' & E & _ & Ht); [left; eauto|].
    eauto. }
  split; [exact Hv|]. split.
  { unfold Login.constructor. rewrite Hv. reflexivity. }
  split; [exact Hattempt|].
  destruct forceRefresh.
  - destruct Hattempt as (this' & w' & -> & Ht); auto.
  - destruct (Auth.hasValidSession this) eqn:Hs.
    + unfold Auth.authenticateWithUMS, Eff.try_catch.
      unfold Auth.hasValidSession in Hs. rewrite Hs. reflexivity.
    + destruct Hattempt as (this' & w' & -> & Ht); auto.
Qed.

Lemma missing_config_fails_before_any_call_witness :
  (Login.cfg_username Sample.config_no_credentials = EmptyString
   \/ Login.cfg_password Sample.config_no_credentials = EmptyString
   \/ Login.apiKey Sample.config_no_credentials = EmptyString)
  /\ (false = true \/ Auth.hasValidSession Auth.constructor = false)
  /\ exists this' w',
      Auth.authenticateWithUMS Sample.config_no_credentials Sample.silent 0
        Auth.constructor false (Sample.world 0)
      = (Eff.Ret (None, this'), w')
      /\ Eff.trace w' = Eff.trace (Sample.world 0).
Proof.
  assert (H1 : Login.cfg_username Sample.config_no_credentials = EmptyString
               \/ Login.cfg_password Sample.config_no_credentials = EmptyString
               \/ Login.apiKey Sample.config_no_credentials = EmptyString)
    by (left; reflexivity).
  assert (H2 : false = true \/ Auth.hasValidSession Auth.constructor = false)
    by (right; reflexivity).
  exact (conj H1 (conj H2
    (proj1 (proj2 (proj2
       (missing_config_fails_before_any_call Sample.config_no_credentials
          Sample.silent 0 Auth.constructor false (Sample.world 0) H1))) H2))).
Defined.

(** C9.  Whenever [authenticateWithUMS] returns null, the cookies in
    memory are null and the session file is gone, so that
    [getSessionCookies] gives null and [hasValidSession] false.  It returns
    null in each failure of an attempt: the automation throws (a missing
    configuration makes the constructor throw), or it returns without
    success or without cookies. *)
Theorem failed_authentication_clears_session :
  forall (CONFIG : Login.Config) (remote : Login.Remote) (fuel : nat)
         (this : Auth.AuthManager) (forceRefresh : bool) (w : Eff.World),
    (forall this' w',
        Auth.authenticateWithUMS CONFIG remote fuel this forceRefresh w
        = (Eff.Ret (None, this'), w') ->
        Auth.getSessionCookies this' = None
        /\ Auth.hasValidSession this' = false
        /\ Eff.files w' !! Auth.SESSION_FILE this' = None)
    /\ (forceRefresh = true \/ Auth.hasValidSession this = false ->
        forall w1,
          (exists e,
              Auth.newAutomationRun CONFIG remote fuel w = (Eff.Throw e, w1))
          \/ (exists result automation,
                 Auth.newAutomationRun CONFIG remote fuel w
                 = (Eff.Ret (result, automation), w1)
                 /\ Login.success result
                    && Js.truthy_opt (Login.result_cookies result) = false) ->
          exists this' w',
            Auth.authenticateWithUMS CONFIG remote fuel this forceRefresh w
            = (Eff.Ret (None, this'), w')
            /\ Auth.getSessionCookies this' = None
            /\ Auth.hasValidSession this' = false
            /\ Eff.files w' !! Auth.SESSION_FILE this' = None)
    /\ (forceRefresh = true \/ Auth.hasValidSession this = false ->
        Login.validateConfig CONFIG = false ->
        exists e,
          Auth.newAutomationRun CONFIG remote fuel w = (Eff.Throw e, w)).
Proof.
  intros CONFIG remote fuel this forceRefresh w. split; [|split].
  - intros this' w' H.
    destruct (authenticate_returns _ _ _ _ _ _ _ _ _ H)
      as [(_ & -> & Hf)|(Ht & _)]; [|discriminate].
    repeat split. exact Hf.
  - intros Ha w1 Hrun.
    destruct (authenticate_failure CONFIG remote fuel this forceRefresh w w1 Ha Hrun)
      as (w' & E & Hf & _).
    exists (Auth.set_sessionCookies this None), w'. repeat split; assumption.
  - intros _ Hv. eexists. apply newAutomationRun_invalid. exact Hv.
Qed.

Lemma failed_authentication_clears_session_witness :
  Auth.authenticateWithUMS Sample.config_no_credentials Sample.silent 0
    Sample.manager_with_session true (Sample.world_with_record 5)
  = (Eff.Ret (None, Auth.constructor), Sample.world 5)
  /\ (true = true \/ Auth.hasValidSession Sample.manager_with_session = false)
  /\ Login.validateConfig Sample.config_no_credentials = false
  /\ Auth.getSessionCookies Auth.constructor = None
  /\ Auth.hasValidSession Auth.constructor = false
  /\ Eff.files (Sample.world 5) !! Auth.SESSION_FILE Auth.constructor = None
  /\ (exists e,
        Auth.newAutomationRun Sample.config_no_credentials Sample.silent 0
          (Sample.world_with_record 5)
        = (Eff.Throw e, Sample.world_with_record 5))
  /\ exists this' w',
      Auth.authenticateWithUMS Sample.config_no_credentials Sample.silent 0
        Sample.manager_with_session true (Sample.world_with_record 5)
      = (Eff.Ret (None, this'), w')
      /\ Auth.getSessionCookies this' = None
      /\ Auth.hasValidSession this' = false
      /\ Eff.files w' !! Auth.SESSION_FILE this' = None.
Proof.
  assert (H1 : Auth.authenticateWithUMS Sample.config_no_credentials
                 Sample.silent 0 Sample.manager_with_session true
                 (Sample.world_with_record 5)
               = (Eff.Ret (None, Auth.constructor), Sample.world 5)).
  { unfold Auth.authenticateWithUMS, Eff.try_catch.
    cbn [negb andb]. unfold Eff.bind at 1.
    rewrite newAutomationRun_invalid by reflexivity.
    unfold Auth.clearSessionData, Eff.bind, Eff.try_catch, Eff.unlink.
    cbn [Sample.world_with_record Eff.files Sample.manager_with_session
         Auth.set_sessionCookies Auth.SESSION_FILE].
    rewrite lookup_singleton_eq. cbn [Eff.ret].
    rewrite delete_singleton_eq. reflexivity. }
  assert (H2 : true = true \/ Auth.hasValidSession Sample.manager_with_session = false)
    by (left; reflexivity).
  assert (H3 : Login.validateConfig Sample.config_no_credentials = false)
    by reflexivity.
  pose proof (failed_authentication_clears_session Sample.config_no_credentials
                Sample.silent 0 Sample.manager_with_session true
                (Sample.world_with_record 5)) as (Ha & Hb & Hc).
  destruct (Ha _ _ H1) as (G1 & G2 & G3).
  exact (conj H1 (conj H2 (conj H3 (conj G1 (conj G2 (conj G3
    (conj (Hc H2 H3) (Hb H2 _ (or_introl (Hc H2 H3)))))))))).
Defined.

(** ** Invariant of the manager: the cookies are null or a non-empty string *)

Lemma loadSessionData_keeps this w ok this' w' :
  Auth.loadSessionData this w = (Eff.Ret (ok, this'), w') ->
  Auth.cookies_ok this -> Auth.cookies_ok this'.
Proof.
  unfold Auth.loadSessionData, Eff.try_catch, Eff.bind, Eff.readFile.
  destruct (Eff.files w !! Auth.SESSION_FILE this) as [[d| | |]|] eqn:Hf;
    cbn [Eff.parse Eff.ret Eff.throw];
    try (intros H; inversion H; subst; auto; fail).
  destruct (Js.truthy_opt (Eff.cookies d)) eqn:Hc;
    destruct (Eff.loginSuccess d); cbn [andb Eff.now];
    try (intros H; inversion H; subst; auto; fail).
  destruct (Auth.expired (Eff.timestamp d) (Eff.clock w)).
  - destruct (clearSessionData_spec this w) as (w2 & E & _).
    rewrite E. intros H; inversion H; subst. intros _. left. reflexivity.
  - intros H; inversion H; subst. intros _. right. exact Hc.
Qed.

Lemma reachable_cookies_ok this : Auth.reachable this -> Auth.cookies_ok this.
Proof.
  induction 1 as [|this w ok this' w' _ IH H|this w this' w' _ IH H
                  |CONFIG remote fuel forceRefresh this w result this' w' _ IH H].
  - left. reflexivity.
  - eapply loadSessionData_keeps; eassumption.
  - destruct (clearSessionData_spec this w) as (w2 & E & _).
    rewrite E in H. inversion H; subst. left. reflexivity.
  - destruct (authenticate_returns _ _ _ _ _ _ _ _ _ H)
      as [(_ & -> & _)|(Ht & Hs & _)].
    + left. reflexivity.
    + right. rewrite Hs. exact Ht.
Qed.

(** The same record, read inside its 30 minutes and read after them. *)
Lemma load_expiry_cases this w d sessionTime later :
  Eff.files w !! Auth.SESSION_FILE this = Some (Eff.Json d) ->
  Js.truthy_opt (Eff.cookies d) = true ->
  Eff.loginSuccess d = true ->
  Eff.timestamp d = Some sessionTime ->
  Eff.clock w - sessionTime <= 30 * 60 * 1000 ->
  30 * 60 * 1000 < later - sessionTime ->
  Auth.loadSessionData this w
  = (Eff.Ret (true, Auth.set_sessionCookies this (Eff.cookies d)), w)
  /\ Auth.loadSessionData this (Eff.at_time w later)
     = (Eff.Ret (false, Auth.set_sessionCookies this None),
        {| Eff.files := delete (Auth.SESSION_FILE this) (Eff.files w);
           Eff.clock := later; Eff.trace := Eff.trace w |}).
Proof.
  intros Hf Hc Hl Ht Hin Hout. split.
  - apply loadSessionData_valid; try assumption.
    rewrite Ht. apply Z.ltb_ge. exact Hin.
  - apply (loadSessionData_expired this (Eff.at_time w later) d); try assumption.
    rewrite Ht. apply Z.ltb_lt. exact Hout.
Qed.

(** C10.  For every manager the program can hold, [hasValidSession] is true
    exactly when [getSessionCookies] is not null.  Neither looks at the
    clock: a session loaded from a record that was within its 30 minutes is
    still reported valid when the record is older than that, at an instant
    where loading the same record would refuse it; it stops being valid
    when it is cleared. *)
Theorem valid_session_iff_cookies_without_ttl :
  (forall this : Auth.AuthManager,
      Auth.reachable this ->
      (Auth.hasValidSession this = true <-> Auth.getSessionCookies this <> None))
  /\ (forall (this : Auth.AuthManager) (w : Eff.World) (d : Eff.sessionData)
             (sessionTime later : Z),
        Eff.files w !! Auth.SESSION_FILE this = Some (Eff.Json d) ->
        Js.truthy_opt (Eff.cookies d) = true ->
        Eff.loginSuccess d = true ->
        Eff.timestamp d = Some sessionTime ->
        Eff.clock w - sessionTime <= 30 * 60 * 1000 ->
        30 * 60 * 1000 < later - sessionTime ->
        exists this',
          Auth.loadSessionData this w = (Eff.Ret (true, this'), w)
          /\ Auth.hasValidSession this' = true
          /\ Auth.getSessionCookies this' = Eff.cookies d
          /\ fst (Auth.loadSessionData this (Eff.at_time w later))
             = Eff.Ret (false, Auth.set_sessionCookies this None)
          /\ forall w0,
               Auth.hasValidSession
                 (Auth.set_sessionCookies this' None) = false
               /\ fst (Auth.clearSessionData this' w0)
                  = Eff.Ret (Auth.set_sessionCookies this' None)).
Proof.
  split.
  - intros this Hr. apply reachable_cookies_ok in Hr.
    unfold Auth.hasValidSession, Auth.getSessionCookies.
    destruct Hr as [->|H]; [split; [discriminate|congruence]|].
    rewrite H. split; [|reflexivity].
    intros _ E. rewrite E in H. discriminate.
  - intros this w d sessionTime later Hf Hc Hl Ht Hin Hout.
    destruct (load_expiry_cases this w d sessionTime later Hf Hc Hl Ht Hin Hout)
      as (E1 & E2).
    eexists. split; [exact E1|].
    split; [exact Hc|]. split; [reflexivity|]. split; [rewrite E2; reflexivity|].
    intros w0. split; [reflexivity|].
    destruct (clearSessionData_spec
                (Auth.set_sessionCookies this (Eff.cookies d)) w0)
      as (w2 & E & _).
    rewrite E. reflexivity.
Qed.

Lemma valid_session_iff_cookies_without_ttl_witness :
  Auth.reachable Auth.constructor
  /\ (Auth.hasValidSession Auth.constructor = true
      <-> Auth.getSessionCookies Auth.constructor <> None)
  /\ Eff.clock (Sample.world_with_record 1000) - 0 <= 30 * 60 * 1000
  /\ 30 * 60 * 1000 < 2000000 - 0
  /\ exists this',
      Auth.loadSessionData Auth.constructor (Sample.world_with_record 1000)
      = (Eff.Ret (true, this'), Sample.world_with_record 1000)
      /\ Auth.hasValidSession this' = true
      /\ Auth.getSessionCookies this' = Eff.cookies Sample.record
      /\ fst (Auth.loadSessionData Auth.constructor
                (Eff.at_time (Sample.world_with_record 1000) 2000000))
         = Eff.Ret (false, Auth.set_sessionCookies Auth.constructor None)
      /\ forall w0,
           Auth.hasValidSession (Auth.set_sessionCookies this' None) = false
           /\ fst (Auth.clearSessionData this' w0)
              = Eff.Ret (Auth.set_sessionCookies this' None).
Proof.
  assert (H0 : Auth.reachable Auth.constructor) by constructor.
  assert (Hf : Eff.files (Sample.world_with_record 1000)
                 !! Auth.SESSION_FILE Auth.constructor
               = Some (Eff.Json Sample.record)) by apply lookup_singleton_eq.
  assert (Hc : Js.truthy_opt (Eff.cookies Sample.record) = true) by reflexivity.
  assert (Hl : Eff.loginSuccess Sample.record = true) by reflexivity.
  assert (Ht : Eff.timestamp Sample.record = Some 0) by reflexivity.
  assert (Hin : Eff.clock (Sample.world_with_record 1000) - 0 <= 30 * 60 * 1000)
    by (simpl; lia).
  assert (Hout : 30 * 60 * 1000 < 2000000 - 0) by lia.
  exact (conj H0 (conj
    (proj1 valid_session_iff_cookies_without_ttl Auth.constructor H0)
    (conj Hin (conj Hout
      (proj2 valid_session_iff_cookies_without_ttl Auth.constructor
         (Sample.world_with_record 1000) Sample.record 0 2000000
         Hf Hc Hl Ht Hin Hout))))).
Defined.

(** ** The cookie merge *)

Lemma filter_filter {A} (f g : A -> bool) l :
  List.filter f (List.filter g l) = List.filter (fun x => g x && f x) l.
Proof.
  induction l as [|x l IH]; simpl; [reflexivity|].
  destruct (g x); simpl; [destruct (f x)|]; rewrite ?IH; reflexivity.
Qed.

(** The merge keeps, in order, the cookies that no new cookie replaces, and
    puts after them what the new cookies give on their own. *)
Lemma merge_split allCookies : forall combinedCookies,
  fold_left Login.mergeOne allCookies combinedCookies
  = (List.filter (Login.keptBy allCookies) combinedCookies
     ++ fold_left Login.mergeOne allCookies [])%list.
Proof.
  induction allCookies as [|newCookie rest IH]; intros combined.
  - simpl. rewrite app_nil_r.
    induction combined as [|c l IHl]; simpl; [reflexivity|]. f_equal. exact IHl.
  - cbn [fold_left]. rewrite IH, (IH (Login.mergeOne [] newCookie)).
    unfold Login.mergeOne at 1 3. cbn [List.filter app].
    rewrite List.filter_app, filter_filter, <- app_assoc. reflexivity.
Qed.

(** A cookie with an equals sign starts with its own name and that sign. *)
Lemma sameName_refl c : Js.includes c "=" = true -> Login.sameName c c = true.
Proof.
  unfold Login.sameName, Login.cookieName.
  induction c as [|a c IH]; [discriminate|].
  cbn [Js.before Js.includes Js.startsWith].
  destruct (Ascii.eqb_spec a "=") as [->|Hne].
  - intros _. simpl. destruct c; reflexivity.
  - change (String a (Js.before "=" c) ++ "=")
      with (String a (Js.before "=" c ++ "=")).
    cbv beta iota. rewrite Ascii.eqb_refl.
    destruct (Ascii.eqb_spec "="%char a) as [E|_]; [congruence|].
    cbn [andb orb]. exact IH.
Qed.

Lemma merge_in allCookies : forall combinedCookies c,
  In c (fold_left Login.mergeOne allCookies combinedCookies) ->
  In c combinedCookies \/ In c allCookies.
Proof.
  induction allCookies as [|n rest IH]; intros combined c Hin; [auto|].
  cbn [fold_left] in Hin. apply IH in Hin as [Hin|Hin]; [|right; right; exact Hin].
  unfold Login.mergeOne in Hin. apply in_app_or in Hin as [Hin|[->|[]]].
  - left. apply List.filter_In in Hin. tauto.
  - right. left. reflexivity.
Qed.

Lemma keptBy_false allCookies c :
  In c allCookies -> Login.sameName c c = true ->
  Login.keptBy allCookies c = false.
Proof.
  intros Hin Hs. unfold Login.keptBy.
  destruct (forallb _ allCookies) eqn:E; [|reflexivity].
  rewrite forallb_forall in E. specialize (E c Hin). rewrite Hs in E.
  discriminate.
Qed.

Lemma filter_none {A} (f : A -> bool) l :
  (forall x, In x l -> f x = false) -> List.filter f l = [].
Proof.
  induction l as [|x l IH]; intros H; simpl; [reflexivity|].
  rewrite (H x) by (left; reflexivity). apply IH. intros y Hy. apply H.
  right. exact Hy.
Qed.

Lemma filter_idem {A} (f : A -> bool) l :
  List.filter f (List.filter f l) = List.filter f l.
Proof.
  rewrite filter_filter. apply List.filter_ext. intros x. destruct (f x); reflexivity.
Qed.

(** Merging the same new cookies a second time changes nothing. *)
Lemma merge_twice allCookies combinedCookies :
  (forall c, In c allCookies -> Js.includes c "=" = true) ->
  fold_left Login.mergeOne allCookies
    (fold_left Login.mergeOne allCookies combinedCookies)
  = fold_left Login.mergeOne allCookies combinedCookies.
Proof.
  intros Heq.
  rewrite (merge_split allCookies (fold_left _ _ combinedCookies)).
  rewrite (merge_split allCookies combinedCookies).
  rewrite List.filter_app, filter_idem.
  rewrite (filter_none _ (fold_left Login.mergeOne allCookies [])).
  - rewrite app_nil_r. reflexivity.
  - intros c Hin. apply merge_in in Hin as [[]|Hin].
    apply keptBy_false; [exact Hin|]. apply sameName_refl, Heq, Hin.
Qed.

Lemma allCookies_in h c :
  In c (Login.allCookies h) ->
  Js.truthy c = true /\ Js.includes c "=" = true
  /\ exists cookieString, c = Js.before ";" cookieString.
Proof.
  destruct h as [|values|value]; simpl; [tauto| |tauto].
  intros Hin. apply List.filter_In in Hin as [Hin Hk].
  unfold Login.keepPart in Hk. apply andb_true_iff in Hk as [H1 H2].
  apply in_map_iff in Hin as (s & <- & _). eauto.
Qed.

Lemma mergeCookies_twice existing h :
  Login.mergeCookies (Login.mergeCookies existing h) h
  = Login.mergeCookies existing h.
Proof.
  unfold Login.mergeCookies. apply merge_twice.
  intros c Hin. apply allCookies_in in Hin. tauto.
Qed.

(** *** Splitting and joining on ["; "] *)

Lemma split_cons2 a b r :
  Js.split_semi_sp (String a (String b r))
  = if Ascii.eqb a ";" && Ascii.eqb b " "
    then EmptyString :: Js.split_semi_sp r
    else Js.cons_head a (Js.split_semi_sp (String b r)).
Proof. reflexivity. Qed.

Lemma sepfree_cons2 a b r :
  Js.sepfree (String a (String b r))
  = negb (Ascii.eqb a ";" && Ascii.eqb b " ") && Js.sepfree (String b r).
Proof. reflexivity. Qed.

(** A string without separator is its own single piece. *)
Lemma split_sepfree x : Js.sepfree x = true -> Js.split_semi_sp x = [x].
Proof.
  induction x as [|a x IH]; [reflexivity|].
  destruct x as [|b r]; [reflexivity|].
  rewrite sepfree_cons2, split_cons2. intros H.
  apply andb_true_iff in H as [Hc Hs]. apply negb_true_iff in Hc.
  rewrite Hc, (IH Hs). reflexivity.
Qed.

(** The first separator after a piece without separator ends that piece. *)
Lemma split_app x rest :
  Js.sepfree x = true ->
  Js.split_semi_sp (x ++ "; " ++ rest) = x :: Js.split_semi_sp rest.
Proof.
  induction x as [|a x IH]; [reflexivity|].
  destruct x as [|b r]; intros H.
  - change (String a EmptyString ++ "; " ++ rest)
      with (String a (String ";" (String " " rest))).
    rewrite split_cons2, andb_false_r, split_cons2. reflexivity.
  - rewrite sepfree_cons2 in H.
    apply andb_true_iff in H as [Hc Hs]. apply negb_true_iff in Hc.
    change (String a (String b r) ++ "; " ++ rest)
      with (String a (String b (r ++ "; " ++ rest))).
    rewrite split_cons2, Hc.
    change (String b (r ++ "; " ++ rest)) with (String b r ++ "; " ++ rest).
    rewrite (IH Hs). reflexivity.
Qed.

(** The first piece of a string starts as the string does. *)
Lemma split_head b r h t :
  Js.split_semi_sp (String b r) = h :: t ->
  h = EmptyString \/ exists h', h = String b h'.
Proof.
  destruct r as [|c r]; [intros H; inversion H; eauto|].
  rewrite split_cons2. destruct (_ && _).
  - intros H; inversion H; auto.
  - destruct (Js.split_semi_sp (String c r)); intros H; inversion H; eauto.
Qed.

(** No piece contains the separator. *)
Lemma split_pieces_sepfree (n : nat) : forall s,
  (String.length s <= n)%nat ->
  forall x, In x (Js.split_semi_sp s) -> Js.sepfree x = true.
Proof.
  induction n as [|n IH]; intros s Hlen x Hin.
  - destruct s; [|simpl in Hlen; lia]. destruct Hin as [<-|[]]. reflexivity.
  - destruct s as [|a [|b r]].
    + destruct Hin as [<-|[]]. reflexivity.
    + destruct Hin as [<-|[]]. reflexivity.
    + rewrite split_cons2 in Hin.
      destruct (Ascii.eqb a ";" && Ascii.eqb b " ") eqn:Hc.
      * destruct Hin as [<-|Hin]; [reflexivity|].
        apply (IH r); [simpl in Hlen; lia|exact Hin].
      * assert (Hrec : forall y, In y (Js.split_semi_sp (String b r)) ->
                                 Js.sepfree y = true)
          by (apply IH; simpl in *; lia).
        destruct (Js.split_semi_sp (String b r)) as [|h t] eqn:E.
        { destruct Hin as [<-|[]]. reflexivity. }
        destruct Hin as [<-|Hin]; [|apply Hrec; right; exact Hin].
        pose proof (Hrec h (or_introl eq_refl)) as Hh.
        destruct (split_head _ _ _ _ E) as [->|(h' & ->)]; [reflexivity|].
        rewrite sepfree_cons2, Hc, Hh. reflexivity.
Qed.

Lemma before_sepfree s : Js.sepfree (Js.before ";" s) = true.
Proof.
  induction s as [|a s IH]; [reflexivity|].
  cbn [Js.before]. destruct (Ascii.eqb a ";") eqn:Ha; [reflexivity|].
  destruct (Js.before ";" s) as [|b t]; [reflexivity|].
  rewrite sepfree_cons2, Ha, IH. reflexivity.
Qed.

Lemma split_join l :
  l <> [] -> (forall x, In x l -> Js.sepfree x = true) ->
  Js.split_semi_sp (Js.join_semi_sp l) = l.
Proof.
  induction l as [|x l IH]; [congruence|]. intros _ H.
  destruct l as [|y l].
  - apply split_sepfree, H. left. reflexivity.
  - change (Js.join_semi_sp (x :: y :: l))
      with (x ++ "; " ++ Js.join_semi_sp (y :: l)).
    rewrite split_app by (apply H; left; reflexivity).
    f_equal. apply IH; [discriminate|]. intros z Hz. apply H. right. exact Hz.
Qed.

Lemma filter_all {A} (f : A -> bool) l :
  (forall x, In x l -> f x = true) -> List.filter f l = l.
Proof.
  induction l as [|x l IH]; intros H; simpl; [reflexivity|].
  rewrite (H x) by (left; reflexivity). f_equal. apply IH.
  intros y Hy. apply H. right. exact Hy.
Qed.

(** Joining a cookie list and reading it back gives the list. *)
Lemma existingCookies_join l :
  (forall x, In x l -> Js.sepfree x = true /\ Js.truthy x = true) ->
  Login.existingCookies (Js.join_semi_sp l) = l.
Proof.
  intros H. unfold Login.existingCookies. destruct l as [|x l]; [reflexivity|].
  rewrite split_join; [|discriminate|intros y Hy; apply H; exact Hy].
  apply filter_all. intros y Hy. apply H. exact Hy.
Qed.

Lemma mergeCookies_wellformed cookies h c :
  In c (Login.mergeCookies (Login.existingCookies cookies) h) ->
  Js.sepfree c = true /\ Js.truthy c = true.
Proof.
  unfold Login.mergeCookies. intros Hin. apply merge_in in Hin as [Hin|Hin].
  - unfold Login.existingCookies in Hin. apply List.filter_In in Hin as [Hin Ht].
    split; [|exact Ht].
    apply (split_pieces_sepfree (String.length cookies) cookies); [lia|exact Hin].
  - apply allCookies_in in Hin as (Ht & _ & s0 & ->).
    split; [apply before_sepfree|exact Ht].
Qed.

(** C7.  Merging a list of Set-Cookie headers into a cookie set is
    idempotent: merged a second time into the result of the first merge,
    the same headers give the same cookie set.  This holds for the list of
    cookies, for the cookie string kept by the object (the result taken as
    the existing cookies), and for [extractAndSaveCookies] run twice on the
    same response. *)
Theorem cookie_merge_idempotent :
  (forall (existingCookies : list string) (setCookieHeader : Login.header),
      Login.mergeCookies (Login.mergeCookies existingCookies setCookieHeader)
        setCookieHeader
      = Login.mergeCookies existingCookies setCookieHeader)
  /\ (forall (cookies : string) (setCookieHeader : Login.header),
        Login.mergedSessionCookies
          (Login.mergedSessionCookies cookies setCookieHeader) setCookieHeader
        = Login.mergedSessionCookies cookies setCookieHeader)
  /\ (forall CONFIG this r w,
        exists this1 w1,
          Login.extractAndSaveCookies CONFIG this r w = (Eff.Ret this1, w1)
          /\ Login.extractAndSaveCookies CONFIG this1 r w1 = (Eff.Ret this1, w1)).
Proof.
  split; [exact mergeCookies_twice|]. split.
  - intros cookies h. unfold Login.mergedSessionCookies.
    rewrite existingCookies_join by apply mergeCookies_wellformed.
    rewrite mergeCookies_twice. reflexivity.
  - intros CONFIG this r w. unfold Login.extractAndSaveCookies.
    destruct (Login.saveSessionCookies CONFIG); cbn [negb].
    + eexists _, _. split; [reflexivity|].
      unfold Eff.bind, Eff.now, Eff.writeFile, Eff.ret. cbn.
      rewrite insert_insert_eq. reflexivity.
    + eexists _, _. split; reflexivity.
Qed.

(** * Further properties of the code *)

(** ** The pipeline of [runAutomation] *)



Lemma belowMinimum_lt CONFIG balance :
  Login.belowMinimum CONFIG balance = true
  <-> (balance < Login.minBalance CONFIG)%Q.
Proof.
  unfold Login.belowMinimum. rewrite negb_true_iff. split.
  - intros H. apply Qnot_le_lt. intros L. apply Qle_bool_iff in L. congruence.
  - intros H. destruct (Qle_bool (Login.minBalance CONFIG) balance) eqn:E;
      [|reflexivity].
    apply Qle_bool_iff in E. exfalso. exact (Qlt_not_le _ _ H E).
Qed.

(** X2.  When the balance of the solving account is below the configured
    minimum, [solveCaptcha] throws, right after the balance request, the
    error "Insufficient balance in Anti-Captcha account. Minimum required:
    $" followed by the minimum: the image is not sent for solving and the
    form is not posted, so a run stops with an error after four calls at
    most.  With a balance that is not below the minimum the image is sent
    for solving. *)
Theorem low_balance_stops_before_solving :
  forall (CONFIG : Login.Config) (remote : Login.Remote) (fuel : nat)
         (this : Login.LPUAutomatedLogin) (w : Eff.World) (balance : Q),
    Login.balanceAnswer remote = Login.Answered balance ->
    ((balance < Login.minBalance CONFIG)%Q ->
     (forall base64Image,
         Login.solveCaptcha CONFIG remote base64Image w
         = (Eff.Throw
              ("Insufficient balance in Anti-Captcha account. Minimum required: $"
               ++ Login.minBalanceText CONFIG),
            {| Eff.files := Eff.files w; Eff.clock := Eff.clock w;
               Eff.trace := (Eff.trace w ++ [Eff.SolverGetBalance])%list |}))
     /\ exists (k : nat) (e : string),
         (1 <= k <= 4)%nat
         /\ Protocol.made k w (snd (Login.runAutomation CONFIG remote fuel this w))
         /\ fst (Login.runAutomation CONFIG remote fuel this w) = Eff.Throw e)
    /\ ((Login.minBalance CONFIG <= balance)%Q ->
        forall base64Image,
          Eff.trace (snd (Login.solveCaptcha CONFIG remote base64Image w))
          = (Eff.trace w ++ [Eff.SolverGetBalance; Eff.SolverSolveImage])%list).
Proof.
  intros CONFIG remote fuel this w balance Hb. split.
  - intros Hlow. apply belowMinimum_lt in Hlow. split.
    + intros img. unfold Login.solveCaptcha, Eff.bind, Eff.emit.
      rewrite Hb, Hlow. reflexivity.
    + unfold Protocol.made, Login.runAutomation, Login.scrapeLoginPageData,
        Login.getCaptchaParameters, Login.getCaptchaImage, Login.solveCaptcha,
        Eff.bind, Eff.emit, Eff.now, Eff.ret, Eff.throw, Eff.writeBytes.
      rewrite Hb, Hlow.
      destruct (Login.loginPage remote) as [[hdr fields]|]; cbn;
        [|exists 1%nat; eexists; repeat split; lia].
      destruct (Login.paramsAnswer remote) as [[sp0 hs0]|]; cbn;
        [|exists 2%nat; eexists; rewrite <- ?app_assoc; repeat split; lia].
      destruct (Login.imageAnswer remote) as [img|]; cbn;
        [|exists 3%nat; eexists; rewrite <- ?app_assoc; repeat split; lia].
      destruct (Login.saveCaptchaImage CONFIG); cbn;
        exists 4%nat; eexists; rewrite <- ?app_assoc; repeat split; lia.
  - intros Hok img.
    assert (E : Login.belowMinimum CONFIG balance = false).
    { destruct (Login.belowMinimum CONFIG balance) eqn:E; [|reflexivity].
      apply belowMinimum_lt in E. exfalso. exact (Qlt_not_le _ _ E Hok). }
    unfold Login.solveCaptcha, Eff.bind, Eff.emit. rewrite Hb, E. cbn.
    destruct (Login.solveAnswer remote); cbn; rewrite <- app_assoc;
      reflexivity.
Qed.

Lemma low_balance_stops_before_solving_witness :
  Login.balanceAnswer Scenario.low_balance = Login.Answered (1 # 2000)%Q
  /\ ((1 # 2000) < Login.minBalance Sample.config)%Q
  /\ Login.solveCaptcha Sample.config Scenario.low_balance "iVBORw0KGgo="
       (Sample.world 0)
     = (Eff.Throw
          "Insufficient balance in Anti-Captcha account. Minimum required: $0.001",
        {| Eff.files := ∅; Eff.clock := 0;
           Eff.trace := [Eff.SolverGetBalance] |})
  /\ exists (k : nat) (e : string),
      (1 <= k <= 4)%nat
      /\ Protocol.made k (Sample.world 0)
           (snd (Login.runAutomation Sample.config Scenario.low_balance 0
                   Sample.this0 (Sample.world 0)))
      /\ fst (Login.runAutomation Sample.config Scenario.low_balance 0
                Sample.this0 (Sample.world 0))
         = Eff.Throw e.
Proof.
  assert (H : Login.balanceAnswer Scenario.low_balance
              = Login.Answered (1 # 2000)%Q) by reflexivity.
  assert (L : ((1 # 2000) < Login.minBalance Sample.config)%Q)
    by reflexivity.
  pose proof (proj1 (low_balance_stops_before_solving Sample.config
                       Scenario.low_balance 0 Sample.this0 (Sample.world 0)
                       _ H) L) as (G1 & G2).
  exact (conj H (conj L (conj (G1 "iVBORw0KGgo=") G2))).
Defined.

(** ** The case conversion, continued *)

Lemma case_laws c :
  Js.toLowerCase (Js.toUpperCase c) = Js.toLowerCase c
  /\ Js.toUpperCase (Js.toLowerCase c) = Js.toUpperCase c
  /\ Js.toLowerCase (Js.toLowerCase c) = Js.toLowerCase c
  /\ Js.toUpperCase (Js.toUpperCase c) = Js.toUpperCase c.
Proof.
  destruct c as [[] [] [] [] [] [] [] []]; vm_compute; repeat split.
Qed.

Lemma map_nth_seq (T : list ascii) d :
  map (fun j => nth j T d) (seq 0 (List.length T)) = T.
Proof.
  induction T as [|x T IH] using rev_ind; [reflexivity|].
  rewrite length_app, Nat.add_comm. cbn [List.length Nat.add].
  rewrite seq_S, map_app. cbn [map Nat.add]. f_equal.
  - rewrite <- IH at 2. apply map_ext_in. intros j Hj.
    apply in_seq in Hj. apply app_nth1. lia.
  - rewrite app_nth2, Nat.sub_diag by lia. reflexivity.
Qed.

(** The character of index [j] is the one of the text, upper-cased or
    lower-cased. *)
Lemma converted_cases B T j :
  Login.converted B T j = Js.toUpperCase (nth j T Ascii.zero)
  \/ Login.converted B T j = Js.toLowerCase (nth j T Ascii.zero).
Proof. unfold Login.converted. destruct (Login.isOne _); auto. Qed.

(** The choice between the two depends on the lengths and the index only. *)
Lemma converted_same_choice B T T' j :
  List.length T' = List.length T ->
  Js.toLowerCase (nth j T' Ascii.zero) = Js.toLowerCase (nth j T Ascii.zero) ->
  Login.converted B T' j = Login.converted B T j.
Proof.
  intros Hlen Hlow. unfold Login.converted. rewrite Hlen.
  destruct (Login.isOne _); [|exact Hlow].
  rewrite <- (proj1 (proj2 (case_laws (nth j T' Ascii.zero)))), Hlow.
  apply case_laws.
Qed.

Lemma applyCase_of_chars text n :
  Login.applyCase text n = string_of_list_ascii (Js.chars (Login.applyCase text n)).
Proof. symmetry. apply string_of_list_ascii_of_string. Qed.

Lemma applyCase_lower text n :
  map Js.toLowerCase (Js.chars (Login.applyCase text n))
  = map Js.toLowerCase (Js.chars text).
Proof.
  rewrite applyCase_chars, <- chars_length.
  transitivity (map Js.toLowerCase
                  (map (fun j => nth j (Js.chars text) Ascii.zero)
                     (seq 0 (List.length (Js.chars text)))));
    [|rewrite map_nth_seq; reflexivity].
  rewrite !map_map. apply map_ext. intros j.
  destruct (converted_cases (Js.chars (Login.binaryPattern n)) (Js.chars text) j)
    as [-> | ->]; apply case_laws.
Qed.

Lemma applyCase_same_letters text text' n :
  map Js.toLowerCase (Js.chars text') = map Js.toLowerCase (Js.chars text) ->
  Login.applyCase text' n = Login.applyCase text n.
Proof.
  intros H.
  assert (Hlen : List.length (Js.chars text') = List.length (Js.chars text)).
  { rewrite <- (length_map Js.toLowerCase (Js.chars text')), H, length_map.
    reflexivity. }
  rewrite (applyCase_of_chars text'), (applyCase_of_chars text). f_equal.
  rewrite !applyCase_chars, <- !chars_length, Hlen.
  apply map_ext. intros j. apply converted_same_choice; [exact Hlen|].
  rewrite <- (map_nth Js.toLowerCase (Js.chars text')),
          <- (map_nth Js.toLowerCase (Js.chars text)), H.
  reflexivity.
Qed.

(** X3.  On an ASCII text the conversion changes nothing but the case: the
    result has the letters of the text in the same order.  The case of the
    text given by the solving service does not count (two ASCII texts that
    differ in case only are converted to the same string), and converting a
    converted text again with the same integer leaves it as it is. *)
Theorem case_conversion_changes_case_only :
  forall (text : string) (currentPos : Js.number),
    Js.isAscii text = true ->
    Js.isAscii (Login.applyCase text currentPos) = true
    /\ map Js.toLowerCase (Js.chars (Login.applyCase text currentPos))
       = map Js.toLowerCase (Js.chars text)
    /\ Login.applyCase (Login.applyCase text currentPos) currentPos
       = Login.applyCase text currentPos
    /\ forall text' : string,
        Js.isAscii text' = true ->
        map Js.toLowerCase (Js.chars text') = map Js.toLowerCase (Js.chars text) ->
        Login.applyCase text' currentPos = Login.applyCase text currentPos.
Proof.
  intros text n Hascii. split; [|split; [apply applyCase_lower|split]].
  - unfold Js.isAscii in *. rewrite forallb_forall in *.
    intros c Hc. rewrite applyCase_chars in Hc.
    apply in_map_iff in Hc as (j & <- & Hj). apply in_seq in Hj.
    assert (Hin : In (nth j (Js.chars text) Ascii.zero) (Js.chars text))
      by (apply nth_In; rewrite chars_length; lia).
    specialize (Hascii _ Hin).
    destruct (converted_cases (Js.chars (Login.binaryPattern n))
                (Js.chars text) j) as [-> | ->];
      revert Hascii; generalize (nth j (Js.chars text) Ascii.zero);
      intros [[] [] [] [] [] [] [] []]; vm_compute; congruence.
  - apply applyCase_same_letters, applyCase_lower.
  - intros text' _. apply applyCase_same_letters.
Qed.

Lemma case_conversion_changes_case_only_witness :
  Js.isAscii "k7f2" = true
  /\ Js.isAscii "K7F2" = true
  /\ map Js.toLowerCase (Js.chars "K7F2") = map Js.toLowerCase (Js.chars "k7f2")
  /\ Login.applyCase "K7F2" (Js.Finite 4) = Login.applyCase "k7f2" (Js.Finite 4).
Proof.
  assert (A : Js.isAscii "k7f2" = true) by reflexivity.
  assert (A' : Js.isAscii "K7F2" = true) by reflexivity.
  assert (H : map Js.toLowerCase (Js.chars "K7F2")
              = map Js.toLowerCase (Js.chars "k7f2")) by reflexivity.
  exact (conj A (conj A' (conj H
    (proj2 (proj2 (proj2
       (case_conversion_changes_case_only "k7f2" (Js.Finite 4) A)))
       "K7F2" A' H)))).
Defined.

Lemma numberToUint32_range x : 0 <= Js.numberToUint32 x < 2 ^ 32.
Proof.
  destruct x as [|s|n]; cbn [Js.numberToUint32]; [lia|lia|].
  apply Z.mod_pos_bound. lia.
Qed.

(** The character at reverse position [i] follows bit [i - 1] of the mask. *)
Lemma applyCase_nth text n (i : nat) c :
  (1 <= i <= String.length text)%nat ->
  nth_error (Js.chars text) (String.length text - i) = Some c ->
  nth_error (Js.chars (Login.applyCase text n)) (String.length text - i)
  = Some (if Z.testbit (Js.numberToUint32 (Login.caseModifier n))
                       (Z.of_nat (i - 1))
          then Js.toUpperCase c else Js.toLowerCase c).
Proof.
  intros Hi Hc.
  rewrite applyCase_chars, nth_error_map, nth_error_seq.
  destruct (Nat.ltb_spec (String.length text - i) (String.length text)); [|lia].
  simpl. f_equal.
  rewrite (converted_spec _ _ _ _ Hc), pick_isOne, chars_length.
  replace (String.length text - S (String.length text - i))%nat
    with (i - 1)%nat by lia.
  unfold Login.binaryPattern.
  fold (Spec.bitSequence (Js.numberToUint32 (Login.caseModifier n))).
  rewrite bit_from_end; [reflexivity|].
  apply numberToUint32_range.
Qed.

(** X4.  The mask has 32 binary digits at most, and 16 at most when the
    puzzle integer is not negative: a character of an ASCII text more than
    32 places from the end of the text, or more than 16 places for a
    non-negative integer, is always lower-cased. *)
Theorem far_characters_are_lower_cased :
  forall (text : string) (currentPos : Js.number) (i : nat) (c : ascii),
    Js.isAscii text = true ->
    (1 <= i <= String.length text)%nat ->
    nth_error (Js.chars text) (String.length text - i) = Some c ->
    (32 < i)%nat
    \/ ((exists n, currentPos = Js.Finite n /\ 0 <= n) /\ (16 < i)%nat) ->
    nth_error (Js.chars (Login.applyCase text currentPos))
              (String.length text - i)
    = Some (Js.toLowerCase c).
Proof.
  intros text n i c _ Hi Hc Hfar.
  rewrite (applyCase_nth text n i c Hi Hc).
  replace (Z.testbit _ _) with false; [reflexivity|]. symmetry.
  destruct Hfar as [H32|[(m & -> & Hn) H16]].
  - pose proof (numberToUint32_range (Login.caseModifier n)) as R.
    rewrite <- (Z.mod_small _ (2 ^ 32) R).
    apply Z.mod_pow2_bits_high. lia.
  - rewrite caseModifier_finite. cbn [Js.numberToUint32].
    destruct (mask_nonneg m Hn) as [-> Hm].
    rewrite <- (Z.mod_small (Spec.mask m) (2 ^ 16)) by lia.
    apply Z.mod_pow2_bits_high. lia.
Qed.

Lemma far_characters_are_lower_cased_witness :
  Js.isAscii "ABCDEFGHIJKLMNOPQ" = true
  /\ (1 <= 17 <= String.length "ABCDEFGHIJKLMNOPQ")%nat
  /\ nth_error (Js.chars "ABCDEFGHIJKLMNOPQ")
       (String.length "ABCDEFGHIJKLMNOPQ" - 17) = Some "A"%char
  /\ ((32 < 17)%nat
      \/ ((exists n, Js.Finite 65532 = Js.Finite n /\ 0 <= n) /\ (16 < 17)%nat))
  /\ nth_error (Js.chars (Login.applyCase "ABCDEFGHIJKLMNOPQ" (Js.Finite 65532)))
       (String.length "ABCDEFGHIJKLMNOPQ" - 17)
     = Some (Js.toLowerCase "A").
Proof.
  assert (H0 : Js.isAscii "ABCDEFGHIJKLMNOPQ" = true) by reflexivity.
  assert (H1 : (1 <= 17 <= String.length "ABCDEFGHIJKLMNOPQ")%nat)
    by (simpl; lia).
  assert (H2 : nth_error (Js.chars "ABCDEFGHIJKLMNOPQ")
                 (String.length "ABCDEFGHIJKLMNOPQ" - 17) = Some "A"%char)
    by reflexivity.
  assert (H3 : (32 < 17)%nat
               \/ ((exists n, Js.Finite 65532 = Js.Finite n /\ 0 <= n)
                   /\ (16 < 17)%nat)).
  { right. split; [exists 65532; split; [reflexivity|lia]|lia]. }
  exact (conj H0 (conj H1 (conj H2 (conj H3
    (far_characters_are_lower_cased "ABCDEFGHIJKLMNOPQ" (Js.Finite 65532) 17 "A"
       H0 H1 H2 H3))))).
Defined.

(** ** The cookie merge, continued *)

Lemma startsWith_empty s : Js.startsWith s EmptyString = true.
Proof. destruct s; reflexivity. Qed.

Lemma before_idem a s : Js.before a (Js.before a s) = Js.before a s.
Proof.
  induction s as [|b s IH]; [reflexivity|]. cbn [Js.before].
  destruct (Ascii.eqb b a) eqn:E; [reflexivity|].
  cbn [Js.before]. rewrite E, IH. reflexivity.
Qed.

(** A cookie starts with a name and an equals sign exactly when that name
    is the text before its first equals sign. *)
Lemma startsWith_name c : forall N,
  Js.before "=" N = N ->
  Js.includes c "=" = true ->
  (Js.startsWith c (N ++ "=") = true <-> Js.before "=" c = N).
Proof.
  induction c as [|a c IH]; intros N HN Hc; [discriminate|].
  cbn [Js.includes Js.startsWith] in Hc. rewrite startsWith_empty in Hc.
  destruct N as [|b N].
  - change (EmptyString ++ "=") with "=".
    cbn [Js.startsWith Js.before].
    rewrite startsWith_empty, andb_true_r, Ascii.eqb_sym.
    destruct (Ascii.eqb a "="); split; congruence.
  - cbn [Js.before] in HN. destruct (Ascii.eqb b "=") eqn:Eb; [discriminate|].
    injection HN as HN.
    change (String b N ++ "=") with (String b (N ++ "=")).
    cbn [Js.startsWith Js.before].
    destruct (Ascii.eqb_spec a "=") as [->|Ha].
    + rewrite Eb. cbn [andb]. split; discriminate.
    + destruct (Ascii.eqb_spec "="%char a) as [E|_]; [congruence|].
      cbn [andb orb] in Hc. specialize (IH N HN Hc).
      destruct (Ascii.eqb_spec b a) as [->|Hba]; cbn [andb].
      * rewrite IH. split; [intros ->; reflexivity|intros H; injection H; auto].
      * split; [discriminate|intros H; injection H; congruence].
Qed.

Lemma sameName_iff n c :
  Js.includes c "=" = true ->
  (Login.sameName n c = true <-> Login.cookieName c = Login.cookieName n).
Proof.
  intros Hc. unfold Login.sameName, Login.cookieName.
  apply startsWith_name; [apply before_idem|exact Hc].
Qed.

Lemma NoDup_snoc {A} (l : list A) x :
  List.NoDup l -> ~ In x l -> List.NoDup (l ++ [x]).
Proof.
  induction l as [|y l IH]; intros Hl Hx; simpl.
  - constructor; [intros []|constructor].
  - inversion Hl; subst. constructor.
    + rewrite in_app_iff. intros [H|[H|[]]]; [tauto|].
      apply Hx. left. congruence.
    + apply IH; [assumption|]. intros H. apply Hx. right. exact H.
Qed.

Lemma NoDup_map_filter {A B} (f : A -> B) (p : A -> bool) l :
  List.NoDup (map f l) -> List.NoDup (map f (List.filter p l)).
Proof.
  induction l as [|x l IH]; intros H; simpl; [constructor|].
  inversion H; subst. destruct (p x); simpl; [|auto].
  constructor; [|auto]. intros Hin. apply H2.
  apply in_map_iff in Hin as (y & Hy & Hin). apply in_map_iff.
  exists y. split; [exact Hy|]. apply List.filter_In in Hin. tauto.
Qed.

(** Names stay distinct through one turn of the merge. *)
Lemma mergeOne_distinct X n :
  Js.includes n "=" = true ->
  (forall c, In c X -> Js.includes c "=" = true) ->
  List.NoDup (map Login.cookieName X) ->
  (forall c, In c (Login.mergeOne X n) -> Js.includes c "=" = true)
  /\ List.NoDup (map Login.cookieName (Login.mergeOne X n)).
Proof.
  intros Hn HX Hnd. unfold Login.mergeOne. split.
  - intros c Hin. apply in_app_or in Hin as [Hin|[<-|[]]]; [|exact Hn].
    apply List.filter_In in Hin. apply HX. tauto.
  - rewrite map_app. apply NoDup_snoc; [apply NoDup_map_filter; exact Hnd|].
    intros Hin. apply in_map_iff in Hin as (c & Hname & Hin).
    apply List.filter_In in Hin as [Hin Hf].
    apply (sameName_iff n c (HX c Hin)) in Hname. rewrite Hname in Hf.
    discriminate.
Qed.

Lemma merge_distinct all : forall X,
  (forall c, In c all -> Js.includes c "=" = true) ->
  (forall c, In c X -> Js.includes c "=" = true) ->
  List.NoDup (map Login.cookieName X) ->
  List.NoDup (map Login.cookieName (fold_left Login.mergeOne all X)).
Proof.
  induction all as [|n all IH]; intros X Hall HX Hnd; [exact Hnd|].
  cbn [fold_left].
  destruct (mergeOne_distinct X n (Hall n (or_introl eq_refl)) HX Hnd)
    as [H1 H2].
  apply IH; [|exact H1|exact H2]. intros c Hc. apply Hall. right. exact Hc.
Qed.

(** A cookie of the list stays through the merge of cookies of other
    names. *)
Lemma merge_keeps later : forall X n,
  In n X ->
  (forall c, In c later -> Login.sameName c n = false) ->
  In n (fold_left Login.mergeOne later X).
Proof.
  induction later as [|c later IH]; intros X n Hin Hother; [exact Hin|].
  cbn [fold_left]. apply IH.
  - unfold Login.mergeOne. apply in_or_app. left. apply List.filter_In.
    split; [exact Hin|]. rewrite (Hother c (or_introl eq_refl)). reflexivity.
  - intros c' Hc'. apply Hother. right. exact Hc'.
Qed.

(** X5.  Last value per cookie name wins.  A cookie of the Set-Cookie
    headers that no later header replaces (none has its name) is in the
    merged set; and when the existing cookies are name=value pairs with
    distinct names, the merged set has distinct names too, so that it holds
    one cookie per name, the last one received. *)
Theorem cookie_merge_last_value_wins :
  forall (existingCookies : list string) (setCookieHeader : Login.header),
    (forall (earlier later : list string) (newCookie : string),
        Login.allCookies setCookieHeader = (earlier ++ newCookie :: later)%list ->
        (forall c, In c later -> Login.cookieName c <> Login.cookieName newCookie) ->
        In newCookie (Login.mergeCookies existingCookies setCookieHeader))
    /\ ((forall c, In c existingCookies -> Js.includes c "=" = true) ->
        List.NoDup (map Login.cookieName existingCookies) ->
        List.NoDup (map Login.cookieName
                 (Login.mergeCookies existingCookies setCookieHeader))).
Proof.
  intros existing h. split.
  - intros earlier later n Hall Hlater. unfold Login.mergeCookies.
    assert (Hn : Js.includes n "=" = true).
    { apply (allCookies_in h n). rewrite Hall. apply in_or_app. right. left.
      reflexivity. }
    rewrite Hall, fold_left_app. cbn [fold_left]. apply merge_keeps.
    + unfold Login.mergeOne. apply in_or_app. right. left. reflexivity.
    + intros c Hc. destruct (Login.sameName c n) eqn:E; [|reflexivity].
      apply (sameName_iff c n Hn) in E. exfalso.
      apply (Hlater c Hc). congruence.
  - intros Heq Hnd. unfold Login.mergeCookies.
    apply merge_distinct; [|exact Heq|exact Hnd].
    intros c Hc. apply (allCookies_in h c Hc).
Qed.

Lemma cookie_merge_last_value_wins_witness :
  Login.allCookies (Login.HArray ["sid=1; path=/"; "lang=en"; "sid=2; HttpOnly"])
  = (["sid=1"; "lang=en"] ++ "sid=2" :: [])%list
  /\ (forall c, In c [] -> Login.cookieName c <> Login.cookieName "sid=2")
  /\ (forall c, In c ["_ga=7"; "sid=0"] -> Js.includes c "=" = true)
  /\ List.NoDup (map Login.cookieName ["_ga=7"; "sid=0"])
  /\ In "sid=2"
       (Login.mergeCookies ["_ga=7"; "sid=0"]
          (Login.HArray ["sid=1; path=/"; "lang=en"; "sid=2; HttpOnly"]))
  /\ List.NoDup (map Login.cookieName
              (Login.mergeCookies ["_ga=7"; "sid=0"]
                 (Login.HArray ["sid=1; path=/"; "lang=en"; "sid=2; HttpOnly"]))).
Proof.
  assert (H1 : Login.allCookies
                 (Login.HArray ["sid=1; path=/"; "lang=en"; "sid=2; HttpOnly"])
               = (["sid=1"; "lang=en"] ++ "sid=2" :: [])%list) by reflexivity.
  assert (H2 : forall c, In c [] -> Login.cookieName c <> Login.cookieName "sid=2")
    by (intros c []).
  assert (H3 : forall c, In c ["_ga=7"; "sid=0"] -> Js.includes c "=" = true)
    by (intros c [<-|[<-|[]]]; reflexivity).
  assert (H4 : List.NoDup (map Login.cookieName ["_ga=7"; "sid=0"])).
  { simpl. constructor; [intros [H|[]]; discriminate|].
    constructor; [intros []|constructor]. }
  exact (conj H1 (conj H2 (conj H3 (conj H4 (conj
    (proj1 (cookie_merge_last_value_wins ["_ga=7"; "sid=0"] _) _ _ _ H1 H2)
    (proj2 (cookie_merge_last_value_wins ["_ga=7"; "sid=0"] _) H3 H4)))))).
Defined.

Lemma includes_before_false a s :
  Js.includes (Js.before a s) (String a EmptyString) = false.
Proof.
  induction s as [|b s IH]; [reflexivity|]. cbn [Js.before].
  destruct (Ascii.eqb b a) eqn:E; [reflexivity|].
  cbn [Js.includes Js.startsWith]. rewrite Ascii.eqb_sym, E. exact IH.
Qed.

(** X6.  The merge leaves the other cookies alone: the existing cookies
    that no new cookie replaces come first, in their order, followed by
    what the new cookies give on their own; nothing else is added.  A
    header that is absent or is a single string changes nothing.  A cookie
    taken from a header is the non-empty text before the first semicolon
    and is taken only if it has an equals sign: attributes are dropped and
    values without a name are ignored. *)
Theorem cookie_merge_keeps_other_cookies :
  forall (existingCookies : list string) (setCookieHeader : Login.header),
    Login.mergeCookies existingCookies setCookieHeader
    = (List.filter (Login.keptBy (Login.allCookies setCookieHeader)) existingCookies
       ++ Login.mergeCookies [] setCookieHeader)%list
    /\ (forall c, In c (Login.mergeCookies existingCookies setCookieHeader) ->
                  In c existingCookies \/ In c (Login.allCookies setCookieHeader))
    /\ (forall c, In c (Login.allCookies setCookieHeader) ->
                  c <> EmptyString /\ Js.includes c "=" = true
                  /\ Js.includes c ";" = false)
    /\ (forall value,
          Login.mergeCookies existingCookies Login.HUndefined = existingCookies
          /\ Login.mergeCookies existingCookies (Login.HString value)
             = existingCookies).
Proof.
  intros existing h. split; [|split; [|split]].
  - unfold Login.mergeCookies. apply merge_split.
  - intros c Hin. unfold Login.mergeCookies in Hin. apply merge_in. exact Hin.
  - intros c Hin. apply allCookies_in in Hin as (Ht & He & s0 & ->).
    split; [|split; [exact He|apply includes_before_false]].
    apply truthy_nonempty. exact Ht.
  - intros value. split; reflexivity.
Qed.

(** ** The cookies of a run *)

(** With cookie saving switched off, a run that starts without session
    cookies returns none. *)
Lemma runAutomation_not_saving CONFIG remote fuel this w result this' w' :
  Login.saveSessionCookies CONFIG = false ->
  Login.this_sessionCookies this = EmptyString ->
  Login.runAutomation CONFIG remote fuel this w = (Eff.Ret (result, this'), w') ->
  Login.success result && Js.truthy_opt (Login.result_cookies result) = false.
Proof.
  intros Hoff Hempty.
  unfold Login.runAutomation, Login.scrapeLoginPageData,
    Login.getCaptchaParameters, Login.getCaptchaImage, Login.solveCaptcha,
    Login.convertCaptchaTextM, Login.submitLoginForm,
    Login.extractAndSaveCookies, Eff.bind, Eff.emit, Eff.now, Eff.ret,
    Eff.throw, Eff.hang, Eff.writeBytes.
  rewrite Hoff.
  destruct (Login.loginPage remote) as [[hdr fields]|]; cbn; [|discriminate].
  destruct (Login.paramsAnswer remote) as [[sp0 hs0]|]; cbn; [|discriminate].
  destruct (Login.imageAnswer remote) as [img|]; cbn; [|discriminate].
  destruct (Login.saveCaptchaImage CONFIG); cbn;
    (destruct (Login.balanceAnswer remote) as [balance|]; cbn;
     try discriminate);
    (destruct (Login.belowMinimum CONFIG balance); cbn; try discriminate);
    (destruct (Login.solveAnswer remote) as [text|]; cbn; try discriminate);
    (destruct (Login.convertCaptchaText fuel text sp0 hs0 (Login.BDC_VCID fields));
     cbn; try discriminate);
    (destruct (Login.submitAnswer remote) as [r|]; cbn; try discriminate);
    destruct (Login.checkResponse r); cbn; try discriminate;
    intros H; inversion H; subst; cbn; rewrite ?Hempty; reflexivity.
Qed.

(** X7.  With [SAVE_SESSION_COOKIES] set to false, [extractAndSaveCookies]
    does nothing, the result of a run carries no cookies, and an
    authentication attempt never yields a session: whatever the portal
    answers, [authenticateWithUMS] returns null (or does not return). *)
Theorem not_saving_cookies_never_authenticates :
  forall (CONFIG : Login.Config) (remote : Login.Remote) (fuel : nat)
         (this : Auth.AuthManager) (forceRefresh : bool) (w : Eff.World),
    Login.saveSessionCookies CONFIG = false ->
    (forall automation r w0,
        Login.extractAndSaveCookies CONFIG automation r w0
        = (Eff.Ret automation, w0))
    /\ (forceRefresh = true \/ Auth.hasValidSession this = false ->
        fst (Auth.authenticateWithUMS CONFIG remote fuel this forceRefresh w)
        = Eff.Hang
        \/ exists w',
            Auth.authenticateWithUMS CONFIG remote fuel this forceRefresh w
            = (Eff.Ret (None, Auth.set_sessionCookies this None), w')).
Proof.
  intros CONFIG remote fuel this forceRefresh w Hoff. split.
  - intros automation r w0. unfold Login.extractAndSaveCookies.
    rewrite Hoff. reflexivity.
  - intros Hattempt.
    destruct (Auth.newAutomationRun CONFIG remote fuel w)
      as [[[result automation]|e|] w1] eqn:E.
    + right.
      destruct (authenticate_failure CONFIG remote fuel this forceRefresh w w1
                  Hattempt) as (w' & Hw' & _); [|eauto].
      right. exists result, automation. split; [exact E|].
      unfold Auth.newAutomationRun, Eff.bind, Login.constructor in E.
      destruct (Login.validateConfig CONFIG); [|discriminate].
      cbn [Eff.ret] in E.
      eapply runAutomation_not_saving; [exact Hoff| |exact E]. reflexivity.
    + right.
      destruct (authenticate_failure CONFIG remote fuel this forceRefresh w w1
                  Hattempt) as (w' & Hw' & _); [left; eauto|eauto].
    + left. unfold Auth.authenticateWithUMS, Eff.try_catch.
      assert (C : negb forceRefresh && Js.truthy_opt (Auth.sessionCookies this)
                  = false).
      { destruct Hattempt as [->|H]; [reflexivity|].
        unfold Auth.hasValidSession in H. rewrite H. apply andb_false_r. }
      rewrite C. unfold Eff.bind at 1. rewrite E. reflexivity.
Qed.

Lemma not_saving_cookies_never_authenticates_witness :
  Login.saveSessionCookies Scenario.config_not_saving = false
  /\ (false = true \/ Auth.hasValidSession Auth.constructor = false)
  /\ (fst (Auth.authenticateWithUMS Scenario.config_not_saving
             (Sample.portal "c7614830966e1b0142069a48b4472918979fd105") 4
             Auth.constructor false (Sample.world 0))
      = Eff.Hang
      \/ exists w',
          Auth.authenticateWithUMS Scenario.config_not_saving
            (Sample.portal "c7614830966e1b0142069a48b4472918979fd105") 4
            Auth.constructor false (Sample.world 0)
          = (Eff.Ret (None, Auth.set_sessionCookies Auth.constructor None), w')).
Proof.
  assert (H1 : Login.saveSessionCookies Scenario.config_not_saving = false)
    by reflexivity.
  assert (H2 : false = true \/ Auth.hasValidSession Auth.constructor = false)
    by (right; reflexivity).
  exact (conj H1 (conj H2
    (proj2 (not_saving_cookies_never_authenticates Scenario.config_not_saving
              (Sample.portal "c7614830966e1b0142069a48b4472918979fd105") 4
              Auth.constructor false (Sample.world 0) H1) H2))).
Defined.

(** What the regular expression captures is not empty and has no
    semicolon. *)
Lemma gaMatch_some s : forall v,
  Login.gaMatch s = Some v ->
  v <> EmptyString /\ Js.includes v ";" = false.
Proof.
  induction s as [|a s IH]; intros v.
  - cbn. discriminate.
  - cbn [Login.gaMatch].
    destruct (Js.startsWith (String a s) "_ga_B0Z6G6GCD8=" && Js.truthy _) eqn:E.
    + intros H. injection H as <-.
      apply andb_true_iff in E as [_ E].
      split; [apply truthy_nonempty; exact E|apply includes_before_false].
    + apply IH.
Qed.

Lemma includes_char_app a s t :
  Js.includes s (String a EmptyString) = false ->
  Js.includes t (String a EmptyString) = false ->
  Js.includes (s ++ t) (String a EmptyString) = false.
Proof.
  induction s as [|b s IH]; intros Hs Ht; [exact Ht|].
  change (String b s ++ t) with (String b (s ++ t)).
  cbn [Js.includes Js.startsWith] in *.
  rewrite startsWith_empty in *.
  destruct (Ascii.eqb a b); [discriminate|]. cbn [andb orb] in *. auto.
Qed.

(** A string without semicolon has no separator. *)
Lemma no_semicolon_sepfree s :
  Js.includes s ";" = false -> Js.sepfree s = true.
Proof.
  induction s as [|a s IH]; [reflexivity|].
  cbn [Js.includes Js.startsWith]. rewrite startsWith_empty, andb_true_r.
  destruct (Ascii.eqb_spec ";"%char a) as [|Ha]; [discriminate|].
  cbn [orb]. intros H. destruct s as [|b r]; [reflexivity|].
  rewrite sepfree_cons2, (IH H).
  destruct (Ascii.eqb_spec a ";") as [E|_]; [congruence|]. reflexivity.
Qed.

Lemma startsWith_append p rest : Js.startsWith (p ++ rest) p = true.
Proof.
  induction p as [|a p IH]; [apply startsWith_empty|].
  change (String a p ++ rest) with (String a (p ++ rest)).
  cbn [Js.startsWith]. rewrite Ascii.eqb_refl. exact IH.
Qed.

Lemma append_cons a (p x : string) : String a p ++ x = String a (p ++ x).
Proof. reflexivity. Qed.

Lemma substring_all s : String.substring 0 (String.length s) s = s.
Proof.
  induction s as [|b s IH]; [reflexivity|].
  cbn [String.length String.substring]. f_equal. exact IH.
Qed.

Lemma startsWith_split p : forall s,
  Js.startsWith s p = true ->
  s = p ++ String.substring (String.length p) (String.length s - String.length p) s.
Proof.
  induction p as [|a p IH]; intros s H.
  - cbn [String.length]. rewrite Nat.sub_0_r, substring_all. reflexivity.
  - destruct s as [|b s]; [discriminate|]. cbn [Js.startsWith] in H.
    apply andb_true_iff in H as [E H]. apply Ascii.eqb_eq in E. subst b.
    rewrite append_cons. cbn [String.length String.substring Nat.sub]. f_equal.
    apply IH. exact H.
Qed.

Lemma append_cancel p : forall x y : string, p ++ x = p ++ y -> x = y.
Proof.
  induction p as [|a p IH]; intros x y H; [exact H|].
  rewrite !append_cons in H. injection H as H. apply IH. exact H.
Qed.

(** The text before the first semicolon is empty exactly when there is no
    text or the text starts with a semicolon. *)
Lemma before_empty rest :
  Js.before ";" rest = EmptyString
  <-> rest = EmptyString \/ exists t, rest = String ";" t.
Proof.
  destruct rest as [|a rest]; cbn [Js.before]; [tauto|].
  destruct (Ascii.eqb_spec a ";") as [->|Ha].
  - split; [eauto|reflexivity].
  - split; [discriminate|]. intros [H|(t & H)]; [discriminate|].
    injection H as H _. contradiction.
Qed.

Lemma before_append v post :
  Js.includes v ";" = false ->
  post = EmptyString \/ (exists t, post = String ";" t) ->
  Js.before ";" (v ++ post) = v.
Proof.
  intros Hv Hpost. induction v as [|a v IH].
  - apply before_empty. exact Hpost.
  - cbn [Js.includes Js.startsWith] in Hv.
    rewrite startsWith_empty, andb_true_r in Hv.
    apply orb_false_iff in Hv as [Ha Hv].
    rewrite append_cons. cbn [Js.before]. rewrite Ascii.eqb_sym, Ha. f_equal. exact (IH Hv).
Qed.

(** What the test of [gaMatch] at the head of the string amounts to. *)
Lemma gaMatch_test s :
  Js.startsWith s "_ga_B0Z6G6GCD8="
  && Js.truthy (Js.before ";"
                  (String.substring 15 (String.length s - 15) s)) = false
  <-> forall rest,
        s = "_ga_B0Z6G6GCD8=" ++ rest ->
        rest = EmptyString \/ exists t, rest = String ";" t.
Proof.
  split.
  - intros H rest ->. rewrite startsWith_append in H. cbn [andb] in H.
    pose proof (startsWith_split "_ga_B0Z6G6GCD8=" _
                  (startsWith_append "_ga_B0Z6G6GCD8=" rest)) as E.
    apply append_cancel in E.
    change (String.length "_ga_B0Z6G6GCD8=") with 15%nat in E.
    rewrite <- E in H. apply before_empty.
    destruct (Js.before ";" rest) eqn:B; [reflexivity|discriminate].
  - intros H. destruct (Js.startsWith s "_ga_B0Z6G6GCD8=") eqn:E; [|reflexivity].
    cbn [andb]. apply startsWith_split in E.
    change (String.length "_ga_B0Z6G6GCD8=") with 15%nat in E.
    apply H, before_empty in E. rewrite E. reflexivity.
Qed.

(** No occurrence of the name that a value follows: no match. *)
Lemma gaMatch_none s :
  (forall pre rest,
      s = pre ++ "_ga_B0Z6G6GCD8=" ++ rest ->
      rest = EmptyString \/ exists t, rest = String ";" t) ->
  Login.gaMatch s = None.
Proof.
  induction s as [|a s IH]; intros H; [reflexivity|].
  cbn [Login.gaMatch].
  replace (Js.startsWith (String a s) "_ga_B0Z6G6GCD8=" && _) with false.
  - apply IH. intros pre rest ->. apply (H (String a pre) rest). reflexivity.
  - symmetry. apply gaMatch_test. intros rest E.
    apply (H EmptyString rest). exact E.
Qed.

(** The match is the first occurrence of the name that a value follows,
    and the value runs to the next semicolon or to the end. *)
Lemma gaMatch_first pre : forall s v post,
  s = pre ++ "_ga_B0Z6G6GCD8=" ++ v ++ post ->
  v <> EmptyString ->
  Js.includes v ";" = false ->
  post = EmptyString \/ (exists t, post = String ";" t) ->
  (forall pre' rest',
      s = pre' ++ "_ga_B0Z6G6GCD8=" ++ rest' ->
      (String.length pre' < String.length pre)%nat ->
      rest' = EmptyString \/ exists t, rest' = String ";" t) ->
  Login.gaMatch s = Some v.
Proof.
  induction pre as [|a pre IH]; intros s v post -> Hv Hsemi Hpost Hfirst.
  - change (EmptyString ++ "_ga_B0Z6G6GCD8=" ++ v ++ post)
      with ("_ga_B0Z6G6GCD8=" ++ v ++ post).
    assert (T : Js.startsWith ("_ga_B0Z6G6GCD8=" ++ v ++ post) "_ga_B0Z6G6GCD8="
                && Js.truthy
                     (Js.before ";"
                        (String.substring 15
                           (String.length ("_ga_B0Z6G6GCD8=" ++ v ++ post) - 15)
                           ("_ga_B0Z6G6GCD8=" ++ v ++ post))) = true
                /\ Js.before ";"
                     (String.substring 15
                        (String.length ("_ga_B0Z6G6GCD8=" ++ v ++ post) - 15)
                        ("_ga_B0Z6G6GCD8=" ++ v ++ post)) = v).
    { pose proof (startsWith_split "_ga_B0Z6G6GCD8=" _
                    (startsWith_append "_ga_B0Z6G6GCD8=" (v ++ post))) as E.
      apply append_cancel in E.
      change (String.length "_ga_B0Z6G6GCD8=") with 15%nat in E.
      rewrite <- E, startsWith_append, (before_append v post Hsemi Hpost).
      split; [|reflexivity]. apply truthy_nonempty. exact Hv. }
    destruct T as [T1 T2].
    change ("_ga_B0Z6G6GCD8=" ++ v ++ post)
      with (String "_" ("ga_B0Z6G6GCD8=" ++ v ++ post)) in *.
    cbn [Login.gaMatch]. rewrite T1, T2. reflexivity.
  - rewrite append_cons. cbn [Login.gaMatch].
    replace (Js.startsWith (String a _) "_ga_B0Z6G6GCD8=" && _) with false.
    + apply (IH _ v post eq_refl Hv Hsemi Hpost).
      intros pre' rest' E L. apply (Hfirst (String a pre') rest').
      * rewrite append_cons, E. reflexivity.
      * cbn [String.length]. lia.
    + symmetry. apply gaMatch_test. intros rest E.
      apply (Hfirst EmptyString rest); [exact E|cbn [String.length]; lia].
Qed.

(** X8.  Of the set-cookie header of the login page [scrapeLoginPageData]
    keeps one thing: the first place of the header text (the values of an
    array joined with "; ") where [_ga_B0Z6G6GCD8=] is followed by a
    character other than a semicolon.  The cookie string of the object
    becomes that name with the text that follows it up to the next
    semicolon or the end; the place need not be the start of a cookie, it
    can lie inside the value of another one.  Without such a place, or
    without the header, the cookie string is left as it was.  What is kept
    has a non-empty value without semicolon, which the later merge reads
    back as one cookie.  The session cookies are not touched, and the page
    request is the only call made. *)
Theorem scrape_keeps_only_the_ga_cookie :
  forall (remote : Login.Remote) (this this' : Login.LPUAutomatedLogin)
         (w w' : Eff.World),
    Login.scrapeLoginPageData remote this w = (Eff.Ret this', w') ->
    Login.this_sessionCookies this' = Login.this_sessionCookies this
    /\ Eff.trace w' = (Eff.trace w ++ [Eff.GetLoginPage])%list
    /\ Eff.files w' = Eff.files w
    /\ (Login.this_cookies this' = Login.this_cookies this
        \/ exists v,
            Login.this_cookies this' = "_ga_B0Z6G6GCD8=" ++ v
            /\ v <> EmptyString
            /\ Js.includes v ";" = false
            /\ Login.existingCookies (Login.this_cookies this')
               = [Login.this_cookies this'])
    /\ exists hdr fields,
        Login.loginPage remote = Login.Answered (hdr, fields)
        /\ Login.scrapedData this' = Some fields
        /\ (hdr = Login.HUndefined ->
            Login.this_cookies this' = Login.this_cookies this)
        /\ forall cookieString,
            hdr = Login.HString cookieString
            \/ (exists values, hdr = Login.HArray values
                               /\ cookieString = Js.join_semi_sp values) ->
            ((forall pre rest,
                 cookieString = pre ++ "_ga_B0Z6G6GCD8=" ++ rest ->
                 rest = EmptyString \/ exists t, rest = String ";" t) ->
             Login.this_cookies this' = Login.this_cookies this)
            /\ (forall pre v post,
                   cookieString = pre ++ "_ga_B0Z6G6GCD8=" ++ v ++ post ->
                   v <> EmptyString ->
                   Js.includes v ";" = false ->
                   post = EmptyString \/ (exists t, post = String ";" t) ->
                   (forall pre' rest',
                       cookieString = pre' ++ "_ga_B0Z6G6GCD8=" ++ rest' ->
                       (String.length pre' < String.length pre)%nat ->
                       rest' = EmptyString \/ exists t, rest' = String ";" t) ->
                   Login.this_cookies this' = "_ga_B0Z6G6GCD8=" ++ v).
Proof.
  intros remote this this' w w'.
  unfold Login.scrapeLoginPageData, Eff.bind, Eff.emit.
  destruct (Login.loginPage remote) as [[hdr fields]|]; [|discriminate].
  cbn [Eff.ret]. intros H. injection H as <- <-. cbn.
  split; [reflexivity|]. split; [reflexivity|]. split; [reflexivity|]. split.
  - assert (G : forall s,
               match Login.gaMatch s with
               | Some v => "_ga_B0Z6G6GCD8=" ++ v
               | None => Login.this_cookies this
               end = Login.this_cookies this
               \/ exists v,
                   match Login.gaMatch s with
                   | Some v => "_ga_B0Z6G6GCD8=" ++ v
                   | None => Login.this_cookies this
                   end = "_ga_B0Z6G6GCD8=" ++ v
                   /\ v <> EmptyString
                   /\ Js.includes v ";" = false
                   /\ Login.existingCookies
                        match Login.gaMatch s with
                        | Some v => "_ga_B0Z6G6GCD8=" ++ v
                        | None => Login.this_cookies this
                        end
                      = [match Login.gaMatch s with
                         | Some v => "_ga_B0Z6G6GCD8=" ++ v
                         | None => Login.this_cookies this
                         end]).
    { intros s. destruct (Login.gaMatch s) as [v|] eqn:E; [|left; reflexivity].
      right. destruct (gaMatch_some s v E) as [Hne Hsemi].
      exists v. repeat split; try assumption.
      unfold Login.existingCookies.
      rewrite split_sepfree.
      - cbn [List.filter]. replace (Js.truthy _) with true; [reflexivity|].
        symmetry. apply truthy_nonempty. discriminate.
      - apply no_semicolon_sepfree.
        apply (includes_char_app ";"%char "_ga_B0Z6G6GCD8=" v);
          [reflexivity|exact Hsemi]. }
    destruct hdr as [|values|value]; [left; reflexivity|apply G|apply G].
  - exists hdr, fields. split; [reflexivity|]. split; [reflexivity|]. split.
    + intros ->. reflexivity.
    + intros s Hs.
      assert (E : match hdr with
                  | Login.HUndefined => Login.this_cookies this
                  | Login.HArray values =>
                      match Login.gaMatch (Js.join_semi_sp values) with
                      | Some v => "_ga_B0Z6G6GCD8=" ++ v
                      | None => Login.this_cookies this
                      end
                  | Login.HString value =>
                      match Login.gaMatch value with
                      | Some v => "_ga_B0Z6G6GCD8=" ++ v
                      | None => Login.this_cookies this
                      end
                  end
                  = match Login.gaMatch s with
                    | Some v => "_ga_B0Z6G6GCD8=" ++ v
                    | None => Login.this_cookies this
                    end).
      { destruct Hs as [->|(values & -> & ->)]; reflexivity. }
      rewrite E. split.
      * intros Hnone. rewrite (gaMatch_none s Hnone). reflexivity.
      * intros pre v post Hdec Hv Hsemi Hpost Hfirst.
        rewrite (gaMatch_first pre s v post Hdec Hv Hsemi Hpost Hfirst).
        reflexivity.
Qed.

Lemma scrape_keeps_only_the_ga_cookie_witness :
  Login.scrapeLoginPageData
    (Sample.portal "c7614830966e1b0142069a48b4472918979fd105")
    Sample.this0 (Sample.world 0)
  = (Eff.Ret {| Login.this_cookies := "_ga_B0Z6G6GCD8=GS1";
                Login.this_sessionCookies := EmptyString;
                Login.scrapedData := Some Sample.page_fields |},
     {| Eff.files := ∅; Eff.clock := 0; Eff.trace := [Eff.GetLoginPage] |})
  /\ Login.existingCookies "_ga_B0Z6G6GCD8=GS1" = ["_ga_B0Z6G6GCD8=GS1"].
Proof.
  assert (H : Login.scrapeLoginPageData
                (Sample.portal "c7614830966e1b0142069a48b4472918979fd105")
                Sample.this0 (Sample.world 0)
              = (Eff.Ret {| Login.this_cookies := "_ga_B0Z6G6GCD8=GS1";
                            Login.this_sessionCookies := EmptyString;
                            Login.scrapedData := Some Sample.page_fields |},
                 {| Eff.files := ∅; Eff.clock := 0;
                    Eff.trace := [Eff.GetLoginPage] |})) by reflexivity.
  split; [exact H|].
  destruct (scrape_keeps_only_the_ga_cookie _ _ _ _ _ H) as (_ & _ & _ & G & _).
  destruct G as [G|(v & _ & _ & _ & G)]; [discriminate G|exact G].
Defined.

(** The name inside the value of another cookie is taken as well. *)
Example scrape_takes_the_name_inside_a_value :
  Login.gaMatch "sid=_ga_B0Z6G6GCD8=zzz; path=/" = Some "zzz"
  /\ Login.gaMatch "_ga_B0Z6G6GCD8=; _ga_B0Z6G6GCD8=GS2" = Some "GS2"
  /\ Login.gaMatch "sid=abc; path=/" = None.
Proof. repeat split. Qed.

(** X9.  With cookie saving on, [extractAndSaveCookies] always ends
    normally and leaves at [cookieFile] a record of a successful login:
    the merged cookies, the list they were joined from, the configured
    user name and the current instant; the cookie string received from the
    login page is not changed.  When the merged cookies are not empty, an
    [AuthManager] whose session file is that file loads them as its session
    during the next 30 minutes. *)
Theorem saved_login_cookies_can_be_loaded :
  forall (CONFIG : Login.Config) (automation : Login.LPUAutomatedLogin)
         (r : Login.response) (w : Eff.World),
    Login.saveSessionCookies CONFIG = true ->
    exists (automation' : Login.LPUAutomatedLogin) (d : Eff.sessionData)
           (w' : Eff.World),
      Login.extractAndSaveCookies CONFIG automation r w = (Eff.Ret automation', w')
      /\ w' = {| Eff.files := <[Login.cookieFile CONFIG := Eff.Json d]> (Eff.files w);
                 Eff.clock := Eff.clock w; Eff.trace := Eff.trace w |}
      /\ Login.this_cookies automation' = Login.this_cookies automation
      /\ Login.this_sessionCookies automation'
         = Login.mergedSessionCookies (Login.this_cookies automation)
             (Login.set_cookie r)
      /\ Eff.cookies d = Some (Login.this_sessionCookies automation')
      /\ Js.join_semi_sp (Eff.cookieArray d) = Login.this_sessionCookies automation'
      /\ Eff.loginSuccess d = true
      /\ Eff.username d = Login.cfg_username CONFIG
      /\ Eff.timestamp d = Some (Eff.clock w)
      /\ (Login.this_sessionCookies automation' <> EmptyString ->
          forall (manager : Auth.AuthManager) (later : Z),
            Auth.SESSION_FILE manager = Login.cookieFile CONFIG ->
            later - Eff.clock w <= 30 * 60 * 1000 ->
            Auth.loadSessionData manager (Eff.at_time w' later)
            = (Eff.Ret (true,
                        Auth.set_sessionCookies manager
                          (Some (Login.this_sessionCookies automation'))),
               Eff.at_time w' later)).
Proof.
  intros CONFIG automation r w Hon.
  unfold Login.extractAndSaveCookies. rewrite Hon. cbn [negb].
  unfold Eff.bind, Eff.now, Eff.writeFile, Eff.ret.
  eexists _, _, _. split; [reflexivity|]. split; [reflexivity|].
  cbn [Login.this_cookies Login.this_sessionCookies Eff.cookies
       Eff.cookieArray Eff.loginSuccess Eff.username Eff.timestamp].
  repeat split.
  intros Hne manager later Hfile Hlater.
  eapply (loadSessionData_valid _ _
            {| Eff.timestamp := Some (Eff.clock w); Eff.username := _;
               Eff.cookies := Some _; Eff.cookieArray := _;
               Eff.loginSuccess := true |}).
  - rewrite Hfile. cbn. apply lookup_insert_eq.
  - cbn. apply truthy_nonempty. exact Hne.
  - reflexivity.
  - cbn. unfold Auth.SESSION_TTL. apply Z.ltb_ge. exact Hlater.
Qed.

Lemma saved_login_cookies_can_be_loaded_witness :
  Login.saveSessionCookies Sample.config = true
  /\ exists (automation' : Login.LPUAutomatedLogin) (d : Eff.sessionData)
            (w' : Eff.World),
      Login.extractAndSaveCookies Sample.config Sample.this0
        Sample.redirect_with_error (Sample.world 0)
      = (Eff.Ret automation', w')
      /\ Login.this_sessionCookies automation' = "ASP.NET_SessionId=abc"
      /\ Eff.cookies d = Some (Login.this_sessionCookies automation')
      /\ Auth.loadSessionData Auth.constructor (Eff.at_time w' 1800000)
         = (Eff.Ret (true,
                     Auth.set_sessionCookies Auth.constructor
                       (Some (Login.this_sessionCookies automation'))),
            Eff.at_time w' 1800000).
Proof.
  assert (H : Login.saveSessionCookies Sample.config = true) by reflexivity.
  split; [exact H|].
  destruct (saved_login_cookies_can_be_loaded Sample.config Sample.this0
              Sample.redirect_with_error (Sample.world 0) H)
    as (a & d & w' & E & _ & _ & Hs & Hc & _ & _ & _ & _ & Hload).
  exists a, d, w'. split; [exact E|].
  assert (Hv : Login.this_sessionCookies a = "ASP.NET_SessionId=abc")
    by (rewrite Hs; reflexivity).
  split; [exact Hv|]. split; [exact Hc|].
  apply Hload.
  - rewrite Hv. discriminate.
  - reflexivity.
  - simpl. lia.
Defined.

(** ** The session store, continued *)

(** X10.  Without a usable record [loadSessionData] reports no session
    and changes nothing: when the session file is missing, cannot be
    parsed, or holds a record without cookies or without [loginSuccess],
    the file is left as it is (not deleted, whatever its age) and the
    cookies the manager holds in memory are kept. *)
Theorem load_without_usable_record_changes_nothing :
  forall (this : Auth.AuthManager) (w : Eff.World),
    Eff.files w !! Auth.SESSION_FILE this = None
    \/ Eff.files w !! Auth.SESSION_FILE this = Some Eff.Garbage
    \/ (exists d,
           Eff.files w !! Auth.SESSION_FILE this = Some (Eff.Json d)
           /\ (Js.truthy_opt (Eff.cookies d) = false
               \/ Eff.loginSuccess d = false)) ->
    Auth.loadSessionData this w = (Eff.Ret (false, this), w).
Proof.
  intros this w H.
  unfold Auth.loadSessionData, Eff.try_catch, Eff.bind, Eff.readFile.
  destruct H as [->|[->|(d & -> & Hd)]]; [reflexivity|reflexivity|].
  cbn [Eff.parse Eff.ret].
  destruct Hd as [-> | ->]; [reflexivity|].
  rewrite andb_false_r. reflexivity.
Qed.

Lemma load_without_usable_record_changes_nothing_witness :
  (Eff.files (Sample.world 0) !! Auth.SESSION_FILE Sample.manager_with_session
   = None
   \/ Eff.files (Sample.world 0) !! Auth.SESSION_FILE Sample.manager_with_session
      = Some Eff.Garbage
   \/ (exists d,
          Eff.files (Sample.world 0) !! Auth.SESSION_FILE Sample.manager_with_session
          = Some (Eff.Json d)
          /\ (Js.truthy_opt (Eff.cookies d) = false
              \/ Eff.loginSuccess d = false)))
  /\ Auth.loadSessionData Sample.manager_with_session (Sample.world 0)
     = (Eff.Ret (false, Sample.manager_with_session), Sample.world 0).
Proof.
  assert (H : Eff.files (Sample.world 0)
                !! Auth.SESSION_FILE Sample.manager_with_session = None
              \/ Eff.files (Sample.world 0)
                   !! Auth.SESSION_FILE Sample.manager_with_session
                 = Some Eff.Garbage
              \/ (exists d,
                     Eff.files (Sample.world 0)
                       !! Auth.SESSION_FILE Sample.manager_with_session
                     = Some (Eff.Json d)
                     /\ (Js.truthy_opt (Eff.cookies d) = false
                         \/ Eff.loginSuccess d = false)))
    by (left; apply lookup_empty).
  exact (conj H
    (load_without_usable_record_changes_nothing Sample.manager_with_session
       (Sample.world 0) H)).
Defined.

(** X11.  A record whose timestamp cannot be read never expires: with
    cookies and [loginSuccess] it is loaded as the session at any instant,
    and the file is kept. *)
Theorem unreadable_timestamp_never_expires :
  forall (this : Auth.AuthManager) (w : Eff.World) (d : Eff.sessionData)
         (now : Z),
    Eff.files w !! Auth.SESSION_FILE this = Some (Eff.Json d) ->
    Js.truthy_opt (Eff.cookies d) = true ->
    Eff.loginSuccess d = true ->
    Eff.timestamp d = None ->
    Auth.loadSessionData this (Eff.at_time w now)
    = (Eff.Ret (true, Auth.set_sessionCookies this (Eff.cookies d)),
       Eff.at_time w now).
Proof.
  intros this w d now Hf Hc Hl Ht.
  apply loadSessionData_valid; try assumption.
  rewrite Ht. reflexivity.
Qed.

Lemma unreadable_timestamp_never_expires_witness :
  Eff.files (StoreSample.world_with (Eff.Json StoreSample.undated_record) 0)
    !! Auth.SESSION_FILE Auth.constructor
  = Some (Eff.Json StoreSample.undated_record)
  /\ Auth.loadSessionData Auth.constructor
       (Eff.at_time
          (StoreSample.world_with (Eff.Json StoreSample.undated_record) 0)
          99999999999)
     = (Eff.Ret (true,
                 Auth.set_sessionCookies Auth.constructor
                   (Eff.cookies StoreSample.undated_record)),
        Eff.at_time
          (StoreSample.world_with (Eff.Json StoreSample.undated_record) 0)
          99999999999).
Proof.
  assert (H : Eff.files
                (StoreSample.world_with (Eff.Json StoreSample.undated_record) 0)
                !! Auth.SESSION_FILE Auth.constructor
              = Some (Eff.Json StoreSample.undated_record))
    by apply lookup_singleton_eq.
  exact (conj H
    (unreadable_timestamp_never_expires Auth.constructor _ _ 99999999999 H
       eq_refl eq_refl eq_refl)).
Defined.

(** X12.  [clearSessionData] never throws, whether the session file is
    there or not.  Afterwards the manager holds no cookies and the session
    file does not exist; no other file, the clock and the remote calls are
    untouched; clearing again changes nothing more. *)
Theorem clearing_is_safe_and_idempotent :
  forall (this : Auth.AuthManager) (w : Eff.World),
    exists w' : Eff.World,
      Auth.clearSessionData this w
      = (Eff.Ret (Auth.set_sessionCookies this None), w')
      /\ Auth.hasValidSession (Auth.set_sessionCookies this None) = false
      /\ Eff.files w' !! Auth.SESSION_FILE this = None
      /\ (forall path, path <> Auth.SESSION_FILE this ->
                       Eff.files w' !! path = Eff.files w !! path)
      /\ Eff.clock w' = Eff.clock w
      /\ Eff.trace w' = Eff.trace w
      /\ Auth.clearSessionData (Auth.set_sessionCookies this None) w'
         = (Eff.Ret (Auth.set_sessionCookies this None), w').
Proof.
  intros this w.
  destruct (clearSessionData_spec this w) as (w' & E & Hf & Hc & Ht).
  exists w'. split; [exact E|]. split; [reflexivity|].
  assert (Hgone : Eff.files w' !! Auth.SESSION_FILE this = None)
    by (rewrite Hf; apply lookup_delete_eq).
  split; [exact Hgone|]. split.
  { intros path Hp. rewrite Hf. apply lookup_delete_ne. congruence. }
  split; [exact Hc|]. split; [exact Ht|].
  unfold Auth.clearSessionData, Eff.bind, Eff.try_catch, Eff.unlink.
  replace (Auth.SESSION_FILE (Auth.set_sessionCookies this None))
    with (Auth.SESSION_FILE this) by reflexivity.
  rewrite Hgone. reflexivity.
Qed.

(** X13.  [authenticateWithUMS] never throws: it returns, or it does not
    end.  What it returns is what [getSessionCookies] gives afterwards, and
    [hasValidSession] is then true exactly when the result is not null; the
    session file path of the manager is not changed.  Called without
    [forceRefresh] on a manager that holds a session, it returns that
    session and leaves the world as it was: no call, no file access. *)
Theorem authenticate_never_throws :
  forall (CONFIG : Login.Config) (remote : Login.Remote) (fuel : nat)
         (this : Auth.AuthManager) (forceRefresh : bool) (w : Eff.World),
    match fst (Auth.authenticateWithUMS CONFIG remote fuel this forceRefresh w) with
    | Eff.Throw _ => False
    | Eff.Hang => True
    | Eff.Ret (result, this') =>
        result = Auth.getSessionCookies this'
        /\ (Auth.hasValidSession this' = true <-> result <> None)
        /\ Auth.SESSION_FILE this' = Auth.SESSION_FILE this
    end
    /\ (forceRefresh = false -> Auth.hasValidSession this = true ->
        Auth.authenticateWithUMS CONFIG remote fuel this forceRefresh w
        = (Eff.Ret (Auth.sessionCookies this, this), w)).
Proof.
  intros CONFIG remote fuel this forceRefresh w. split.
  - destruct (Auth.authenticateWithUMS CONFIG remote fuel this forceRefresh w)
      as [[[result this']|e|] w'] eqn:E; cbn [fst]; [| |exact I].
    + destruct (authenticate_returns _ _ _ _ _ _ _ _ _ E)
        as [(-> & -> & _)|(Ht & Hs & Hf)].
      * repeat split; try discriminate. intros H. congruence.
      * unfold Auth.getSessionCookies, Auth.hasValidSession. rewrite Hs.
        split; [reflexivity|]. split; [|exact Hf].
        split; [|intros _; exact Ht].
        intros _ ->. discriminate.
    + revert E. unfold Auth.authenticateWithUMS, Eff.try_catch.
      destruct (negb forceRefresh && Js.truthy_opt (Auth.sessionCookies this));
        [discriminate|].
      unfold Eff.bind at 1.
      destruct (Auth.newAutomationRun CONFIG remote fuel w)
        as [[[result automation]|e0|] w1]; cbn [fst].
      * destruct (Login.success result
                  && Js.truthy_opt (Login.result_cookies result)).
        -- unfold Eff.bind. rewrite saveSessionData_spec. discriminate.
        -- cbn [Eff.throw].
           destruct (authenticate_handler this w1) as (w2 & -> & _).
           discriminate.
      * destruct (authenticate_handler this w1) as (w2 & -> & _).
        discriminate.
      * discriminate.
  - intros -> Hs. unfold Auth.authenticateWithUMS, Eff.try_catch.
    unfold Auth.hasValidSession in Hs. rewrite Hs. reflexivity.
Qed.

Lemma authenticate_never_throws_witness :
  false = false
  /\ Auth.hasValidSession Sample.manager_with_session = true
  /\ Auth.authenticateWithUMS Sample.config_no_credentials Sample.silent 0
       Sample.manager_with_session false (Sample.world 0)
     = (Eff.Ret (Auth.sessionCookies Sample.manager_with_session,
                 Sample.manager_with_session),
        Sample.world 0).
Proof.
  assert (H1 : false = false) by reflexivity.
  assert (H2 : Auth.hasValidSession Sample.manager_with_session = true)
    by reflexivity.
  exact (conj H1 (conj H2
    (proj2 (authenticate_never_throws Sample.config_no_credentials
              Sample.silent 0 Sample.manager_with_session false
              (Sample.world 0)) H1 H2))).
Defined.

(** A run of a new automation that returns cookies has written them: the
    cookie file, which is the session file of the managers, holds a
    record. *)
Lemma newAutomationRun_success_file CONFIG remote fuel w result automation w1 :
  Auth.newAutomationRun CONFIG remote fuel w = (Eff.Ret (result, automation), w1) ->
  Login.success result && Js.truthy_opt (Login.result_cookies result) = true ->
  forall manager : Auth.AuthManager,
  exists d, Eff.files w1 !! Auth.SESSION_FILE manager = Some (Eff.Json d).
Proof.
  intros E S manager.
  unfold Auth.newAutomationRun, Eff.bind, Login.constructor in E.
  destruct (Login.validateConfig CONFIG); [|discriminate].
  cbn [Eff.ret] in E.
  destruct (Login.saveSessionCookies CONFIG) eqn:Hsave.
  - revert E.
    unfold Login.runAutomation, Login.scrapeLoginPageData,
      Login.getCaptchaParameters, Login.getCaptchaImage, Login.solveCaptcha,
      Login.convertCaptchaTextM, Login.submitLoginForm,
      Login.extractAndSaveCookies, Eff.bind, Eff.emit, Eff.now, Eff.ret,
      Eff.throw, Eff.hang, Eff.writeBytes, Eff.writeFile.
    rewrite Hsave.
    destruct (Login.loginPage remote) as [[hdr fields]|]; cbn; [|discriminate].
    destruct (Login.paramsAnswer remote) as [[sp0 hs0]|]; cbn; [|discriminate].
    destruct (Login.imageAnswer remote) as [img|]; cbn; [|discriminate].
    destruct (Login.saveCaptchaImage CONFIG); cbn;
      (destruct (Login.balanceAnswer remote) as [balance|]; cbn;
       try discriminate);
      (destruct (Login.belowMinimum CONFIG balance); cbn; try discriminate);
      (destruct (Login.solveAnswer remote) as [text|]; cbn; try discriminate);
      (destruct (Login.convertCaptchaText fuel text sp0 hs0 (Login.BDC_VCID fields));
       cbn; try discriminate);
      (destruct (Login.submitAnswer remote) as [r|]; cbn; try discriminate);
      destruct (Login.checkResponse r); cbn; try discriminate;
      intros H; inversion H; subst; cbn in *; try discriminate;
      eexists; apply lookup_insert_eq.
  - assert (Hnone : Login.success result
                    && Js.truthy_opt (Login.result_cookies result) = false).
    { eapply runAutomation_not_saving; [exact Hsave| |exact E]. reflexivity. }
    congruence.
Qed.

(** X14.  An attempt that returns cookies has saved them: the session file
    then holds a record with those cookies, [loginSuccess] true and the
    current instant, and any manager on that file loads the same cookies
    during the next 30 minutes. *)
Theorem successful_authentication_is_persisted :
  forall (CONFIG : Login.Config) (remote : Login.Remote) (fuel : nat)
         (this this' : Auth.AuthManager) (forceRefresh : bool)
         (w w' : Eff.World) (c : string),
    forceRefresh = true \/ Auth.hasValidSession this = false ->
    Auth.authenticateWithUMS CONFIG remote fuel this forceRefresh w
    = (Eff.Ret (Some c, this'), w') ->
    c <> EmptyString
    /\ (exists d,
           Eff.files w' !! Auth.SESSION_FILE this = Some (Eff.Json d)
           /\ Eff.cookies d = Some c
           /\ Eff.loginSuccess d = true
           /\ Eff.timestamp d = Some (Eff.clock w'))
    /\ forall (reader : Auth.AuthManager) (later : Z),
        Auth.SESSION_FILE reader = Auth.SESSION_FILE this ->
        later - Eff.clock w' <= 30 * 60 * 1000 ->
        Auth.loadSessionData reader (Eff.at_time w' later)
        = (Eff.Ret (true, Auth.set_sessionCookies reader (Some c)),
           Eff.at_time w' later).
Proof.
  intros CONFIG remote fuel this this' forceRefresh w w' c Hattempt.
  unfold Auth.authenticateWithUMS, Eff.try_catch.
  assert (C : negb forceRefresh && Js.truthy_opt (Auth.sessionCookies this)
              = false).
  { destruct Hattempt as [->|H]; [reflexivity|].
    unfold Auth.hasValidSession in H. rewrite H. apply andb_false_r. }
  rewrite C. unfold Eff.bind at 1.
  destruct (Auth.newAutomationRun CONFIG remote fuel w)
    as [[[result automation]|e0|] w1] eqn:Erun; cbn [fst].
  - destruct (Login.success result
              && Js.truthy_opt (Login.result_cookies result)) eqn:S.
    + unfold Eff.bind. rewrite saveSessionData_spec.
      destruct (newAutomationRun_success_file _ _ _ _ _ _ _ Erun S
                  (Auth.set_sessionCookies this (Login.result_cookies result)))
        as (d0 & ->).
      cbn [Eff.ret].
      intros H. injection H as Hc <- <-.
      cbn [Auth.set_sessionCookies Auth.sessionCookies] in *.
      replace (Auth.SESSION_FILE {| Auth.sessionCookies :=
                                      Login.result_cookies result |})
        with (Auth.SESSION_FILE this) by reflexivity.
      apply andb_true_iff in S as [_ S]. rewrite Hc in S.
      assert (Hne : c <> EmptyString) by (apply truthy_nonempty; exact S).
      split; [exact Hne|]. split.
      * eexists. split; [cbn; apply lookup_insert_eq|].
        cbn. repeat split; congruence.
      * intros reader later Hfile Hlater.
        eapply (loadSessionData_valid _ _
                  {| Eff.timestamp := Some (Eff.clock w1); Eff.username := _;
                     Eff.cookies := Some c; Eff.cookieArray := _;
                     Eff.loginSuccess := _ |}).
        -- rewrite Hfile. cbn.
           replace (Some c) with (Login.result_cookies result) by exact Hc.
           apply lookup_insert_eq.
        -- exact S.
        -- cbn. congruence.
        -- cbn. unfold Auth.SESSION_TTL. apply Z.ltb_ge. exact Hlater.
    + cbn [Eff.throw].
      destruct (authenticate_handler this w1) as (w2 & -> & _). discriminate.
  - destruct (authenticate_handler this w1) as (w2 & -> & _). discriminate.
  - discriminate.
Qed.

Lemma successful_authentication_is_persisted_witness :
  (false = true \/ Auth.hasValidSession Auth.constructor = false)
  /\ exists this' w',
      Auth.authenticateWithUMS Sample.config
        (Sample.portal "c7614830966e1b0142069a48b4472918979fd105") 4
        Auth.constructor false (Sample.world 7)
      = (Eff.Ret (Some "_ga_B0Z6G6GCD8=GS1; ASP.NET_SessionId=abc", this'), w')
      /\ Auth.loadSessionData Auth.constructor (Eff.at_time w' 1800007)
         = (Eff.Ret (true,
                     Auth.set_sessionCookies Auth.constructor
                       (Some "_ga_B0Z6G6GCD8=GS1; ASP.NET_SessionId=abc")),
            Eff.at_time w' 1800007).
Proof.
  assert (H1 : false = true \/ Auth.hasValidSession Auth.constructor = false)
    by (right; reflexivity).
  split; [exact H1|].
  destruct (Auth.authenticateWithUMS Sample.config
              (Sample.portal "c7614830966e1b0142069a48b4472918979fd105") 4
              Auth.constructor false (Sample.world 7))
    as [o w'] eqn:E.
  assert (Ho : o = Eff.Ret (Some "_ga_B0Z6G6GCD8=GS1; ASP.NET_SessionId=abc",
                            Auth.set_sessionCookies Auth.constructor
                              (Some "_ga_B0Z6G6GCD8=GS1; ASP.NET_SessionId=abc"))
               /\ Eff.clock w' = 7).
  { assert (F : (o, w')
                = Auth.authenticateWithUMS Sample.config
                    (Sample.portal "c7614830966e1b0142069a48b4472918979fd105") 4
                    Auth.constructor false (Sample.world 7))
      by (symmetry; exact E).
    vm_compute in F. injection F as -> ->. split; reflexivity. }
  destruct Ho as [-> Hclock].
  eexists _, w'. split; [reflexivity|].
  apply (proj2 (proj2 (successful_authentication_is_persisted _ _ _ _ _ _ _ _ _
                         H1 E))).
  - reflexivity.
  - rewrite Hclock. lia.
Defined.

(** X15.  [saveSessionData] never throws and touches no file but the
    session file.  Over a missing file, a file that cannot be parsed or a
    record, it leaves a record with the cookies of the manager and the
    current instant; over a JSON array it writes the array back, and over
    JSON for [null], a number, a string or a boolean it writes nothing, so
    that the file holds what it held.  Saved by a manager without cookies, a
    record is marked [loginSuccess] false with an empty cookie list; and
    whatever the file held, [loadSessionData] then reports no session at
    any instant and leaves the file in place. *)
Theorem saving_without_session_stores_nothing_usable :
  forall (LPU_USERNAME : string) (this : Auth.AuthManager) (w : Eff.World),
    exists w1 : Eff.World,
      Auth.saveSessionData LPU_USERNAME this w = (Eff.Ret tt, w1)
      /\ Eff.clock w1 = Eff.clock w
      /\ Eff.trace w1 = Eff.trace w
      /\ (forall path, path <> Auth.SESSION_FILE this ->
                       Eff.files w1 !! path = Eff.files w !! path)
      /\ (Eff.files w !! Auth.SESSION_FILE this = None
          \/ Eff.files w !! Auth.SESSION_FILE this = Some Eff.Garbage
          \/ (exists d0,
                 Eff.files w !! Auth.SESSION_FILE this = Some (Eff.Json d0)) ->
          exists d,
            Eff.files w1 !! Auth.SESSION_FILE this = Some (Eff.Json d)
            /\ Eff.cookies d = Auth.sessionCookies this
            /\ Eff.loginSuccess d = Auth.hasValidSession this
            /\ Eff.timestamp d = Some (Eff.clock w)
            /\ (Auth.hasValidSession this = false -> Eff.cookieArray d = []))
      /\ (Eff.files w !! Auth.SESSION_FILE this = Some Eff.JsonArray
          \/ Eff.files w !! Auth.SESSION_FILE this = Some Eff.JsonScalar ->
          Eff.files w1 !! Auth.SESSION_FILE this
          = Eff.files w !! Auth.SESSION_FILE this)
      /\ (Auth.hasValidSession this = false ->
          forall (reader : Auth.AuthManager) (later : Z),
            Auth.loadSessionData reader (Eff.at_time w1 later)
            = (Eff.Ret (false, reader), Eff.at_time w1 later)).
Proof.
  intros LPU_USERNAME this w.
  eexists. split; [apply saveSessionData_spec|].
  cbn [Eff.clock Eff.trace Eff.files].
  split; [reflexivity|]. split; [reflexivity|]. split.
  { intros path Hp.
    destruct (Eff.files w !! Auth.SESSION_FILE this) as [[d0| | |]|];
      try reflexivity; apply lookup_insert_ne; congruence. }
  split.
  { intros Hprior.
    assert (Hlast : Auth.hasValidSession this = false ->
                    match Auth.sessionCookies this with
                    | Some c => if Js.truthy c then [c] else []
                    | None => []
                    end = []).
    { unfold Auth.hasValidSession.
      destruct (Auth.sessionCookies this) as [c|]; [|reflexivity].
      cbn. intros ->. reflexivity. }
    destruct Hprior as [->|[->|(d0 & ->)]]; eexists;
      (split; [apply lookup_insert_eq|]); cbn; auto. }
  split.
  { intros [E|E]; rewrite E; [apply lookup_insert_eq|exact E]. }
  intros Hs reader later. unfold Auth.hasValidSession in Hs.
  unfold Auth.loadSessionData, Eff.try_catch, Eff.bind, Eff.readFile.
  replace (Auth.SESSION_FILE reader) with (Auth.SESSION_FILE this)
    by reflexivity.
  cbn [Eff.at_time Eff.files].
  destruct (Eff.files w !! Auth.SESSION_FILE this) as [[d0| | |]|] eqn:E;
    rewrite ?lookup_insert_eq, ?E;
    cbn [Eff.parse Eff.ret Eff.cookies Eff.loginSuccess];
    rewrite ?Hs; reflexivity.
Qed.

Lemma saving_without_session_stores_nothing_usable_witness :
  Auth.hasValidSession Auth.constructor = false
  /\ (exists d0,
         Eff.files (Sample.world_with_record 5)
           !! Auth.SESSION_FILE Auth.constructor = Some (Eff.Json d0))
  /\ exists w1 : Eff.World,
      Auth.saveSessionData "12345678" Auth.constructor
        (Sample.world_with_record 5)
      = (Eff.Ret tt, w1)
      /\ (exists d,
             Eff.files w1 !! Auth.SESSION_FILE Auth.constructor
             = Some (Eff.Json d)
             /\ Eff.cookieArray d = [])
      /\ Auth.loadSessionData Auth.constructor (Eff.at_time w1 6)
         = (Eff.Ret (false, Auth.constructor), Eff.at_time w1 6).
Proof.
  assert (H : Auth.hasValidSession Auth.constructor = false) by reflexivity.
  assert (P : exists d0,
                Eff.files (Sample.world_with_record 5)
                  !! Auth.SESSION_FILE Auth.constructor = Some (Eff.Json d0))
    by (eexists; apply lookup_singleton_eq).
  split; [exact H|]. split; [exact P|].
  destruct (saving_without_session_stores_nothing_usable "12345678"
              Auth.constructor (Sample.world_with_record 5))
    as (w1 & E & _ & _ & _ & Hrecord & _ & Hload).
  destruct (Hrecord (or_intror (or_intror P))) as (d & Hd & _ & _ & _ & Ha).
  exists w1. split; [exact E|]. split; [exists d; auto|].
  apply Hload. exact H.
Defined.

(** Over a file that holds the JSON text [null], nothing is written. *)
Example saving_over_null_writes_nothing :
  Auth.saveSessionData "12345678" Sample.manager_with_session
    (StoreSample.world_with Eff.JsonScalar 3)
  = (Eff.Ret tt, StoreSample.world_with Eff.JsonScalar 3)
  /\ Eff.files
       (snd (Auth.saveSessionData "12345678" Sample.manager_with_session
               (StoreSample.world_with Eff.JsonArray 3)))
       !! Auth.SESSION_FILE Sample.manager_with_session
     = Some Eff.JsonArray.
Proof. split; [reflexivity|apply lookup_insert_eq]. Qed.

(** ** timetable.js: times *)

Example parseInt_values :
  Js.parseInt "09" = Js.Finite 9 /\ Js.parseInt "  -12px" = Js.Finite (-12)
  /\ Js.parseInt "0x1A" = Js.Finite 26 /\ Js.parseInt "abc" = Js.NaN
  /\ Js.parseInt EmptyString = Js.NaN /\ Js.parseInt "+7" = Js.Finite 7
  /\ Js.parseInt "0x" = Js.NaN /\ Js.parseInt "12:30" = Js.Finite 12
  /\ Js.parseInt "9007199254740993" = Js.Finite 9007199254740992.
Proof. repeat split. Qed.

Example parseTimeRange_values :
  Timetable.parseTimeRange "09-10 AM" = (Js.Finite 540, Js.Finite 600)
  /\ Timetable.parseTimeRange "12-01 PM" = (Js.Finite 720, Js.Finite 780)
  /\ Timetable.parseTimeRange "11-12 AM" = (Js.Finite 660, Js.Finite 720)
  /\ Timetable.parseTimeRange "12-13 PM" = (Js.Finite 720, Js.Finite 1500)
  /\ Timetable.parseTimeRange "09-10" = (Js.Finite 540, Js.Finite 600)
  /\ Timetable.parseTimeRange "nine AM" = (Js.NaN, Js.NaN)
  /\ Timetable.attendanceTime "09:00-10:00" = "9-10 AM"
  /\ Timetable.attendanceTime "13:00-14:00" = "1-2 PM"
  /\ Timetable.attendanceTime "12:00-13:00" = "12-13 PM"
  /\ Timetable.attendanceTime EmptyString = "09-10 AM".
Proof. repeat split. Qed.

Lemma split_char_first c s :
  nth 0 (Js.split_char c s) EmptyString = Js.before c s.
Proof.
  induction s as [|a s IH]; [reflexivity|].
  cbn [Js.split_char Js.before]. destruct (Ascii.eqb a c); [reflexivity|].
  destruct (Js.split_char c s) as [|h t]; cbn in *; congruence.
Qed.

Lemma split_char_second c x rest :
  Js.includes x (String c EmptyString) = false ->
  Js.split_char c (x ++ String c rest) = x :: Js.split_char c rest.
Proof.
  induction x as [|a x IH]; intros H.
  - change (EmptyString ++ String c rest) with (String c rest).
    cbn [Js.split_char]. rewrite Ascii.eqb_refl. reflexivity.
  - change (String a x ++ String c rest) with (String a (x ++ String c rest)).
    cbn [Js.includes Js.startsWith] in H.
    apply orb_false_iff in H as [H1 H2].
    replace (Js.startsWith x EmptyString) with true in H1
      by (destruct x; reflexivity).
    rewrite andb_true_r in H1.
    cbn [Js.split_char]. rewrite Ascii.eqb_sym, H1, (IH H2). reflexivity.
Qed.

(** An hour of the day, case by case. *)
Lemma hour_cases (P : Z -> Prop) :
  (forall k, (k < 24)%nat -> P (Z.of_nat k)) ->
  forall n, 0 <= n <= 23 -> P n.
Proof.
  intros H n Hn. replace n with (Z.of_nat (Z.to_nat n)) by lia.
  apply H. lia.
Qed.

Lemma two_digits_spec n rest :
  0 <= n <= 23 ->
  Js.includes (PageTime.two_digits n) "-" = false
  /\ Js.before ":" (PageTime.two_digits n ++ ":" ++ rest) = PageTime.two_digits n
  /\ Js.before "-" (PageTime.two_digits n ++ ":" ++ rest)
     = PageTime.two_digits n ++ ":" ++ Js.before "-" rest
  /\ Js.parseInt (PageTime.two_digits n) = Js.Finite n
  /\ Js.truthy (PageTime.two_digits n ++ rest) = true.
Proof.
  revert n. apply hour_cases. intros k Hk.
  do 24 (destruct k as [|k]; [repeat split|]). lia.
Qed.


Lemma includes_char_append x y c :
  Js.includes (x ++ y) (String c EmptyString)
  = Js.includes x (String c EmptyString) || Js.includes y (String c EmptyString).
Proof.
  induction x as [|a x IH].
  - change (EmptyString ++ y) with y. destruct y; reflexivity.
  - change (String a x ++ y) with (String a (x ++ y)).
    cbn [Js.includes Js.startsWith]. rewrite IH.
    replace (Js.startsWith (x ++ y) EmptyString) with true
      by (destruct (x ++ y); reflexivity).
    replace (Js.startsWith x EmptyString) with true by (destruct x; reflexivity).
    rewrite orb_assoc. reflexivity.
Qed.

Lemma string_app_assoc (x y z : string) : (x ++ y) ++ z = x ++ (y ++ z).
Proof.
  induction x as [|a x IH]; [reflexivity|].
  change ((String a x ++ y) ++ z) with (String a ((x ++ y) ++ z)).
  rewrite IH. reflexivity.
Qed.

(** The attendance time of a page time depends on the two hours only. *)
Lemma attendanceTime_text s m1 e m2 :
  0 <= s <= 23 -> 0 <= e <= 23 ->
  Js.includes m1 "-" = false ->
  Timetable.attendanceTime (PageTime.text s m1 e m2)
  = if s <? 12 then Js.toString s ++ "-" ++ Js.toString e ++ " AM"
    else if s =? 12 then Js.toString s ++ "-" ++ Js.toString e ++ " PM"
    else Js.toString (s - 12) ++ "-" ++ Js.toString (e - 12) ++ " PM".
Proof.
  intros Hs He Hm.
  destruct (two_digits_spec s m1 Hs) as (Hs1 & Hs2 & _ & Hs4 & _).
  destruct (two_digits_spec e m2 He) as (_ & _ & He3 & He4 & _).
  destruct (two_digits_spec e (Js.before "-" m2) He) as (_ & He2 & _ & _ & _).
  unfold Timetable.attendanceTime, PageTime.text.
  assert (Hfree : Js.includes (PageTime.two_digits s ++ ":" ++ m1) "-" = false).
  { rewrite !includes_char_append, Hs1, Hm. reflexivity. }
  replace (PageTime.two_digits s ++ ":" ++ m1 ++ "-"
           ++ PageTime.two_digits e ++ ":" ++ m2)
    with ((PageTime.two_digits s ++ ":" ++ m1)
          ++ String "-" (PageTime.two_digits e ++ ":" ++ m2))
    by (rewrite !string_app_assoc; reflexivity).
  rewrite (split_char_second _ _ _ Hfree).
  cbn [nth]. rewrite !split_char_first, He3, He2, Hs2, Hs4, He4.
  rewrite includes_char_append. cbn [Js.includes Js.startsWith Ascii.eqb Bool.eqb].
  rewrite string_app_assoc.
  replace (Js.truthy _) with true; [|symmetry].
  - replace (Js.startsWith (PageTime.two_digits e ++ ":" ++ m2) EmptyString)
      with true by (destruct (PageTime.two_digits e ++ ":" ++ m2); reflexivity).
    cbn [andb orb]. rewrite orb_true_r.
    cbn [Js.isNaN negb andb Js.lt Js.same Js.numberToString Js.minus Js.plus].
    assert (B : 2 ^ 53 = 9007199254740992) by reflexivity.
    rewrite !toNumber_safe by lia. reflexivity.
  - apply (proj2 (proj2 (proj2 (proj2 (two_digits_spec s _ Hs))))).
Qed.

Lemma hours_table :
  forallb
    (fun s =>
       forallb
         (fun e =>
            negb (s <? e)
            || bool_decide
                 (Timetable.parseTimeRange
                    (Timetable.attendanceTime (PageTime.text s "00" e "00"))
                  = (Js.Finite (60 * s),
                     Js.Finite (60 * (if s =? 12 then e + 12 else e)))))
         (map Z.of_nat (seq 0 24)))
    (map Z.of_nat (seq 0 24))
  = true.
Proof. vm_compute. reflexivity. Qed.

(** X16.  A class that the page gives as "HH:MM-HH:MM", from the hour [s]
    to a later hour [e] of the same day, is kept by the hour only: the
    minutes do not change the attendance time that [parseTimetableHTML]
    writes.  [parseTimeRange] reads that attendance time back as the
    minutes of the day [60 * s] and [60 * e], except for a class that
    starts at noon, whose end it puts twelve hours late, at
    [60 * (e + 12)]. *)
Theorem class_hours_survive_the_conversion :
  forall (s e : Z) (m1 m2 : string),
    0 <= s -> s < e -> e <= 23 ->
    Js.includes m1 "-" = false ->
    Timetable.attendanceTime (PageTime.text s m1 e m2)
    = Timetable.attendanceTime (PageTime.text s "00" e "00")
    /\ Timetable.parseTimeRange
         (Timetable.attendanceTime (PageTime.text s m1 e m2))
       = (Js.Finite (60 * s),
          Js.Finite (60 * (if s =? 12 then e + 12 else e))).
Proof.
  intros s e m1 m2 Hs Hse He Hm.
  assert (E : Timetable.attendanceTime (PageTime.text s m1 e m2)
              = Timetable.attendanceTime (PageTime.text s "00" e "00")).
  { rewrite !attendanceTime_text by (try lia; auto). reflexivity. }
  split; [exact E|]. rewrite E.
  pose proof hours_table as T.
  rewrite forallb_forall in T.
  assert (In_hours : forall n, 0 <= n <= 23 -> In n (map Z.of_nat (seq 0 24))).
  { intros n Hn. replace n with (Z.of_nat (Z.to_nat n)) by lia.
    apply in_map, in_seq. lia. }
  specialize (T s (In_hours s ltac:(lia))).
  rewrite forallb_forall in T.
  specialize (T e (In_hours e ltac:(lia))).
  apply orb_true_iff in T as [T|T].
  - apply negb_true_iff, Z.ltb_ge in T. lia.
  - apply bool_decide_eq_true in T. exact T.
Qed.

Lemma class_hours_survive_the_conversion_witness :
  Timetable.attendanceTime (PageTime.text 14 "30" 16 "45") = "2-4 PM"
  /\ Timetable.parseTimeRange
       (Timetable.attendanceTime (PageTime.text 14 "30" 16 "45"))
     = (Js.Finite 840, Js.Finite 960).
Proof.
  assert (H1 : 0 <= 14) by lia.
  assert (H2 : 14 < 16) by lia.
  assert (H3 : 16 <= 23) by lia.
  assert (H4 : Js.includes "30" "-" = false) by reflexivity.
  pose proof (class_hours_survive_the_conversion 14 16 "30" "45" H1 H2 H3 H4)
    as [Ha Hb].
  split; [rewrite Ha; reflexivity|exact Hb].
Defined.


(** The pieces of [s.split(c)] do not contain [c]. *)
Lemma split_char_pieces c s p :
  In p (Js.split_char c s) ->
  Js.includes p (String c EmptyString) = false.
Proof.
  revert p. induction s as [|a s IH]; intros p Hp.
  - destruct Hp as [<-|[]]. reflexivity.
  - cbn [Js.split_char] in Hp. destruct (Ascii.eqb a c) eqn:E.
    + destruct Hp as [<-|Hp]; [reflexivity|auto].
    + destruct (Js.split_char c s) as [|h t]; cbn [Js.cons_head] in Hp.
      * destruct Hp as [<-|[]]. cbn [Js.includes Js.startsWith].
        rewrite Ascii.eqb_sym, E. reflexivity.
      * destruct Hp as [<-|Hp]; [|apply IH; right; exact Hp].
        cbn [Js.includes Js.startsWith]. rewrite Ascii.eqb_sym, E.
        cbn [andb orb]. apply IH. left. reflexivity.
Qed.

Lemma includes_trimStart s c :
  Js.includes s (String c EmptyString) = false ->
  Js.includes (Js.trimStart s) (String c EmptyString) = false.
Proof.
  induction s as [|a s IH]; intros H; [exact H|].
  cbn [Js.trimStart]. destruct (Js.isSpace a); [|exact H].
  apply IH. cbn [Js.includes Js.startsWith] in H.
  apply orb_false_iff in H. tauto.
Qed.

Lemma digit_nonneg radix a d : Js.digit radix a = Some d -> 0 <= d.
Proof.
  unfold Js.digit.
  repeat match goal with
         | |- context [if ?b then _ else _] => destruct b eqn:?
         end; intros H; inversion H; subst; lia.
Qed.

Lemma digits_nonneg radix acc s v :
  0 <= radix ->
  (forall n, acc = Some n -> 0 <= n) ->
  Js.digits radix acc s = Some v -> 0 <= v.
Proof.
  intros Hr. revert acc. induction s as [|a s IH]; intros acc Hacc H.
  - apply Hacc, H.
  - cbn [Js.digits] in H. destruct (Js.digit radix a) as [d|] eqn:D.
    + apply digit_nonneg in D. eapply IH; [|exact H].
      intros n Hn. inversion Hn; subst.
      destruct acc as [m|]; [specialize (Hacc m eq_refl)|]; nia.
    + apply Hacc, H.
Qed.

(** Rounding keeps an integer that is not negative so. *)
Lemma toNumber_nonneg n v : 0 <= n -> Js.toNumber n = Js.Finite v -> 0 <= v.
Proof.
  intros Hn. unfold Js.toNumber.
  destruct (2 ^ 1024 <=? Z.abs (Js.roundToDouble n)); [discriminate|].
  intros H. injection H as <-. unfold Js.roundToDouble.
  destruct (Z.abs n <? 2 ^ 53); [exact Hn|].
  assert (Q : 0 <= Z.abs n / 2 ^ (Z.log2 (Z.abs n) - 52)).
  { apply Z_div_nonneg_nonneg; [lia|]. apply Z.pow_nonneg. lia. }
  assert (P : 0 <= 2 ^ (Z.log2 (Z.abs n) - 52)) by (apply Z.pow_nonneg; lia).
  apply Z.mul_nonneg_nonneg; [lia|].
  apply Z.mul_nonneg_nonneg; [|exact P].
  repeat match goal with
         | |- context [if ?b then _ else _] => destruct b
         end; lia.
Qed.

(** A Number below 2^53 in absolute value is the rounding of itself
    only. *)
Lemma toNumber_exact n v :
  Js.toNumber n = Js.Finite v -> Z.abs v < 2 ^ 53 -> n = v.
Proof.
  unfold Js.toNumber.
  destruct (2 ^ 1024 <=? Z.abs (Js.roundToDouble n)); [discriminate|].
  intros H. injection H as <-. unfold Js.roundToDouble.
  destruct (Z.ltb_spec (Z.abs n) (2 ^ 53)) as [|Hbig]; [reflexivity|].
  intros Hv. exfalso.
  set (e := Z.log2 (Z.abs n) - 52) in *.
  assert (Hpos : 0 < Z.abs n) by (assert (0 < 2 ^ 53) by reflexivity; lia).
  pose proof (Z.log2_spec (Z.abs n) Hpos) as [Hlo _].
  assert (Hlog : 53 <= Z.log2 (Z.abs n)).
  { apply Z.log2_le_pow2; [exact Hpos|exact Hbig]. }
  assert (He : 1 <= e) by (unfold e; lia).
  assert (Hpow : 2 ^ Z.log2 (Z.abs n) = 2 ^ 52 * 2 ^ e).
  { rewrite <- Z.pow_add_r by lia. f_equal. unfold e. lia. }
  assert (Hpe : 2 <= 2 ^ e).
  { change 2 with (2 ^ 1) at 1. apply Z.pow_le_mono_r; lia. }
  assert (Hq : 2 ^ 52 <= Z.abs n / 2 ^ e).
  { apply Z.div_le_lower_bound; [lia|]. rewrite Z.mul_comm, <- Hpow. exact Hlo. }
  assert (Hq' : 2 ^ 52
                <= (if Z.abs n mod 2 ^ e <? 2 ^ (e - 1) then Z.abs n / 2 ^ e
                    else if 2 ^ (e - 1) <? Z.abs n mod 2 ^ e
                         then Z.abs n / 2 ^ e + 1
                         else if Z.even (Z.abs n / 2 ^ e) then Z.abs n / 2 ^ e
                              else Z.abs n / 2 ^ e + 1)).
  { repeat match goal with
           | |- context [if ?b then _ else _] => destruct b
           end; lia. }
  revert Hv Hq'.
  generalize (if Z.abs n mod 2 ^ e <? 2 ^ (e - 1) then Z.abs n / 2 ^ e
              else if 2 ^ (e - 1) <? Z.abs n mod 2 ^ e
                   then Z.abs n / 2 ^ e + 1
                   else if Z.even (Z.abs n / 2 ^ e) then Z.abs n / 2 ^ e
                        else Z.abs n / 2 ^ e + 1).
  intros q' Hv Hq'.
  assert (Hprod : 2 ^ 53 <= q' * 2 ^ e).
  { change (2 ^ 53) with (2 ^ 52 * 2). change (2 ^ 52) with 4503599627370496 in *.
    nia. }
  assert (Hs : Z.sgn n = 1 \/ Z.sgn n = -1) by lia.
  destruct Hs as [Hs|Hs]; rewrite Hs in Hv; lia.
Qed.

(** [parseInt] of a text without [-] is not negative. *)
Lemma parseInt_nonneg s v :
  Js.includes s "-" = false -> Js.parseInt s = Js.Finite v -> 0 <= v.
Proof.
  intros Hfree. apply (includes_trimStart s "-") in Hfree.
  unfold Js.parseInt.
  destruct (Js.trimStart s) as [|a r] eqn:T.
  - discriminate.
  - cbn [Js.includes Js.startsWith] in Hfree.
    apply orb_false_iff in Hfree as [Ha _].
    replace (Js.startsWith r EmptyString) with true in Ha
      by (destruct r; reflexivity).
    rewrite andb_true_r, Ascii.eqb_sym in Ha. rewrite Ha.
    assert (G : forall radix t,
               0 <= radix ->
               match Js.digits radix None t with
               | Some m => Js.toNumber (1 * m)
               | None => Js.NaN
               end = Js.Finite v ->
               0 <= v).
    { intros radix t Hr H.
      destruct (Js.digits radix None t) as [n|] eqn:D; [|discriminate].
      apply digits_nonneg in D; [|exact Hr|discriminate].
      apply (toNumber_nonneg (1 * n)); [lia|exact H]. }
    destruct (Ascii.eqb a "+");
      match goal with
      | |- context [if ?b then _ else _] => destruct b
      end; apply G; lia.
Qed.

(** The hours that [parseTimeRange] reads are not negative. *)
Lemma parsed_hour_nonneg timeRange i v :
  nth i (map Js.parseInt (Js.split_char "-" timeRange)) Js.NaN = Js.Finite v ->
  0 <= v.
Proof.
  intros H.
  destruct (nth_in_or_default i
              (map Js.parseInt (Js.split_char "-" timeRange)) Js.NaN)
    as [Hin|Hd]; [|congruence].
  rewrite H in Hin. apply in_map_iff in Hin as (p & Hp & Hin).
  apply (parseInt_nonneg p); [|exact Hp].
  apply (split_char_pieces _ _ _ Hin).
Qed.

Ltac number_cases :=
  repeat (cbn [Js.times Js.plus Js.le Js.lt Js.same negb];
          match goal with
          | |- context [Js.toNumber ?n] =>
              let a := fresh "a" in
              let E := fresh "E" in
              destruct (Js.toNumber n) as [| |a] eqn:E
          | |- context [if ?b then _ else _] =>
              let B := fresh "B" in
              destruct b eqn:B
          end);
  cbn [Js.times Js.plus Js.le Js.lt Js.same negb].

Ltac exact_numbers :=
  cbn [Js.le Js.lt Js.same] in *;
  rewrite ?negb_true_iff, ?negb_false_iff in *;
  repeat match goal with
         | H : Js.toNumber ?n = Js.Finite ?v |- _ =>
             apply toNumber_exact in H; [|lia]
         | H : (_ <=? _) = true |- _ => apply Z.leb_le in H
         | H : (_ <=? _) = false |- _ => apply Z.leb_gt in H
         | H : (_ <? _) = true |- _ => apply Z.ltb_lt in H
         | H : (_ <? _) = false |- _ => apply Z.ltb_ge in H
         | H : (_ =? _) = true |- _ => apply Z.eqb_eq in H
         | H : (_ =? _) = false |- _ => apply Z.eqb_neq in H
         end.

(** X17.  For an ASCII text, when [parseTimeRange] gives two numbers below
    2^53 in absolute value, they are whole hours in minutes and not
    negative.  For a "PM" text the start is then at noon or later and the
    end is after the start; for an "AM" text that starts before noon the
    end is not before the start. *)
Theorem parsed_time_range_is_ordered :
  forall (timeStr : string) (s e : Z),
    Js.isAscii timeStr = true ->
    Timetable.parseTimeRange timeStr = (Js.Finite s, Js.Finite e) ->
    Z.abs s < 2 ^ 53 -> Z.abs e < 2 ^ 53 ->
    0 <= s /\ 0 <= e /\ s mod 60 = 0 /\ e mod 60 = 0
    /\ (nth_error (Js.split_char " " timeStr) 1 = Some "PM" ->
        720 <= s < e)
    /\ (nth_error (Js.split_char " " timeStr) 1 = Some "AM" ->
        s < 720 -> s <= e).
Proof.
  intros timeStr s e _. unfold Timetable.parseTimeRange.
  set (timeRange := nth 0 (Js.split_char " " timeStr) EmptyString).
  pose proof (parsed_hour_nonneg timeRange 0) as Hs.
  pose proof (parsed_hour_nonneg timeRange 1) as He.
  change (2 ^ 53) with 9007199254740992.
  destruct (nth 0 (map Js.parseInt (Js.split_char "-" timeRange)) Js.NaN)
    as [| |sh];
    destruct (nth 1 (map Js.parseInt (Js.split_char "-" timeRange)) Js.NaN)
      as [| |eh];
    try specialize (Hs _ eq_refl); try specialize (He _ eq_refl);
    (destruct (nth_error (Js.split_char " " timeStr) 1) as [p|];
     [destruct (String.eqb_spec p "PM") as [->|Hpm];
      [|destruct (String.eqb_spec p "AM") as [->|Ham]]|]);
    number_cases; intros Hres; try discriminate;
    injection Hres as -> ->; intros Hbs Hbe;
    change (2 ^ 53) with 9007199254740992 in *;
    exact_numbers; subst;
    (repeat split; intros; try lia; try congruence;
     try (rewrite Z.mod_mul by lia; reflexivity)).
Qed.

Lemma parsed_time_range_is_ordered_witness :
  Js.isAscii "01-02 PM" = true
  /\ Timetable.parseTimeRange "01-02 PM" = (Js.Finite 780, Js.Finite 840)
  /\ Z.abs 780 < 2 ^ 53 /\ Z.abs 840 < 2 ^ 53
  /\ 720 <= 780 < 840.
Proof.
  assert (A : Js.isAscii "01-02 PM" = true) by reflexivity.
  assert (H : Timetable.parseTimeRange "01-02 PM"
              = (Js.Finite 780, Js.Finite 840)) by reflexivity.
  assert (B1 : Z.abs 780 < 2 ^ 53) by reflexivity.
  assert (B2 : Z.abs 840 < 2 ^ 53) by reflexivity.
  exact (conj A (conj H (conj B1 (conj B2
    (proj1 (proj2 (proj2 (proj2 (proj2
       (parsed_time_range_is_ordered "01-02 PM" 780 840 A H B1 B2)))))
       eq_refl))))).
Defined.

(** Beyond 2^53 the ordering is lost: a start of 2^53 hours and the end
    one hour later are the same Number. *)
Example parsed_time_range_rounds :
  Timetable.parseTimeRange "9007199254740992-1 PM"
  = (Js.Finite 540431955284460224, Js.Finite 540431955284460224).
Proof. reflexivity. Qed.


(** ** timetable.js: fetching the timetable *)

(** [authenticateWithUMS] does not throw. *)
Lemma authenticate_no_throw CONFIG remote fuel this forceRefresh w e w' :
  Auth.authenticateWithUMS CONFIG remote fuel this forceRefresh w
  <> (Eff.Throw e, w').
Proof.
  unfold Auth.authenticateWithUMS, Eff.try_catch.
  destruct (negb forceRefresh && Js.truthy_opt (Auth.sessionCookies this));
    [discriminate|].
  assert (G : forall w1,
             (let! this' := Auth.clearSessionData this in Eff.ret (@None string, this')) w1
             <> (Eff.Throw e, w')).
  { intros w1. destruct (authenticate_handler this w1) as (w2 & E & _).
    rewrite E. discriminate. }
  unfold Eff.bind at 1.
  destruct (Auth.newAutomationRun CONFIG remote fuel w)
    as [[[result automation]|e0|] w1]; [|apply G|discriminate].
  cbn [fst].
  destruct (Login.success result && Js.truthy_opt (Login.result_cookies result)).
  - unfold Eff.bind at 1.
    rewrite (saveSessionData_spec (Login.cfg_username CONFIG)
               (Auth.set_sessionCookies this (Login.result_cookies result)) w1).
    discriminate.
  - cbn [Eff.throw]. apply G.
Qed.


Section FetchFacts.

Variable Row : Type.
Variable parseTimetableHTML : string -> list Row.
Variable CONFIG : Login.Config.
Variable portal : Timetable.Portal.
Variable fuel : nat.

Local Abbreviation valid s := (Auth.hasValidSession (Timetable.authManager s)).

Local Abbreviation cookies_sent l :=
  (forall c, In (Timetable.PostTimetable c) l%list -> Js.truthy_opt c = true).

Local Abbreviation fetch :=
  (Timetable.fetchFreshTimetableData Row parseTimetableHTML CONFIG portal fuel).

(** How a fetch that made the calls [l] from the state [s] can end. *)
Local Abbreviation ends s l o s' :=
  (Timetable.calls s' = (Timetable.calls s ++ l)%list
   /\ cookies_sent l
   /\ match o with
      | Eff.Ret rows =>
          valid s' = true
          /\ exists l0 c html,
               l%list = (l0 ++ [Timetable.PostTimetable c])%list
               /\ Timetable.GetTimeTable portal (Timetable.calls s ++ l0)%list
                  = Timetable.Response (Some html)
               /\ html <> EmptyString
               /\ rows = parseTimetableHTML html
      | Eff.Throw m =>
          (valid s' = false
           /\ (m = "Authentication failed" \/ m = "Re-authentication failed"
               \/ m = "Session expired - empty timetable data"))
          \/ (exists history status message,
                Timetable.GetTimeTable portal history
                = Timetable.Rejected status message
                /\ (m = "Request failed: " ++ message
                    \/ m = "Re-authentication retry failed after 2 attempts: "
                           ++ message))
      | Eff.Hang => True
      end).

Lemma authenticate_step forceRefresh s :
  exists o s',
    Timetable.authenticateWithUMS CONFIG portal fuel forceRefresh s = (o, s')
    /\ Timetable.calls s'
       = (Timetable.calls s ++ [Timetable.Authenticate forceRefresh])%list
    /\ match o with
       | Eff.Ret c => valid s' = Js.truthy_opt c
       | Eff.Throw _ => False
       | Eff.Hang => True
       end.
Proof.
  unfold Timetable.authenticateWithUMS, Timetable.onManager.
  destruct (Auth.authenticateWithUMS CONFIG
              (Timetable.login portal (Timetable.calls s)) fuel
              (Timetable.authManager s) forceRefresh (Timetable.world s))
    as [[[c this']|e|] w'] eqn:E.
  - eexists _, _. split; [reflexivity|]. split; [reflexivity|].
    cbn [Timetable.authManager]. unfold Auth.hasValidSession.
    destruct (authenticate_returns _ _ _ _ _ _ _ _ _ E)
      as [(-> & -> & _)|(Ht & Hs & _)].
    + reflexivity.
    + rewrite Hs. reflexivity.
  - exfalso. exact (authenticate_no_throw _ _ _ _ _ _ _ _ E).
  - eexists _, _. split; [reflexivity|]. split; [reflexivity|exact I].
Qed.

Lemma clear_step s :
  exists s',
    Timetable.clearSessionData s = (Eff.Ret tt, s')
    /\ Timetable.calls s' = Timetable.calls s
    /\ valid s' = false
    /\ Eff.files (Timetable.world s')
       = delete (Auth.SESSION_FILE (Timetable.authManager s))
           (Eff.files (Timetable.world s))
    /\ Eff.trace (Timetable.world s') = Eff.trace (Timetable.world s).
Proof.
  unfold Timetable.clearSessionData, Timetable.onManager.
  destruct (clearSessionData_spec (Timetable.authManager s) (Timetable.world s))
    as (w' & E & Hf & _ & Ht).
  unfold Eff.bind. rewrite E. cbn [Eff.ret].
  eexists. split; [reflexivity|]. cbn [Timetable.calls Timetable.authManager
                                       Timetable.world].
  rewrite app_nil_r. auto.
Qed.

Lemma ensure_cases s :
  (valid s = true
   /\ Timetable.ensureSession CONFIG portal fuel s = (Eff.Ret tt, s))
  \/ (valid s = false
      /\ exists o s',
           Timetable.ensureSession CONFIG portal fuel s = (o, s')
           /\ Timetable.calls s'
              = (Timetable.calls s ++ [Timetable.Authenticate false])%list
           /\ match o with
              | Eff.Ret _ => valid s' = true
              | Eff.Throw m => m = "Authentication failed" /\ valid s' = false
              | Eff.Hang => True
              end).
Proof.
  unfold Timetable.ensureSession, Timetable.bind at 1, Timetable.hasValidSession.
  destruct (valid s) eqn:V; [left; auto|right]. split; [reflexivity|].
  unfold Timetable.bind. rewrite ?V. cbn [negb].
  destruct (authenticate_step false s) as (o & s' & E & Hc & Ho).
  rewrite E. destruct o as [c|e|]; [|contradiction|].
  - destruct (Js.truthy_opt c) eqn:T; cbn [negb].
    + eexists _, _. split; [reflexivity|]. split; [exact Hc|]. congruence.
    + eexists _, _. split; [reflexivity|]. split; [exact Hc|].
      split; [reflexivity|congruence].
  - eexists _, _. split; [reflexivity|]. split; [exact Hc|exact I].
Qed.

Lemma read_cases d s :
  (exists html,
     d = Some html /\ html <> EmptyString
     /\ Timetable.readResponse Row parseTimetableHTML d s
        = (Eff.Ret (parseTimetableHTML html), s))
  \/ (Js.truthy_opt d = false
      /\ exists s',
           Timetable.readResponse Row parseTimetableHTML d s
           = (Eff.Throw "Session expired - empty timetable data", s')
           /\ Timetable.calls s' = Timetable.calls s
           /\ valid s' = false
           /\ Eff.files (Timetable.world s')
              = delete (Auth.SESSION_FILE (Timetable.authManager s))
                  (Eff.files (Timetable.world s))
           /\ Eff.trace (Timetable.world s') = Eff.trace (Timetable.world s)).
Proof.
  unfold Timetable.readResponse.
  destruct (Js.truthy_opt d) eqn:T; cbn [negb].
  - left. destruct d as [html|]; [|discriminate]. exists html.
    split; [reflexivity|]. split; [|reflexivity].
    apply truthy_nonempty. exact T.
  - right. split; [reflexivity|].
    destruct (clear_step s) as (s' & E & Hc & Hv & Hf & Ht).
    exists s'. unfold Timetable.bind. rewrite E. auto.
Qed.

Lemma ends_after s s1 l1 l (o : Eff.outcome (list Row)) s' :
  Timetable.calls s1 = (Timetable.calls s ++ l1)%list ->
  cookies_sent l1 ->
  ends s1 l o s' ->
  ends s (l1 ++ l)%list o s'.
Proof.
  intros H1 Hc1 (Hc & Hs & Ho). split; [|split].
  - rewrite Hc, H1, app_assoc. reflexivity.
  - intros c Hin. apply in_app_or in Hin as [Hin|Hin]; auto.
  - destruct o as [rows|m|]; [|exact Ho|exact I].
    destruct Ho as (Hv & l0 & c & html & -> & Hg & Hne & Hr).
    split; [exact Hv|]. exists (l1 ++ l0)%list, c, html.
    rewrite !app_assoc. rewrite H1 in Hg. auto.
Qed.

Lemma post_step s :
  Timetable.post portal s
  = (Eff.Ret (Timetable.GetTimeTable portal (Timetable.calls s)),
     {| Timetable.authManager := Timetable.authManager s;
        Timetable.world := Timetable.world s;
        Timetable.calls :=
          (Timetable.calls s
           ++ [Timetable.PostTimetable
                 (Auth.sessionCookies (Timetable.authManager s))])%list |}).
Proof. reflexivity. Qed.

(** What comes after a request that was sent from [s], with a session,
    and got the response [d]. *)
Lemma read_ends d s :
  valid s = true ->
  Timetable.GetTimeTable portal (Timetable.calls s) = Timetable.Response d ->
  let r :=
    Timetable.readResponse Row parseTimetableHTML d
      {| Timetable.authManager := Timetable.authManager s;
         Timetable.world := Timetable.world s;
         Timetable.calls :=
           (Timetable.calls s
            ++ [Timetable.PostTimetable
                  (Auth.sessionCookies (Timetable.authManager s))])%list |} in
  ends s [Timetable.PostTimetable (Auth.sessionCookies (Timetable.authManager s))]
       (fst r) (snd r).
Proof.
  intros Hv Hg r. subst r.
  match goal with
  | |- context [Timetable.readResponse _ _ _ ?s3] =>
      destruct (read_cases d s3)
        as [(html & -> & Hne & R)|(Tf & s4 & R & Hc4 & Hv4 & _)]
  end; rewrite R; cbn [fst snd].
  - split; [reflexivity|]. split.
    + intros c [Hc|[]]. inversion Hc; subst. exact Hv.
    + split; [exact Hv|]. eexists [], _, html. rewrite app_nil_r. auto.
  - split; [exact Hc4|]. split.
    + intros c [Hc|[]]. inversion Hc; subst. exact Hv.
    + left. auto.
Qed.

Lemma retry_cases self retryCount s o s' :
  Timetable.retry Row parseTimetableHTML CONFIG portal fuel self retryCount s
  = (o, s') ->
  (exists l,
     ends s l o s'
     /\ (Timetable.posts l <= 1)%nat /\ Timetable.authentications l = 1%nat)
  \/ (retryCount + 1 < 2
      /\ exists s1 l1,
           Timetable.calls s1 = (Timetable.calls s ++ l1)%list
           /\ cookies_sent l1
           /\ Timetable.posts l1 = 1%nat /\ Timetable.authentications l1 = 1%nat
           /\ valid s1 = true
           /\ self (retryCount + 1) s1 = (o, s')).
Proof.
  unfold Timetable.retry, Timetable.bind.
  destruct (clear_step s) as (s1 & E1 & Hc1 & _). rewrite E1.
  destruct (authenticate_step true s1) as (o2 & s2 & E2 & Hc2 & Ho2).
  rewrite E2. rewrite Hc1 in Hc2.
  destruct o2 as [c|e|]; [|contradiction|].
  - destruct (Js.truthy_opt c) eqn:T; cbn [negb].
    + rewrite post_step.
      destruct (Timetable.GetTimeTable portal (Timetable.calls s2))
        as [d|status message] eqn:G.
      * intros R. left.
        exists ([Timetable.Authenticate true]
                ++ [Timetable.PostTimetable
                      (Auth.sessionCookies (Timetable.authManager s2))])%list.
        split; [|split; [unfold Timetable.posts; simpl; lia|reflexivity]].
        apply (ends_after s s2); [exact Hc2|intros c0 [Hc0|[]]; discriminate|].
        pose proof (read_ends d s2 Ho2 G) as Hr. cbv zeta in Hr.
        rewrite R in Hr. exact Hr.
      * destruct (retryCount + 1 <? Timetable.MAX_RETRIES) eqn:L.
        -- intros R. right. apply Z.ltb_lt in L. split; [exact L|].
           eexists _, [Timetable.Authenticate true; Timetable.PostTimetable _].
           split; [|split; [|split; [|split; [|split; [|exact R]]]]].
           ++ cbn [Timetable.calls]. rewrite Hc2, <- app_assoc. reflexivity.
           ++ intros c0 [Hc0|[Hc0|[]]]; [discriminate|].
              inversion Hc0; subst. exact Ho2.
           ++ reflexivity.
           ++ reflexivity.
           ++ exact Ho2.
        -- intros R. inversion R; subst. left.
           exists [Timetable.Authenticate true;
                   Timetable.PostTimetable
                     (Auth.sessionCookies (Timetable.authManager s2))].
           split; [|split; [unfold Timetable.posts; simpl; lia|reflexivity]]. split; [|split].
           ++ cbn [Timetable.calls]. rewrite Hc2, <- app_assoc. reflexivity.
           ++ intros c0 [Hc0|[Hc0|[]]]; [discriminate|].
              inversion Hc0; subst. exact Ho2.
           ++ right. exists (Timetable.calls s2), status, message. auto.
    + intros R. inversion R; subst. left.
      exists [Timetable.Authenticate true]. split; [|split; [unfold Timetable.posts; simpl; lia|reflexivity]].
      split; [exact Hc2|]. split.
      * intros c0 [Hc0|[]]. discriminate.
      * left. split; [congruence|auto].
  - intros R. inversion R; subst. left.
    exists [Timetable.Authenticate true]. split; [|split; [unfold Timetable.posts; simpl; lia|reflexivity]].
    split; [exact Hc2|]. split; [|exact I].
    intros c0 [Hc0|[]]. discriminate.
Qed.

Lemma posts_app l1 l2 :
  Timetable.posts (l1 ++ l2) = (Timetable.posts l1 + Timetable.posts l2)%nat.
Proof. unfold Timetable.posts. rewrite filter_app, length_app. reflexivity. Qed.

Lemma authentications_app l1 l2 :
  Timetable.authentications (l1 ++ l2)
  = (Timetable.authentications l1 + Timetable.authentications l2)%nat.
Proof.
  unfold Timetable.authentications. rewrite filter_app, length_app. reflexivity.
Qed.

Ltac count_calls :=
  unfold Timetable.posts, Timetable.authentications in *; simpl in *; lia.

Lemma attempt_cases self retryCount s o s' :
  Timetable.attempt Row parseTimetableHTML CONFIG portal fuel self retryCount s
  = (o, s') ->
  (exists l,
     ends s l o s'
     /\ (Timetable.posts l <= 2)%nat
     /\ (Timetable.authentications l <= if valid s then 1 else 2)%nat)
  \/ (retryCount + 1 < 2
      /\ exists s1 l1,
           Timetable.calls s1 = (Timetable.calls s ++ l1)%list
           /\ cookies_sent l1
           /\ Timetable.posts l1 = 2%nat
           /\ (Timetable.authentications l1 <= if valid s then 1 else 2)%nat
           /\ valid s1 = true
           /\ self (retryCount + 1) s1 = (o, s')).
Proof.
  unfold Timetable.attempt. unfold Timetable.bind at 1.
  assert (Hens :
            (exists la s1,
               Timetable.ensureSession CONFIG portal fuel s = (Eff.Ret tt, s1)
               /\ Timetable.calls s1 = (Timetable.calls s ++ la)%list
               /\ valid s1 = true
               /\ (la = [] /\ valid s = true
                   \/ la = [Timetable.Authenticate false] /\ valid s = false))
            \/ (exists o1 s1,
                  Timetable.ensureSession CONFIG portal fuel s = (o1, s1)
                  /\ valid s = false
                  /\ Timetable.calls s1
                     = (Timetable.calls s ++ [Timetable.Authenticate false])%list
                  /\ match o1 with
                     | Eff.Ret _ => False
                     | Eff.Throw m => m = "Authentication failed" /\ valid s1 = false
                     | Eff.Hang => True
                     end)).
  { destruct (ensure_cases s) as [(V & E)|(V & o1 & s1 & E & Hc & Ho)].
    - left. exists [], s. rewrite app_nil_r. auto 10.
    - destruct o1 as [[]|m|].
      + left. exists [Timetable.Authenticate false], s1. auto 10.
      + right. exists (Eff.Throw m), s1. auto.
      + right. exists Eff.Hang, s1. auto. }
  destruct Hens as [(la & s1 & E & Hc & V1 & Hla)|(o1 & s1 & E & V & Hc & Ho)];
    rewrite E.
  - assert (Hsent : cookies_sent la).
    { intros c Hin. destruct Hla as [(-> & _)|(-> & _)];
        [destruct Hin|destruct Hin as [Hin|[]]; discriminate]. }
    assert (Hp : Timetable.posts la = 0%nat)
      by (destruct Hla as [(-> & _)|(-> & _)]; reflexivity).
    assert (Ha : (Timetable.authentications la + 1
                  <= if valid s then 1 else 2)%nat)
      by (destruct Hla as [(-> & ->)|(-> & ->)]; count_calls).
    unfold Timetable.bind at 1. rewrite post_step.
    set (sent := Timetable.PostTimetable
                   (Auth.sessionCookies (Timetable.authManager s1))).
    assert (Hsent1 : cookies_sent (la ++ [sent])).
    { intros c Hin. apply in_app_or in Hin as [Hin|[Hin|[]]]; [auto|].
      inversion Hin; subst. exact V1. }
    destruct (Timetable.GetTimeTable portal (Timetable.calls s1))
      as [d|status message] eqn:G.
    + intros R. left. exists (la ++ [sent])%list.
      split; [|rewrite posts_app, authentications_app; count_calls].
      apply (ends_after s s1); [exact Hc|exact Hsent|].
      pose proof (read_ends d s1 V1 G) as Hr. cbv zeta in Hr.
      fold sent in Hr. rewrite R in Hr. exact Hr.
    + destruct (match status with
                | Some st => 400 <=? st
                | None => false
                end && (retryCount <? Timetable.MAX_RETRIES)).
      * intros R. apply retry_cases in R
          as [(l & He & Hpl & Hal)|(L & s2 & l1 & Hc2 & Hs2 & Hp2 & Ha2 & V2 & R)].
        -- left. exists ((la ++ [sent]) ++ l)%list.
           split; [|rewrite !posts_app, !authentications_app; count_calls].
           eapply ends_after; [|exact Hsent1|exact He].
           cbn [Timetable.calls]. rewrite Hc, app_assoc. reflexivity.
        -- right. split; [exact L|]. exists s2, ((la ++ [sent]) ++ l1)%list.
           split; [|split; [|split; [|split; [|split; [exact V2|exact R]]]]].
           ++ rewrite Hc2. cbn [Timetable.calls].
              rewrite Hc, !app_assoc. reflexivity.
           ++ intros c Hin. apply in_app_or in Hin as [Hin|Hin]; auto.
           ++ rewrite !posts_app. count_calls.
           ++ rewrite !authentications_app. count_calls.
      * intros R. inversion R; subst. left. exists (la ++ [sent])%list.
        split; [|rewrite posts_app, authentications_app; count_calls].
        split; [|split; [exact Hsent1|]].
        -- cbn [Timetable.calls]. rewrite Hc, app_assoc. reflexivity.
        -- right. exists (Timetable.calls s1), status, message. auto.
  - rewrite V. destruct o1 as [[]|m|]; [contradiction| |]; intros R;
      inversion R; subst; left; exists [Timetable.Authenticate false];
      (split; [|split; [unfold Timetable.posts; simpl; lia
                       |unfold Timetable.authentications; simpl; lia]]);
      (split; [exact Hc|]); (split; [intros c [Hin|[]]; discriminate|]).
    + left. destruct Ho as [-> Hv]. auto.
    + exact I.
Qed.

(** If every call of [self] ends as a fetch can, so does the [try]
    block. *)
Lemma attempt_ends self :
  (forall retryCount s,
     exists l, ends s l (fst (self retryCount s)) (snd (self retryCount s))) ->
  forall retryCount s o s',
    Timetable.attempt Row parseTimetableHTML CONFIG portal fuel self retryCount s
    = (o, s') ->
    exists l, ends s l o s'.
Proof.
  intros Hself retryCount s o s' A.
  apply attempt_cases in A
    as [(l & He & _)|(_ & s1 & l1 & Hc & Hs & _ & _ & _ & R)].
  - exists l. exact He.
  - destruct (Hself (retryCount + 1) s1) as (l & He). rewrite R in He.
    exists (l1 ++ l)%list. apply (ends_after s s1); assumption.
Qed.

Lemma fetch_ends depth :
  forall retryCount s,
    exists l,
      ends s l (fst (fetch depth retryCount s)) (snd (fetch depth retryCount s)).
Proof.
  induction depth as [|depth IH]; intros retryCount s.
  - exists []. cbn. rewrite app_nil_r. split; [reflexivity|].
    split; [intros c []|exact I].
  - destruct (fetch (S depth) retryCount s) as [o s'] eqn:F. cbn [fst snd].
    revert F. cbn [Timetable.fetchFreshTimetableData].
    unfold Timetable.try_catch.
    destruct (Timetable.attempt Row parseTimetableHTML CONFIG portal fuel
                (fetch depth) retryCount s) as [o1 s1] eqn:A.
    destruct (attempt_ends _ IH _ _ _ _ A) as (l & He).
    destruct o1 as [rows|m|];
      [intros F; inversion F; subst; exists l; exact He|
      |intros F; inversion F; subst; exists l; exact He].
    unfold Timetable.recover, Timetable.bind at 1, Timetable.hasValidSession.
    destruct (Js.includes m "Session expired" && valid s1).
    + unfold Timetable.bind. destruct (clear_step s1) as (s2 & E & Hc & _).
      rewrite E. intros F. destruct (IH 0 s2) as (l2 & He2).
      rewrite F in He2. cbn [fst snd] in He2.
      exists (l ++ l2)%list. apply (ends_after s s2); [|apply He|exact He2].
      rewrite Hc. apply He.
    + intros F. inversion F; subst. exists l. exact He.
Qed.





(** A fetch without a session and without credentials. *)
Lemma fetch_without_credentials depth retryCount s :
  Login.validateConfig CONFIG = false ->
  valid s = false ->
  exists s',
    fetch (S depth) retryCount s = (Eff.Throw "Authentication failed", s')
    /\ Timetable.calls s'
       = (Timetable.calls s ++ [Timetable.Authenticate false])%list
    /\ valid s' = false
    /\ Eff.trace (Timetable.world s') = Eff.trace (Timetable.world s)
    /\ Eff.files (Timetable.world s')
       !! Auth.SESSION_FILE (Timetable.authManager s) = None.
Proof.
  intros Hcfg V.
  destruct (authenticate_failure CONFIG
              (Timetable.login portal (Timetable.calls s)) fuel
              (Timetable.authManager s) false (Timetable.world s)
              (Timetable.world s))
    as (w' & E & Hf & Ht).
  { right. exact V. }
  { left. eexists. apply newAutomationRun_invalid. exact Hcfg. }
  eexists. split.
  - cbn [Timetable.fetchFreshTimetableData].
    unfold Timetable.try_catch, Timetable.attempt, Timetable.bind at 1,
      Timetable.ensureSession, Timetable.bind at 1, Timetable.hasValidSession.
    rewrite V. cbn [negb]. unfold Timetable.bind at 1,
      Timetable.authenticateWithUMS, Timetable.onManager.
    rewrite E. cbn [Js.truthy_opt negb Timetable.throw].
    reflexivity.
  - cbn [Timetable.calls Timetable.authManager Timetable.world].
    auto.
Qed.

(** A fetch with a session whose request gets an empty response. *)
Lemma fetch_empty_response depth retryCount s d :
  valid s = true ->
  Timetable.GetTimeTable portal (Timetable.calls s) = Timetable.Response d ->
  Js.truthy_opt d = false ->
  exists s',
    fetch (S depth) retryCount s
    = (Eff.Throw "Session expired - empty timetable data", s')
    /\ Timetable.calls s'
       = (Timetable.calls s
          ++ [Timetable.PostTimetable
                (Auth.sessionCookies (Timetable.authManager s))])%list
    /\ valid s' = false
    /\ Eff.files (Timetable.world s')
       = delete (Auth.SESSION_FILE (Timetable.authManager s))
           (Eff.files (Timetable.world s))
    /\ Eff.trace (Timetable.world s') = Eff.trace (Timetable.world s).
Proof.
  intros V G T.
  destruct (ensure_cases s) as [(_ & E)|(V' & _)]; [|congruence].
  match goal with
  | |- context [Timetable.PostTimetable ?c] =>
      destruct (read_cases d
                  {| Timetable.authManager := Timetable.authManager s;
                     Timetable.world := Timetable.world s;
                     Timetable.calls :=
                       (Timetable.calls s ++ [Timetable.PostTimetable c])%list |})
        as [(html & -> & Hne & _)|(_ & s' & R & Hc & Hv & Hf & Ht)]
  end.
  { apply truthy_nonempty in Hne. cbn in T. congruence. }
  exists s'. split; [|auto].
  cbn [Timetable.fetchFreshTimetableData].
  unfold Timetable.try_catch, Timetable.attempt, Timetable.bind at 1.
  rewrite E. unfold Timetable.bind at 1. rewrite post_step, G, R.
  unfold Timetable.recover, Timetable.bind, Timetable.hasValidSession.
  rewrite Hv, andb_false_r. reflexivity.
Qed.

End FetchFacts.


(** X18.  However [fetchFreshTimetableData] ends, every timetable request
    it made carried the cookies of a session, never a null or empty
    [Cookie] header.  When it returns rows, the manager holds a session
    and the rows are what [parseTimetableHTML] reads in the non-empty
    page that the last request was answered with.  When it throws, the
    message is one of five: "Authentication failed", "Re-authentication
    failed" or "Session expired - empty timetable data", and then the
    manager holds no session; or "Request failed: " or "Re-authentication
    retry failed after 2 attempts: " followed by the message of an error
    of a request. *)
Theorem fetch_ends_in_known_ways :
  forall (Row : Type) (parseTimetableHTML : string -> list Row)
         (CONFIG : Login.Config) (portal : Timetable.Portal) (fuel depth : nat)
         (retryCount : Z) (s : Timetable.State),
    let r := Timetable.fetchFreshTimetableData Row parseTimetableHTML CONFIG
               portal fuel depth retryCount s in
    exists l : list Timetable.call,
      Timetable.calls (snd r) = (Timetable.calls s ++ l)%list
      /\ (forall c, In (Timetable.PostTimetable c) l -> Js.truthy_opt c = true)
      /\ match fst r with
         | Eff.Ret rows =>
             Auth.hasValidSession (Timetable.authManager (snd r)) = true
             /\ exists l0 c html,
                  l = (l0 ++ [Timetable.PostTimetable c])%list
                  /\ Timetable.GetTimeTable portal (Timetable.calls s ++ l0)%list
                     = Timetable.Response (Some html)
                  /\ html <> EmptyString
                  /\ rows = parseTimetableHTML html
         | Eff.Throw m =>
             (Auth.hasValidSession (Timetable.authManager (snd r)) = false
              /\ (m = "Authentication failed" \/ m = "Re-authentication failed"
                  \/ m = "Session expired - empty timetable data"))
             \/ (exists history status message,
                   Timetable.GetTimeTable portal history
                   = Timetable.Rejected status message
                   /\ (m = "Request failed: " ++ message
                       \/ m = "Re-authentication retry failed after 2 attempts: "
                              ++ message))
         | Eff.Hang => True
         end.
Proof.
  intros Row parseTimetableHTML CONFIG portal fuel depth retryCount s r.
  subst r.
  destruct (fetch_ends Row parseTimetableHTML CONFIG portal fuel depth
              retryCount s) as (l & Hc & Hs & Ho).
  exists l. split; [exact Hc|]. split; [exact Hs|exact Ho].
Qed.



(** X20.  Without a session and without the credentials in the
    configuration, a fetch throws "Authentication failed" after one call
    of [authenticateWithUMS]: it makes no timetable request and no call
    to the portal or to the solver, and leaves no session, in memory or
    in the session file. *)
Theorem fetch_without_configuration_fails_offline :
  forall (Row : Type) (parseTimetableHTML : string -> list Row)
         (CONFIG : Login.Config) (portal : Timetable.Portal) (fuel depth : nat)
         (retryCount : Z) (s : Timetable.State),
    Login.validateConfig CONFIG = false ->
    Auth.hasValidSession (Timetable.authManager s) = false ->
    exists s',
      Timetable.fetchFreshTimetableData Row parseTimetableHTML CONFIG portal fuel
        (S depth) retryCount s
      = (Eff.Throw "Authentication failed", s')
      /\ Timetable.calls s'
         = (Timetable.calls s ++ [Timetable.Authenticate false])%list
      /\ Auth.hasValidSession (Timetable.authManager s') = false
      /\ Eff.trace (Timetable.world s') = Eff.trace (Timetable.world s)
      /\ Eff.files (Timetable.world s')
         !! Auth.SESSION_FILE (Timetable.authManager s) = None.
Proof.
  intros Row parseTimetableHTML CONFIG portal fuel depth retryCount s Hcfg V.
  destruct (fetch_without_credentials Row parseTimetableHTML CONFIG portal fuel
              depth retryCount s Hcfg V) as (s' & E & H).
  exists s'. split; [exact E|exact H].
Qed.

Lemma fetch_without_configuration_fails_offline_witness :
  exists s',
    Timetable.fetchFreshTimetableData unit FetchSample.no_rows
      Sample.config_no_credentials FetchSample.portal_rejecting 0 1 0
      FetchSample.state_without_session
    = (Eff.Throw "Authentication failed", s')
    /\ Timetable.calls s' = [Timetable.Authenticate false].
Proof.
  assert (H1 : Login.validateConfig Sample.config_no_credentials = false)
    by reflexivity.
  assert (H2 : Auth.hasValidSession
                 (Timetable.authManager FetchSample.state_without_session)
               = false) by reflexivity.
  destruct (fetch_without_configuration_fails_offline unit FetchSample.no_rows
              Sample.config_no_credentials FetchSample.portal_rejecting 0 0 0
              FetchSample.state_without_session H1 H2) as (s' & E & Hc & _).
  exists s'. split; [exact E|exact Hc].
Defined.

(** X21.  A fetch that holds a session and gets a response without data
    to its first request throws "Session expired - empty timetable data".
    It has then made that one request and no authentication; the session
    is cleared in memory and its file deleted.  The [catch] block does
    not run the fetch again, whatever [retryCount] is. *)
Theorem fetch_empty_response_drops_the_session :
  forall (Row : Type) (parseTimetableHTML : string -> list Row)
         (CONFIG : Login.Config) (portal : Timetable.Portal) (fuel depth : nat)
         (retryCount : Z) (s : Timetable.State) (d : option string),
    Auth.hasValidSession (Timetable.authManager s) = true ->
    Timetable.GetTimeTable portal (Timetable.calls s) = Timetable.Response d ->
    Js.truthy_opt d = false ->
    exists s',
      Timetable.fetchFreshTimetableData Row parseTimetableHTML CONFIG portal fuel
        (S depth) retryCount s
      = (Eff.Throw "Session expired - empty timetable data", s')
      /\ Timetable.calls s'
         = (Timetable.calls s
            ++ [Timetable.PostTimetable
                  (Auth.getSessionCookies (Timetable.authManager s))])%list
      /\ Auth.hasValidSession (Timetable.authManager s') = false
      /\ Eff.files (Timetable.world s')
         = delete (Auth.SESSION_FILE (Timetable.authManager s))
             (Eff.files (Timetable.world s))
      /\ Eff.trace (Timetable.world s') = Eff.trace (Timetable.world s).
Proof.
  intros Row parseTimetableHTML CONFIG portal fuel depth retryCount s d V G T.
  destruct (fetch_empty_response Row parseTimetableHTML CONFIG portal fuel
              depth retryCount s d V G T) as (s' & E & H).
  exists s'. split; [exact E|exact H].
Qed.

Lemma fetch_empty_response_drops_the_session_witness :
  exists s',
    Timetable.fetchFreshTimetableData unit FetchSample.no_rows
      Sample.config_no_credentials FetchSample.portal_empty 0 1 0
      FetchSample.state_with_session
    = (Eff.Throw "Session expired - empty timetable data", s')
    /\ Eff.files (Timetable.world s') = ∅.
Proof.
  assert (H1 : Auth.hasValidSession
                 (Timetable.authManager FetchSample.state_with_session) = true)
    by reflexivity.
  assert (H2 : Timetable.GetTimeTable FetchSample.portal_empty
                 (Timetable.calls FetchSample.state_with_session)
               = Timetable.Response None) by reflexivity.
  assert (H3 : Js.truthy_opt None = false) by reflexivity.
  destruct (fetch_empty_response_drops_the_session unit FetchSample.no_rows
              Sample.config_no_credentials FetchSample.portal_empty 0 0 0
              FetchSample.state_with_session None H1 H2 H3)
    as (s' & E & _ & _ & Hf & _).
  exists s'. split; [exact E|]. rewrite Hf. apply delete_singleton_eq.
Defined.


(** ** The files a run writes *)

(** X22.  A run of the automation writes no file but the puzzle image at
    [captchaImagePath] and the record at [cookieFile], and deletes none:
    every other path holds afterwards what it held before, however the
    run ends.  With [SAVE_CAPTCHA_IMAGE] and [SAVE_SESSION_COOKIES] both
    false the files are left exactly as they were. *)
Theorem runAutomation_writes_only_its_files :
  forall (CONFIG : Login.Config) (remote : Login.Remote) (fuel : nat)
         (this : Login.LPUAutomatedLogin) (w : Eff.World),
    (forall path : string,
        path <> Login.captchaImagePath CONFIG ->
        path <> Login.cookieFile CONFIG ->
        Eff.files (snd (Login.runAutomation CONFIG remote fuel this w)) !! path
        = Eff.files w !! path)
    /\ (Login.saveCaptchaImage CONFIG = false
        /\ Login.saveSessionCookies CONFIG = false ->
        Eff.files (snd (Login.runAutomation CONFIG remote fuel this w))
        = Eff.files w).
Proof.
  intros CONFIG remote fuel this w.
  unfold Login.runAutomation, Login.scrapeLoginPageData,
    Login.getCaptchaParameters, Login.getCaptchaImage, Login.solveCaptcha,
    Login.convertCaptchaTextM, Login.submitLoginForm,
    Login.extractAndSaveCookies, Eff.bind, Eff.emit, Eff.now, Eff.ret,
    Eff.throw, Eff.hang, Eff.writeBytes, Eff.writeFile.
  destruct remote as [page params image balance solve submit].
  cbn [Login.loginPage Login.paramsAnswer Login.imageAnswer
       Login.balanceAnswer Login.solveAnswer Login.submitAnswer].
  assert (Done : forall w' : Eff.World,
             Eff.files w' = Eff.files w ->
             (forall path : string,
                 path <> Login.captchaImagePath CONFIG ->
                 path <> Login.cookieFile CONFIG ->
                 Eff.files w' !! path = Eff.files w !! path)
             /\ (Login.saveCaptchaImage CONFIG = false
                 /\ Login.saveSessionCookies CONFIG = false ->
                 Eff.files w' = Eff.files w)).
  { intros w' E. rewrite E. auto. }
  destruct page as [[hdr fields]|]; cbn; [|apply Done; reflexivity].
  destruct params as [[sp0 hs0]|]; cbn; [|apply Done; reflexivity].
  destruct image as [img|]; cbn; [|apply Done; reflexivity].
  destruct (Login.saveCaptchaImage CONFIG) eqn:Simg; cbn;
    (destruct balance as [balance|]; cbn);
    try (destruct (Login.belowMinimum CONFIG balance); cbn);
    try (destruct solve as [text|]; cbn);
    try (destruct (Login.convertCaptchaText fuel text sp0 hs0
                     (Login.BDC_VCID fields)); cbn);
    try (destruct submit as [r|]; cbn);
    try (destruct (Login.checkResponse r); cbn);
    try (destruct (Login.saveSessionCookies CONFIG) eqn:Scook; cbn);
    try (apply Done; reflexivity);
    (split;
     [intros path Himg Hcook;
      rewrite ?lookup_insert_ne by congruence; reflexivity
     |intros [Ha Hb]; discriminate]).
Qed.
